(** * transavia-app: the flight-offer crawler and its mail report

    A shallow embedding of [main.ts] (the [crawl] action) and [Mailer.ts].

    The program is one linear procedure with effects: it validates its
    arguments, issues fifteen date-shifted GET requests, filters the returned
    offers, accumulates two report buffers and finally hands them to the
    mailer.  The embedding keeps that shape: the effects are recorded as a
    trace of events, the mutable locals ([params], [mailText], [mailHTML],
    [hasResults]) are threaded through the loop as an explicit state, and
    [try]/[catch] is an explicit completion value.

    What the JavaScript platform supplies ([Date] parsing, the local time
    zone, [Intl] formatting, [StringToNumber], commander's [help], the
    network) is gathered in a record, [Platform]; the theorems about the
    driver hold for every platform, and concrete platforms are used to run
    the code on examples. *)

From Stdlib Require Import ZArith QArith String Ascii List Bool Lia.
From Stdlib Require Import DecimalString.
Import ListNotations.

Local Open Scope string_scope.
Local Open Scope Z_scope.

(* ------------------------------------------------------------------ *)
(** ** JavaScript numbers and strings *)

Module JS.

(** A JavaScript [number].  A finite double is represented by the rational
    it denotes, which is exact for the relational operators (the only
    numeric operations applied to prices and hours); the sum of two numbers
    is rounded to the nearest double ([add], below). *)
Inductive number : Type :=
| Num (q : Q)
| NaN
| PosInf
| NegInf.

Definition Qltb (a b : Q) : bool :=
  Qnum a * QDen b <? Qnum b * QDen a.

(** [x < y] on numbers: any comparison with [NaN] is false. *)
Definition lt (x y : number) : bool :=
  match x, y with
  | NaN, _ | _, NaN => false
  | Num a, Num b => Qltb a b
  | NegInf, NegInf => false
  | NegInf, _ => true
  | _, NegInf => false
  | PosInf, _ => false
  | Num _, PosInf => true
  end.

(** [x > y] is [y < x]. *)
Definition gt (x y : number) : bool := lt y x.

Definition of_Z (z : Z) : number := Num (inject_Z z).

(** [undefined] converts to [NaN]. *)
Definition ToNumber_opt (v : option number) : number :=
  match v with Some n => n | None => NaN end.

(** [x ?? d] *)
Definition nullish {A} (x : option A) (d : A) : A :=
  match x with Some a => a | None => d end.

(** Decimal rendering of an integral number, [`${n}`]. *)
Definition Z_to_string (z : Z) : string :=
  NilZero.string_of_int (Z.to_int z).

Definition is_digit (c : ascii) : bool :=
  let n := nat_of_ascii c in (48 <=? n)%nat && (n <=? 57)%nat.

Definition digit_val (c : ascii) : Z := Z.of_nat (nat_of_ascii c) - 48.

Fixpoint all_digits (s : string) : bool :=
  match s with
  | EmptyString => true
  | String c r => is_digit c && all_digits r
  end.

Fixpoint digits_val_acc (acc : Z) (s : string) : Z :=
  match s with
  | EmptyString => acc
  | String c r => digits_val_acc (10 * acc + digit_val c) r
  end.

Definition digits_val (s : string) : Z := digits_val_acc 0 s.

(** [s.padStart(w, '0')] *)
Fixpoint zeros (n : nat) : string :=
  match n with
  | O => ""
  | S k => String "0" (zeros k)
  end.

Definition pad_left (w : nat) (s : string) : string :=
  zeros (w - String.length s)%nat ++ s.

Definition pad (w : nat) (n : Z) : string := pad_left w (Z_to_string n).

(** [s.split(c)] for a one-character separator. *)
Fixpoint split_acc (sep : ascii) (cur : string) (s : string) : list string :=
  match s with
  | EmptyString => [cur]
  | String c r =>
      if Ascii.eqb c sep then cur :: split_acc sep "" r
      else split_acc sep (cur ++ String c "") r
  end.

Definition split (sep : ascii) (s : string) : list string :=
  split_acc sep "" s.

(** [xs.join(sep)] *)
Fixpoint join (sep : string) (xs : list string) : string :=
  match xs with
  | [] => ""
  | [x] => x
  | x :: r => x ++ sep ++ join sep r
  end.

(** [s.replace(/c/g, '')] for a single character [c]. *)
Fixpoint remove_all (c : ascii) (s : string) : string :=
  match s with
  | EmptyString => ""
  | String a r => if Ascii.eqb a c then remove_all c r
                  else String a (remove_all c r)
  end.

(** [s.replace(c, '')]: only the first occurrence goes. *)
Fixpoint remove_first (c : ascii) (s : string) : string :=
  match s with
  | EmptyString => ""
  | String a r => if Ascii.eqb a c then r else String a (remove_first c r)
  end.

(** [s.replace(/^0/, '')] *)
Definition strip_leading_zero (s : string) : string :=
  match s with
  | String "0" r => r
  | _ => s
  end.

Definition is_space (c : ascii) : bool :=
  let n := nat_of_ascii c in
  (n =? 32)%nat || ((9 <=? n)%nat && (n <=? 13)%nat).

Fixpoint trim_start (s : string) : string :=
  match s with
  | String c r => if is_space c then trim_start r else s
  | EmptyString => ""
  end.

Fixpoint rev_string_acc (acc s : string) : string :=
  match s with
  | EmptyString => acc
  | String c r => rev_string_acc (String c acc) r
  end.

Definition rev_string (s : string) : string := rev_string_acc "" s.

(** [s.trim()], on the ASCII white space. *)
Definition trim (s : string) : string :=
  rev_string (trim_start (rev_string (trim_start s))).

(** [s.replace(/from/g, to)]: leftmost, non-overlapping occurrences.
    [skip] counts the characters of a matched occurrence still to drop. *)
Fixpoint replace_all_skip (from to : string) (skip : nat) (s : string) : string :=
  match s with
  | EmptyString => ""
  | String c r =>
      match skip with
      | S k => replace_all_skip from to k r
      | O =>
          if String.prefix from s
          then to ++ replace_all_skip from to (String.length from - 1)%nat r
          else String c (replace_all_skip from to O r)
      end
  end.

Definition replace_all (from to s : string) : string :=
  replace_all_skip from to O s.

(** The integer nearest to [n / d], the even one of the two when [n / d]
    is half way between them ([d > 0]). *)
Definition round_half_even (n d : Z) : Z :=
  let fl := n / d in
  match 2 * (n mod d) ?= d with
  | Lt => fl
  | Gt => fl + 1
  | Eq => if Z.even fl then fl else fl + 1
  end.

(** [n / d] divided by [2 ^ e], as a fraction. *)
Definition scaled (n d e : Z) : Z * Z :=
  if 0 <=? e then (n, d * 2 ^ e) else (n * 2 ^ (- e), d).

(** The double nearest to a rational, ties to even: 53 bits of precision,
    exponents from -1074 on, infinite from 2^1024 on. *)
Definition round_double (q : Q) : number :=
  let n := Z.abs (Qnum q) in
  let d := Zpos (Qden q) in
  if n =? 0 then Num 0
  else
    let e0 := Z.log2 n - Z.log2 d - 52 in
    let '(a0, b0) := scaled n d e0 in
    let e1 := if a0 / b0 <? 2 ^ 52 then e0 - 1 else e0 in
    let e := Z.max e1 (-1074) in
    let '(a, b) := scaled n d e in
    let m := round_half_even a b in
    if 1024 <=? Z.log2 m + e
    then (if Qnum q <? 0 then NegInf else PosInf)
    else
      let s := if Qnum q <? 0 then -1 else 1 in
      Num (Qred (if 0 <=? e then inject_Z (s * m * 2 ^ e)
                 else Qmake (s * m) (Z.to_pos (2 ^ (- e))))).

(** [x + y] on numbers. *)
Definition add (x y : number) : number :=
  match x, y with
  | NaN, _ | _, NaN => NaN
  | PosInf, NegInf | NegInf, PosInf => NaN
  | PosInf, _ | _, PosInf => PosInf
  | NegInf, _ | _, NegInf => NegInf
  | Num a, Num b => round_double (a + b)
  end.

End JS.

(* ------------------------------------------------------------------ *)
(** ** Time values and the calendar ([Date])

    A time value is a number of milliseconds since 1970-01-01T00:00Z; an
    invalid [Date] (time value [NaN]) is [None].  Days are counted in the
    proleptic Gregorian calendar. *)

Module JSDate.

Definition msPerDay : Z := 86400000.
Definition msPerHour : Z := 3600000.

Definition Day (t : Z) : Z := t / msPerDay.
Definition TimeWithinDay (t : Z) : Z := t mod msPerDay.

(** Day number of the civil date [y]-[m]-[d] (months 1..12); linear in [d],
    so a day beyond the end of the month rolls over. *)
Definition days_from_civil (y m d : Z) : Z :=
  let y' := if m <=? 2 then y - 1 else y in
  let era := y' / 400 in
  let yoe := y' mod 400 in
  let mp := if 2 <? m then m - 3 else m + 9 in
  let doy := (153 * mp + 2) / 5 + d - 1 in
  let doe := yoe * 365 + yoe / 4 - yoe / 100 + doy in
  era * 146097 + doe - 719468.

(** Civil date (year, month 1..12, day 1..31) of a day number. *)
Definition civil_from_days (z : Z) : Z * Z * Z :=
  let z' := z + 719468 in
  let era := z' / 146097 in
  let doe := z' mod 146097 in
  let yoe := (doe - doe / 1460 + doe / 36524 - doe / 146096) / 365 in
  let doy := doe - (365 * yoe + yoe / 4 - yoe / 100) in
  let mp := (5 * doy + 2) / 153 in
  let d := doy - (153 * mp + 2) / 5 + 1 in
  let m := if mp <? 10 then mp + 3 else mp - 9 in
  (if m <=? 2 then yoe + era * 400 + 1 else yoe + era * 400, m, d).

Definition YearFromTime (t : Z) : Z := fst (fst (civil_from_days (Day t))).
(** Months are numbered from 0 in [Date]. *)
Definition MonthFromTime (t : Z) : Z := snd (fst (civil_from_days (Day t))) - 1.
Definition DateFromTime (t : Z) : Z := snd (civil_from_days (Day t)).
Definition HourFromTime (t : Z) : Z := TimeWithinDay t / msPerHour.
Definition MinFromTime (t : Z) : Z := (TimeWithinDay t / 60000) mod 60.

Definition MakeDay (year month date : Z) : Z :=
  days_from_civil (year + month / 12) (month mod 12 + 1) 1 + date - 1.

Definition MakeDate (day time : Z) : Z := day * msPerDay + time.

Definition TimeClip (t : Z) : option Z :=
  if Z.abs t <=? 8640000000000000 then Some t else None.

Definition isLeap (y : Z) : bool :=
  ((y mod 4 =? 0) && negb (y mod 100 =? 0)) || (y mod 400 =? 0).

Definition daysInMonth (y m : Z) : Z :=
  if m =? 2 then (if isLeap y then 29 else 28)
  else if (m =? 4) || (m =? 6) || (m =? 9) || (m =? 11) then 30
  else 31.

Definition validDate (y m d : Z) : bool :=
  (1 <=? m) && (m <=? 12) && (1 <=? d) && (d <=? daysInMonth y m).

(** [Date.parse] on the date-only form [YYYY-MM-DD], which denotes midnight
    UTC of that day.  Any other string, and a day that does not exist, is
    left invalid here (engines differ on them). *)
Definition parse_iso_date (s : string) : option Z :=
  match s with
  | String y1 (String y2 (String y3 (String y4 (String "-"
      (String m1 (String m2 (String "-" (String d1 (String d2 EmptyString))))))))) =>
      let ys := String y1 (String y2 (String y3 (String y4 "")))%string in
      let ms := String m1 (String m2 "")%string in
      let ds := String d1 (String d2 "")%string in
      if JS.all_digits ys && JS.all_digits ms && JS.all_digits ds then
        let y := JS.digits_val ys in
        let m := JS.digits_val ms in
        let d := JS.digits_val ds in
        if validDate y m d then Some (MakeDate (MakeDay y (m - 1) d) 0) else None
      else None
  | _ => None
  end.

(** The date part of [toISOString()], that is [toISOString().split('T')[0]]:
    the UTC date, the year on four digits when it lies in 0..9999 and signed
    on six digits otherwise. *)
Definition iso_date (t : Z) : string :=
  let y := YearFromTime t in
  let ystr := if ((0 <=? y) && (y <=? 9999))%Z then JS.pad 4 y
              else ((if (y <? 0)%Z then "-" else "+") ++ JS.pad 6 (Z.abs y))%string in
  (ystr ++ "-" ++ JS.pad 2 (MonthFromTime t + 1)%Z ++ "-" ++ JS.pad 2 (DateFromTime t))%string.

End JSDate.

(* ------------------------------------------------------------------ *)
(** ** The data of the program *)

(** What commander stores for an option declared with an optional value
    ([-a [adults]]): the string that follows the flag, or [true] when the
    flag is given bare. *)
Inductive OptionValue : Type :=
| Given (s : string)
| Bare.

(** The options of the [crawl] command, as commander hands them to [main]:
    an option that was not given is an absent key, and a value is the
    string of the command line, unparsed.  [-o], [-d], [-s], [-p] and [-m]
    take a value; [-a], [-c] and [-r] may be given bare. *)
Record FlightArguments : Type := {
  origin : option string;
  destination : option string;
  start : option string;
  mail : option string;
  price : option string;
  adults : option OptionValue;
  children : option OptionValue;
  hourRange : option OptionValue
}.

(** [process.env] *)
Record Env : Type := {
  TRANSAVIA_API_KEY : option string
}.

(** One element of the [flightOffer] array of a response.  A field that the
    body does not carry is [None] ([undefined]). *)
Record OutboundFlight : Type := {
  flightNumber : option string;
  departureDateTime : option string;
  arrivalDateTime : option string
}.

Record PricingInfoSum : Type := {
  totalPriceAllPassengers : option JS.number;
  totalPriceOnePassenger : option JS.number;
  currencyCode : option string
}.

Record Deeplink : Type := {
  href : option string
}.

Record FlightOffer : Type := {
  outboundFlight : option OutboundFlight;
  pricingInfoSum : option PricingInfoSum;
  deeplink : option Deeplink
}.

(** The [flightOffer] field of [response.data]: absent, an array of offers,
    or some other value.  Of another value the code tests the [length],
    truthy or not, and then fails with a [TypeError], on the iteration or on
    the first thing iterated (a number, an object, a non-empty string); an
    element of the array that is not an object behaves as an offer without
    [outboundFlight]. *)
Inductive FlightOfferField : Type :=
| FOAbsent
| FOArray (offers : list FlightOffer)
| FOOther (length_truthy : bool).

(** What [await axios.get(URL, ...)] does: it returns a response or throws an
    [AxiosError], whose [response?.data] is given. *)
Inductive HttpResult : Type :=
| HttpOk (flightOffer : FlightOfferField)
| HttpError (response_data : option string).

Inductive Error : Type :=
| TypeError
| RangeError
| AxiosError (response_data : option string).

(** [error.response?.data] *)
Definition response_data_of (e : Error) : option string :=
  match e with
  | AxiosError d => d
  | TypeError | RangeError => None
  end.

(** The value of a property of [params]: a string of the command line,
    [true], or a number written in the code. *)
Inductive PValue : Type :=
| PString (s : string)
| PBool (b : bool)
| PNumber (n : Z).

(** The value of an option that was given. *)
Definition value_of (v : OptionValue) : PValue :=
  match v with
  | Given s => PString s
  | Bare => PBool true
  end.

(** The [params] object, mutated in place by the loop. *)
Record Params : Type := {
  p_origin : string;
  p_destination : string;
  originDepartureDate : string;
  directFlight : bool;
  p_adults : PValue;
  p_children : PValue;
  p_hourRange : PValue
}.

Definition set_originDepartureDate (p : Params) (d : string) : Params :=
  {| p_origin := p_origin p;
     p_destination := p_destination p;
     originDepartureDate := d;
     directFlight := directFlight p;
     p_adults := p_adults p;
     p_children := p_children p;
     p_hourRange := p_hourRange p |}.

(** The text buffer [mailText] holds the sentences appended to it and the
    HTML buffer [mailHTML] the pieces appended to it, each piece recorded as
    the values that fill the holes of its template literal. *)
Record TextRow : Type := {
  t_flightNumber : option string;
  t_departure : string;
  t_origin : string;
  t_arrival : option string;
  t_destination : string;
  t_priceAllPassengers : option JS.number;
  t_currency : option string;
  t_priceOnePassenger : option JS.number;
  t_link : string
}.

Record HtmlRow : Type := {
  h_flightNumber : option string;
  h_departure : string;
  h_arrival : string;
  h_priceOnePassenger : option JS.number;
  h_currency : option string;
  h_passengers : JS.number;
  h_priceAllPassengers : option JS.number;
  h_link : string
}.

Record HtmlHead : Type := {
  hd_origin : string;
  hd_destination : string;
  hd_start : string;
  hd_adults : PValue;
  hd_children : PValue;
  hd_price : option string
}.

Inductive HtmlPiece : Type :=
| Head (h : HtmlHead)
| Tr (r : HtmlRow)
| Tail.

(** The message handed to the transport by [Mailer.sendMail]. *)
Record MailMessage : Type := {
  from : string;
  to : string;
  subject : string;
  text : list TextRow;
  html : list HtmlPiece
}.

(** The observable effects, in the order they happen. *)
Inductive Event : Type :=
| ConsoleError (msg : string)
| HelpOutput
| HttpGet (url : string) (apikey : string)
| ConsoleLogData (data : option string)
| TransportSendMail (m : MailMessage)
| ConsoleLog (msg : string).

(** How [main] ends: [process.exit(code)], a normal return, or an exception
    that nothing catches. *)
Inductive Status : Type :=
| Exited (code : Z)
| Returned
| Uncaught (e : Error).

Record Outcome : Type := {
  events : list Event;
  status : Status
}.

(** What the platform supplies. *)
Record Platform : Type := {
  (** time value of [new Date(s)] *)
  Date_parse : string -> option Z;
  (** [LocalTZA(t, isUTC)]: the offset of local time, in milliseconds *)
  LocalTZA : Z -> bool -> Z;
  (** [Intl.DateTimeFormat('fr-FR', {year, month, day, hour, minute}).format] *)
  Intl_dateTime : Z -> string;
  (** [Intl.DateTimeFormat('fr-FR', {hour: 'numeric'}).format] *)
  Intl_hour : Z -> string;
  (** conversion of a string to a number, as by unary [+] and [<] *)
  StringToNumber : string -> JS.number;
  (** [program.help()]: [Some c] when it ends the process with status [c],
      [None] when it returns *)
  help_exit : option Z;
  (** the response to the [n]-th request of the run *)
  axios_get : nat -> string -> HttpResult
}.

(** ** Mailer.ts *)

Record Mailer : Type := {
  sender : string;
  receivers : list string
}.

Definition sendMail (m : Mailer) (subj : string) (txt : list TextRow)
    (htm : list HtmlPiece) : Event :=
  TransportSendMail
    {| from := sender m;
       to := JS.join ", " (receivers m);
       subject := subj;
       text := txt;
       html := htm |}.

(* ------------------------------------------------------------------ *)
(** ** main.ts *)

Definition requiredArgs : list string := ["origin"; "destination"; "start"; "mail"].

Definition API_URL : string := "https://api.transavia.com/v1/flightoffers/".

(** [arg in args] *)
Definition has_key (args : FlightArguments) (arg : string) : bool :=
  let present {A} (x : option A) := match x with Some _ => true | None => false end in
  if (arg =? "origin")%string then present (origin args)
  else if (arg =? "destination")%string then present (destination args)
  else if (arg =? "start")%string then present (start args)
  else if (arg =? "mail")%string then present (mail args)
  else if (arg =? "price")%string then present (price args)
  else if (arg =? "adults")%string then present (adults args)
  else if (arg =? "children")%string then present (children args)
  else if (arg =? "hourRange")%string then present (hourRange args)
  else false.

(** The first required argument that is missing, if any: the loop
    [for (const arg of requiredArgs)] leaves at the first one. *)
Fixpoint first_missing (args : FlightArguments) (names : list string) : option string :=
  match names with
  | [] => None
  | arg :: rest => if has_key args arg then first_missing args rest else Some arg
  end.

(** [start.replace(/(\d{4})(\d{2})(\d{2})/, '$1-$2-$3')]: the first run of
    eight digits gets its two dashes. *)
Definition eight_digits (s : string) : option (string * string) :=
  match s with
  | String a (String b (String c (String d (String e (String f (String g (String h r))))))) =>
      if JS.is_digit a && JS.is_digit b && JS.is_digit c && JS.is_digit d
         && JS.is_digit e && JS.is_digit f && JS.is_digit g && JS.is_digit h
      then Some (String a (String b (String c (String d
                  (String "-" (String e (String f (String "-" (String g (String h "")))))))))%string, r)
      else None
  | _ => None
  end.

Fixpoint format_start (s : string) : string :=
  match eight_digits s with
  | Some (dashed, rest) => (dashed ++ rest)%string
  | None =>
      match s with
      | EmptyString => ""%string
      | String c r => String c (format_start r)
      end
  end.

(** [Object.entries(params)] *)
Definition entries (p : Params) : list (string * PValue) :=
  [ ("origin"%string, PString (p_origin p));
    ("destination"%string, PString (p_destination p));
    ("originDepartureDate"%string, PString (originDepartureDate p));
    ("directFlight"%string, PBool (directFlight p));
    ("adults"%string, p_adults p);
    ("children"%string, p_children p);
    ("hourRange"%string, p_hourRange p) ].

(** [Boolean(v)] *)
Definition truthy (v : PValue) : bool :=
  match v with
  | PString s => negb (s =? "")%string
  | PBool b => b
  | PNumber n => negb (n =? 0)
  end.

(** [`${v}`] *)
Definition to_string (v : PValue) : string :=
  match v with
  | PString s => s
  | PBool true => "true"
  | PBool false => "false"
  | PNumber n => JS.Z_to_string n
  end.

(** [value && `${key}=${value}`] *)
Definition query_entry (kv : string * PValue) : PValue :=
  if truthy (snd kv) then PString (fst kv ++ "=" ++ to_string (snd kv)) else snd kv.

(** [Object.entries(params).map(...).filter(Boolean).join('&')] *)
Definition query (p : Params) : string :=
  JS.join "&" (map to_string (filter truthy (map query_entry (entries p)))).

Definition request_url (p : Params) : string := (API_URL ++ "?" ++ query p)%string.

(** [hourRangeStart], [hourRangeEnd] and [maxPrice] are a string of the
    command line or the default number. *)
Inductive StrOrNum : Type :=
| Str (s : string)
| Number (n : JS.number).

(** The string that an option was given with, if it was given one. *)
Definition given_string (x : option OptionValue) : option string :=
  match x with
  | Some (Given s) => Some s
  | _ => None
  end.

(** [hourRange?.split] is not a function when [-r] was given bare:
    [hourRange] is then [true], and the call throws a [TypeError]. *)
Definition split_throws (hr : option OptionValue) : bool :=
  match hr with
  | Some Bare => true
  | _ => false
  end.

(** [hourRange?.split('-')[k] ?? d], for an [hourRange] that is a string
    or absent. *)
Definition hour_bound (hr : option string) (k : nat) (d : Z) : StrOrNum :=
  match hr with
  | None => Number (JS.of_Z d)
  | Some s =>
      match nth_error (JS.split "-" s) k with
      | Some piece => Str piece
      | None => Number (JS.of_Z d)
      end
  end.

(** The constants of a run that the loop body reads. *)
Record Consts : Type := {
  c_origin : string;
  c_destination : string;
  c_formattedStart : string;
  maxPrice : StrOrNum;
  hourRangeStart : StrOrNum;
  hourRangeEnd : StrOrNum;
  apikey : string
}.

(** The locals that the loop mutates. *)
Record LoopState : Type := {
  params : Params;
  mailText : list TextRow;
  mailHTML : list HtmlPiece;
  hasResults : bool
}.

Definition set_params (st : LoopState) (p : Params) : LoopState :=
  {| params := p; mailText := mailText st; mailHTML := mailHTML st;
     hasResults := hasResults st |}.

Definition set_hasResults (st : LoopState) : LoopState :=
  {| params := params st; mailText := mailText st; mailHTML := mailHTML st;
     hasResults := true |}.

Definition append_mailText (st : LoopState) (r : TextRow) : LoopState :=
  {| params := params st; mailText := mailText st ++ [r]; mailHTML := mailHTML st;
     hasResults := hasResults st |}.

Definition append_mailHTML (st : LoopState) (x : HtmlPiece) : LoopState :=
  {| params := params st; mailText := mailText st; mailHTML := mailHTML st ++ [x];
     hasResults := hasResults st |}.

Section Driver.

Variable P : Platform.

Definition LocalTime (t : Z) : Z := t + LocalTZA P t true.
Definition UTC (t : Z) : Z := t - LocalTZA P t false.

(** [new Date(time)] for a string field that may be absent. *)
Definition new_Date (time : option string) : option Z :=
  match time with
  | Some s => Date_parse P s
  | None => None
  end.

(** [date.setDate(dt)] on a valid date *)
Definition setDate (tv dt : Z) : option Z :=
  let t := LocalTime tv in
  let newDate :=
    JSDate.MakeDate
      (JSDate.MakeDay (JSDate.YearFromTime t) (JSDate.MonthFromTime t) dt)
      (JSDate.TimeWithinDay t) in
  JSDate.TimeClip (UTC newDate).

(** [date.getDate()] on a valid date *)
Definition getDate (tv : Z) : Z := JSDate.DateFromTime (LocalTime tv).

(** [AppDate.addDays]: a copy of the date, moved by [setDate(getDate() + days)]. *)
Definition addDays (this : option Z) (days : Z) : option Z :=
  match this with
  | Some tv => setDate tv (getDate tv + days)
  | None => None
  end.

(** [new AppDate(formattedStart).addDays(i).toISOString().split('T')[0].replace(/-/g, '')];
    [None] when [toISOString] throws its [RangeError]. *)
Definition departure_date (formattedStart : string) (i : nat) : option string :=
  match addDays (Date_parse P formattedStart) (Z.of_nat i) with
  | Some u => Some (JS.remove_all "-" (JSDate.iso_date u))
  | None => None
  end.

(** [formatDate(time)]; [None] when [format] throws its [RangeError] on an
    invalid date. *)
Definition formatDate (time : option string) : option string :=
  match new_Date time with
  | Some tv => Some (Intl_dateTime P tv)
  | None => None
  end.

(** The [hour] of the loop body: the formatted hour, without its [h] and
    its leading zero, read back as a number. *)
Definition departure_hour (departureTime : option string) : option JS.number :=
  match new_Date departureTime with
  | Some tv =>
      Some (StringToNumber P
              (JS.trim (JS.strip_leading_zero (JS.remove_first "h" (Intl_hour P tv)))))
  | None => None
  end.

Definition ToNumber (v : StrOrNum) : JS.number :=
  match v with
  | Str s => StringToNumber P s
  | Number n => n
  end.

(** [+v] on a property of [params] *)
Definition ToNumber_value (v : PValue) : JS.number :=
  match v with
  | PString s => StringToNumber P s
  | PBool true => JS.of_Z 1
  | PBool false => JS.of_Z 0
  | PNumber n => JS.of_Z n
  end.

(** The body of [for (const flight of flightOffer)]: the state it leaves and
    the error it throws, if any. *)
Definition process_flight (c : Consts) (st : LoopState) (flight : FlightOffer)
    : LoopState * option Error :=
  match outboundFlight flight with
  | None => (st, Some TypeError)
  | Some ob =>
  let departureTime := departureDateTime ob in
  let arrivalTime := arrivalDateTime ob in
  match pricingInfoSum flight with
  | None => (st, Some TypeError)
  | Some pricing =>
  let priceAllPassengers := totalPriceAllPassengers pricing in
  let priceOnePassenger := totalPriceOnePassenger pricing in
  let currency := currencyCode pricing in
  match deeplink flight with
  | None => (st, Some TypeError)
  | Some dl =>
  match href dl with
  | None => (st, Some TypeError)
  | Some h =>
  let link := JS.replace_all "nl-NL" "fr-FR" h in
  if JS.lt (JS.ToNumber_opt priceOnePassenger) (ToNumber (maxPrice c)) then
    match departure_hour departureTime with
    | None => (st, Some RangeError)
    | Some hour =>
        if JS.lt hour (ToNumber (hourRangeStart c)) || JS.gt hour (ToNumber (hourRangeEnd c))
        then (st, None)
        else
          match formatDate departureTime with
          | None => (st, Some RangeError)
          | Some dep =>
              let st1 :=
                append_mailText st
                  {| t_flightNumber := flightNumber ob;
                     t_departure := dep;
                     t_origin := c_origin c;
                     t_arrival := arrivalTime;
                     t_destination := c_destination c;
                     t_priceAllPassengers := priceAllPassengers;
                     t_currency := currency;
                     t_priceOnePassenger := priceOnePassenger;
                     t_link := link |} in
              match formatDate arrivalTime with
              | None => (st1, Some RangeError)
              | Some arr =>
                  (append_mailHTML st1
                     (Tr {| h_flightNumber := flightNumber ob;
                            h_departure := dep;
                            h_arrival := arr;
                            h_priceOnePassenger := priceOnePassenger;
                            h_currency := currency;
                            h_passengers :=
                              JS.add (ToNumber_value (p_adults (params st1)))
                                     (ToNumber_value (p_children (params st1)));
                            h_priceAllPassengers := priceAllPassengers;
                            h_link := link |}),
                   None)
              end
          end
    end
  else (st, None)
  end end end end.

(** [for (const flight of flightOffer) { ... }]: it stops at the first error. *)
Fixpoint process_flights (c : Consts) (st : LoopState) (offers : list FlightOffer)
    : LoopState * option Error :=
  match offers with
  | [] => (st, None)
  | flight :: rest =>
      match process_flight c st flight with
      | (st', None) => process_flights c st' rest
      | (st', Some e) => (st', Some e)
      end
  end.

(** The [try] block, from the response on. *)
Definition try_block (c : Consts) (st : LoopState) (resp : HttpResult)
    : LoopState * option Error :=
  match resp with
  | HttpError d => (st, Some (AxiosError d))
  | HttpOk FOAbsent => (st, Some TypeError)
  | HttpOk (FOOther len) =>
      (if len then set_hasResults st else st, Some TypeError)
  | HttpOk (FOArray offers) =>
      process_flights c
        (match offers with [] => st | _ :: _ => set_hasResults st end) offers
  end.

(** [catch (error) { console.log(error.response?.data) }] *)
Definition catch_block (e : option Error) : list Event :=
  match e with
  | Some err => [ConsoleLogData (response_data_of err)]
  | None => []
  end.

(** One turn of [for (let i = 0; i < 15; i++)].  The date is computed outside
    the [try]: an error there ([inr]) leaves [main]. *)
Definition iteration (c : Consts) (i : nat) (st : LoopState)
    : (LoopState * list Event) + Error :=
  match departure_date (c_formattedStart c) i with
  | None => inr RangeError
  | Some d =>
      let st1 := set_params st (set_originDepartureDate (params st) d) in
      let URL := request_url (params st1) in
      let '(st2, err) := try_block c st1 (axios_get P i URL) in
      inl (st2, HttpGet URL (apikey c) :: catch_block err)
  end.

(** [n] turns of the loop from offset [i] on. *)
Fixpoint scan (c : Consts) (n i : nat) (st : LoopState)
    : LoopState * list Event * option Error :=
  match n with
  | O => (st, [], None)
  | S n' =>
      match iteration c i st with
      | inr e => (st, [], Some e)
      | inl (st1, evs) =>
          let '(st2, evs', r) := scan c n' (S i) st1 in
          (st2, (evs ++ evs')%list, r)
      end
  end.

(** The [params] object as it is built, before the loop. *)
Definition initial_params (origin destination start : string)
    (args : FlightArguments) : Params :=
  {| p_origin := origin;
     p_destination := destination;
     originDepartureDate := start;
     directFlight := true;
     p_adults := JS.nullish (option_map value_of (adults args)) (PNumber 2);
     p_children := JS.nullish (option_map value_of (children args)) (PNumber 0);
     p_hourRange := JS.nullish (option_map value_of (hourRange args)) (PString "0-24") |}.

(** The locals before the loop; [shown] is [formatDate(formattedStart)]. *)
Definition initial_state (origin destination start shown : string)
    (args : FlightArguments) : LoopState :=
  {| params := initial_params origin destination start args;
     mailText := [];
     mailHTML := [Head {| hd_origin := origin;
                          hd_destination := destination;
                          hd_start := shown;
                          hd_adults :=
                            JS.nullish (option_map value_of (adults args)) (PNumber 2);
                          hd_children :=
                            JS.nullish (option_map value_of (children args)) (PNumber 0);
                          hd_price := price args |}];
     hasResults := false |}.

Definition run_consts (key origin destination start : string)
    (args : FlightArguments) : Consts :=
  {| c_origin := origin;
     c_destination := destination;
     c_formattedStart := format_start start;
     maxPrice := JS.nullish (option_map Str (price args)) (Number (JS.of_Z 1000));
     hourRangeStart := hour_bound (given_string (hourRange args)) 0 0;
     hourRangeEnd := hour_bound (given_string (hourRange args)) 1 24;
     apikey := key |}.

(** [main] once its arguments are known to be there.  The header of the
    report formats the start date, and the bounds of the hour range are cut
    out of [hourRange], before the loop: either can throw. *)
Definition crawl (key origin destination start mail : string)
    (args : FlightArguments) : Outcome :=
  match formatDate (Some (format_start start)) with
  | None => {| events := []; status := Uncaught RangeError |}
  | Some shown =>
      if split_throws (hourRange args)
      then {| events := []; status := Uncaught TypeError |}
      else
      let '(st, evs, r) :=
        scan (run_consts key origin destination start args) 15 0
          (initial_state origin destination start shown args) in
      match r with
      | Some e => {| events := evs; status := Uncaught e |}
      | None =>
          let mailer :=
            {| sender := "David Nogueira <noreply@david-nogueira.dev>";
               receivers := [mail] |} in
          {| events :=
               (evs ++
                (if hasResults st
                 then [sendMail mailer "Nouvelle offre de vol" (mailText st)
                         (mailHTML st ++ [Tail]);
                       ConsoleLog "Mail bien envoyé !"]
                 else []))%list;
             status := Returned |}
      end
  end.

(** [async function main(args)] *)
Definition main (env : Env) (args : FlightArguments) : Outcome :=
  match TRANSAVIA_API_KEY env with
  | None | Some EmptyString =>
      {| events := [ConsoleError "Missing Transavia API key"]; status := Exited 1 |}
  | Some key =>
      match first_missing args requiredArgs with
      | Some arg =>
          {| events := [ConsoleError ("Missing required argument: " ++ arg); HelpOutput];
             status := Exited (match help_exit P with Some code => code | None => 1 end) |}
      | None =>
          match origin args, destination args, start args, mail args with
          | Some o, Some d, Some s, Some m => crawl key o d s m args
          | _, _, _, _ => {| events := []; status := Uncaught TypeError |}
          end
      end
  end.

End Driver.

(* ------------------------------------------------------------------ *)
(** ** Concrete platforms, to run the program on examples

    Node with a given time zone and a given sequence of responses.  [Date]
    parsing covers the two ISO forms that occur (a date alone is UTC, a date
    and time without offset is local time), the formats are those of the
    [fr-FR] locale, and [StringToNumber] covers the unsigned decimal
    integers, each read as the nearest double; commander's [help()] ends the
    process itself, with status 0. *)

Module Node.

(** [YYYY-MM-DDTHH:mm:ss], as a local time value *)
Definition parse_local_dateTime (s : string) : option Z :=
  match s with
  | String y1 (String y2 (String y3 (String y4 (String "-"
      (String m1 (String m2 (String "-" (String d1 (String d2 (String "T"
      (String h1 (String h2 (String ":" (String n1 (String n2 (String ":"
      (String s1 (String s2 EmptyString)))))))))))))))))) =>
      let day := String y1 (String y2 (String y3 (String y4 (String "-"
                   (String m1 (String m2 (String "-" (String d1 (String d2 "")))))))))%string in
      let hs := String h1 (String h2 "")%string in
      let ns := String n1 (String n2 "")%string in
      let ss := String s1 (String s2 "")%string in
      match JSDate.parse_iso_date day with
      | Some t =>
          if JS.all_digits hs && JS.all_digits ns && JS.all_digits ss
             && (JS.digits_val hs <? 24) && (JS.digits_val ns <? 60)
             && (JS.digits_val ss <? 60)
          then Some (t + JS.digits_val hs * JSDate.msPerHour
                       + JS.digits_val ns * 60000 + JS.digits_val ss * 1000)
          else None
      | None => None
      end
  | _ => None
  end.

Definition parse (tza : Z -> bool -> Z) (s : string) : option Z :=
  match JSDate.parse_iso_date s with
  | Some t => Some t
  | None =>
      match parse_local_dateTime s with
      | Some t => Some (t - tza t false)
      | None => None
      end
  end.

(** [dd/mm/yyyy hh:mm] *)
Definition format_dateTime (tza : Z -> bool -> Z) (tv : Z) : string :=
  let t := tv + tza tv true in
  (JS.pad 2 (JSDate.DateFromTime t) ++ "/" ++ JS.pad 2 (JSDate.MonthFromTime t + 1)%Z
   ++ "/" ++ JS.pad 4 (JSDate.YearFromTime t) ++ " "
   ++ JS.pad 2 (JSDate.HourFromTime t) ++ ":" ++ JS.pad 2 (JSDate.MinFromTime t))%string.

(** [hh h] *)
Definition format_hour (tza : Z -> bool -> Z) (tv : Z) : string :=
  (JS.pad 2 (JSDate.HourFromTime (tv + tza tv true)%Z) ++ " h")%string.

Definition string_to_number (s : string) : JS.number :=
  let t := JS.trim s in
  if (t =? "")%string then JS.of_Z 0
  else if JS.all_digits t then JS.round_double (inject_Z (JS.digits_val t))
  else JS.NaN.

Definition platform (tza : Z -> bool -> Z) (responses : list HttpResult) : Platform :=
  {| Date_parse := parse tza;
     LocalTZA := tza;
     Intl_dateTime := format_dateTime tza;
     Intl_hour := format_hour tza;
     StringToNumber := string_to_number;
     help_exit := Some 0;
     axios_get := fun n _ => nth n responses (HttpOk (FOArray [])) |}.

(** Time zones: UTC, and Europe/Paris during 2024 (UTC+1, and UTC+2 from
    31 March 01:00 UTC to 27 October 01:00 UTC). *)
Definition utc (t : Z) (isUTC : bool) : Z := 0.

Definition at_hour (y m d h : Z) : Z :=
  JSDate.MakeDate (JSDate.days_from_civil y m d) (h * JSDate.msPerHour).

Definition europe_paris_2024 (t : Z) (isUTC : bool) : Z :=
  if isUTC then
    if (at_hour 2024 3 31 1 <=? t) && (t <? at_hour 2024 10 27 1)
    then 2 * JSDate.msPerHour else JSDate.msPerHour
  else
    if (at_hour 2024 3 31 3 <=? t) && (t <? at_hour 2024 10 27 3)
    then 2 * JSDate.msPerHour else JSDate.msPerHour.

End Node.

(* ------------------------------------------------------------------ *)
(** ** The vocabulary of the properties *)

(** The URLs requested, in order. *)
Fixpoint requests (evs : list Event) : list string :=
  match evs with
  | [] => []
  | HttpGet url _ :: r => url :: requests r
  | _ :: r => requests r
  end.

(** The messages handed to the mail transport, in order. *)
Fixpoint mails_sent (evs : list Event) : list MailMessage :=
  match evs with
  | [] => []
  | TransportSendMail m :: r => m :: mails_sent r
  | _ :: r => mails_sent r
  end.

(** The offer rows of an HTML buffer. *)
Fixpoint html_rows (b : list HtmlPiece) : list HtmlRow :=
  match b with
  | [] => []
  | Tr r :: rest => r :: html_rows rest
  | _ :: rest => html_rows rest
  end.

(** The parameter names of a query string [k1=v1&k2=v2...]. *)
Fixpoint before_equals (s : string) : string :=
  match s with
  | EmptyString => ""%string
  | String c r => if Ascii.eqb c "=" then ""%string else String c (before_equals r)
  end.

Definition query_keys (q : string) : list string :=
  map before_equals (JS.split "&" q).

(** The calendar, one day at a time: the day after a civil date, and a date
    plus [i] days. *)
Definition next_day (date : Z * Z * Z) : Z * Z * Z :=
  let '(y, m, d) := date in
  if d <? JSDate.daysInMonth y m then (y, m, d + 1)
  else if m <? 12 then (y, m + 1, 1)
  else (y + 1, 1, 1).

Fixpoint plus_days (date : Z * Z * Z) (i : nat) : Z * Z * Z :=
  match i with
  | O => date
  | S k => next_day (plus_days date k)
  end.

(** A civil date as eight digits, [YYYYMMDD]. *)
Definition yyyymmdd (date : Z * Z * Z) : string :=
  let '(y, m, d) := date in
  (JS.pad 4 y ++ JS.pad 2 m ++ JS.pad 2 d)%string.

(** The fields of [params] other than the date. *)
Definition same_fixed (p q : Params) : Prop :=
  p_origin p = p_origin q /\ p_destination p = p_destination q
  /\ directFlight p = directFlight q /\ p_adults p = p_adults q
  /\ p_children p = p_children q /\ p_hourRange p = p_hourRange q.

(** The URL requested for offset [j] by a run whose [params] start as [p0]. *)
Definition offset_url (P : Platform) (c : Consts) (p0 : Params) (j : nat) : string :=
  match departure_date P (c_formattedStart c) j with
  | Some d => request_url (set_originDepartureDate p0 d)
  | None => ""%string
  end.

(** Every offer of the list that has an outbound flight has an arrival time
    that [formatDate] accepts. *)
Definition arrivals_are_dates (P : Platform) (offers : list FlightOffer) : Prop :=
  Forall (fun flight =>
            forall ob, outboundFlight flight = Some ob ->
                       formatDate P (arrivalDateTime ob) <> None) offers.

(** A report that holds a row is a report with results. *)
Definition rows_imply_results (st : LoopState) : Prop :=
  mailText st = [] \/ hasResults st = true.

(** Checking a property of the calendar on a whole range of days or years:
    [f] holds at [lo], [lo + 1], ..., [lo + n - 1]. *)
Fixpoint holds_on (f : Z -> bool) (lo : Z) (n : nat) : bool :=
  match n with
  | O => true
  | S k => f lo && holds_on f (lo + 1) k
  end.

Definition date_eqb (a b : Z * Z * Z) : bool :=
  let '(y, m, d) := a in
  let '(y', m', d') := b in
  (y =? y') && (m =? m') && (d =? d').

Definition shift_year (k : Z) (date : Z * Z * Z) : Z * Z * Z :=
  let '(y, m, d) := date in (y + k, m, d).

(** Walking the calendar: the civil dates of the [n] days from [z] on are
    [date], the day after [date], and so on. *)
Fixpoint calendar_walk (n : nat) (z : Z) (date : Z * Z * Z) : bool :=
  match n with
  | O => true
  | S k => date_eqb (JSDate.civil_from_days z) date
           && calendar_walk k (z + 1) (next_day date)
  end.

Definition first_of_next_month (y m : Z) : Z * Z * Z :=
  if m <? 12 then (y, m + 1, 1) else (y + 1, 1, 1).

(** Month [m] of year [y]: its first day is the civil date of its day
    number, and the first day of the next month comes as many days later as
    the month has. *)
Definition month_check (y m : Z) : bool :=
  let '(y', m', d') := first_of_next_month y m in
  date_eqb (JSDate.civil_from_days (JSDate.days_from_civil y m 1)) (y, m, 1)
  && (JSDate.days_from_civil y' m' d'
      =? JSDate.days_from_civil y m 1 + JSDate.daysInMonth y m).

Definition year_check (y : Z) : bool := holds_on (month_check y) 1 12.

(** Checks on the decimal writing of a number: [pad w n] is made of four,
    or two, digits that read back as [n]. *)
Definition four_digits (n : Z) : bool :=
  match JS.pad 4 n with
  | String a (String b (String c (String d EmptyString))) =>
      JS.is_digit a && JS.is_digit b && JS.is_digit c && JS.is_digit d
      && (JS.digits_val (JS.pad 4 n) =? n)
  | _ => false
  end.

Definition two_digits (n : Z) : bool :=
  match JS.pad 2 n with
  | String a (String b EmptyString) =>
      JS.is_digit a && JS.is_digit b && (JS.digits_val (JS.pad 2 n) =? n)
  | _ => false
  end.

(** A response that makes the run one with results: its [flightOffer] has a
    truthy [length]. *)
Definition has_offers (resp : HttpResult) : bool :=
  match resp with
  | HttpOk (FOArray (_ :: _)) => true
  | HttpOk (FOOther true) => true
  | _ => false
  end.


(** The parameters of a request, as the text [key=value] of each one that
    is kept: the ones whose value is truthy. *)
Definition rendered (l : list (string * PValue)) : list string :=
  map (fun kv => (fst kv ++ "=" ++ to_string (snd kv))%string)
      (filter (fun kv => truthy (snd kv)) l).

(** [process.env.TRANSAVIA_API_KEY] is missing or empty. *)
Definition no_api_key (env : Env) : Prop :=
  TRANSAVIA_API_KEY env = None \/ TRANSAVIA_API_KEY env = Some ""%string.

(** One of the four required options was not given. *)
Definition argument_missing (args : FlightArguments) : Prop :=
  origin args = None \/ destination args = None
  \/ start args = None \/ mail args = None.

(** [sub] occurs somewhere in [s]. *)
Fixpoint occurs (sub s : string) : bool :=
  match s with
  | EmptyString => String.prefix sub ""
  | String _ r => String.prefix sub s || occurs sub r
  end.

(** No character of [p] is an [n] or an [f]. *)
Fixpoint without_n_f (p : string) : bool :=
  match p with
  | EmptyString => true
  | String a r => negb (Ascii.eqb a "n") && negb (Ascii.eqb a "f") && without_n_f r
  end.

(** The character [c] occurs in [s]. *)
Fixpoint has_char (c : ascii) (s : string) : bool :=
  match s with
  | EmptyString => false
  | String a r => Ascii.eqb a c || has_char c r
  end.

(** The text row and the table row that the loop body builds for an offer,
    from the values it has read. *)
Definition text_row_of (c : Consts) (ob : OutboundFlight) (pricing : PricingInfoSum)
    (link dep : string) : TextRow :=
  {| t_flightNumber := flightNumber ob;
     t_departure := dep;
     t_origin := c_origin c;
     t_arrival := arrivalDateTime ob;
     t_destination := c_destination c;
     t_priceAllPassengers := totalPriceAllPassengers pricing;
     t_currency := currencyCode pricing;
     t_priceOnePassenger := totalPriceOnePassenger pricing;
     t_link := JS.replace_all "nl-NL" "fr-FR" link |}.

Definition html_row_of (P : Platform) (p : Params) (ob : OutboundFlight)
    (pricing : PricingInfoSum) (link dep arr : string) : HtmlRow :=
  {| h_flightNumber := flightNumber ob;
     h_departure := dep;
     h_arrival := arr;
     h_priceOnePassenger := totalPriceOnePassenger pricing;
     h_currency := currencyCode pricing;
     h_passengers := JS.add (ToNumber_value P (p_adults p)) (ToNumber_value P (p_children p));
     h_priceAllPassengers := totalPriceAllPassengers pricing;
     h_link := JS.replace_all "nl-NL" "fr-FR" link |}.

(** A well-formed report: [params] holds the passenger values [a] and [ch],
    the HTML buffer is the header [h0] followed by table rows only, every
    table row shows [+a + +ch] passengers, every row names the origin and
    the destination of the run, and no link holds [nl-NL]. *)
Definition report_ok (P : Platform) (c : Consts) (a ch : PValue) (h0 : HtmlHead)
    (st : LoopState) : Prop :=
  p_adults (params st) = a
  /\ p_children (params st) = ch
  /\ mailHTML st = Head h0 :: map Tr (html_rows (mailHTML st))
  /\ Forall (fun r => h_passengers r = JS.add (ToNumber_value P a) (ToNumber_value P ch)
                      /\ occurs "nl-NL" (h_link r) = false)
       (html_rows (mailHTML st))
  /\ Forall (fun t => t_origin t = c_origin c /\ t_destination t = c_destination c
                      /\ occurs "nl-NL" (t_link t) = false)
       (mailText st).

(** The header of the HTML report of a run. *)
Definition report_head (o d shown : string) (args : FlightArguments) : HtmlHead :=
  {| hd_origin := o; hd_destination := d; hd_start := shown;
     hd_adults := JS.nullish (option_map value_of (adults args)) (PNumber 2);
     hd_children := JS.nullish (option_map value_of (children args)) (PNumber 0);
     hd_price := price args |}.

(** Every arrival time in every response that carries offers is a date. *)
Definition responses_have_dates (P : Platform) : Prop :=
  forall j u offers, axios_get P j u = HttpOk (FOArray offers) -> arrivals_are_dates P offers.

(** Empty buffers, with the parameters [p]. *)
Definition blank (p : Params) : LoopState :=
  {| params := p; mailText := []; mailHTML := []; hasResults := false |}.

(** What the response of one day adds to the text buffer and to the HTML
    buffer, taken on its own. *)
Definition day_text (P : Platform) (c : Consts) (p : Params) (resp : HttpResult)
    : list TextRow :=
  mailText (fst (try_block P c (blank p) resp)).

Definition day_html (P : Platform) (c : Consts) (p : Params) (resp : HttpResult)
    : list HtmlPiece :=
  mailHTML (fst (try_block P c (blank p) resp)).

(** The error that sends the [try] block of a day to its [catch], if any. *)
Definition day_error (P : Platform) (c : Consts) (p : Params) (resp : HttpResult)
    : option Error :=
  snd (try_block P c (blank p) resp).

(** What one turn of the loop shows: its request and, when its [try] block
    threw, what the [catch] logs. *)
Definition day_events (P : Platform) (c : Consts) (p : Params) (j : nat) : list Event :=
  HttpGet (offset_url P c p j) (apikey c)
  :: catch_block (day_error P c p (axios_get P j (offset_url P c p j))).

(** What the loop body makes of the hour [h] shown as two digits and [ h],
    before it reads it as a number. *)
Definition hour_text (h : Z) : string :=
  JS.trim (JS.strip_leading_zero (JS.remove_first "h" (JS.pad 2 h ++ " h"))).

Definition hour_text_ok (h : Z) : bool :=
  (hour_text h =? JS.Z_to_string h)%string.

(* ------------------------------------------------------------------ *)
(** ** Sample runs *)

Module Sample.

Definition env : Env := {| TRANSAVIA_API_KEY := Some "secret"%string |}.

(** [crawl -o ORY -d LIS -s 20240601 -m me@example.org] *)
Definition args : FlightArguments :=
  {| origin := Some "ORY"%string;
     destination := Some "LIS"%string;
     start := Some "20240601"%string;
     mail := Some "me@example.org"%string;
     price := None;
     adults := None;
     children := None;
     hourRange := None |}.

(** The same with [-p 200 -r 9-17], the example of the specification. *)
Definition args_filtered : FlightArguments :=
  {| origin := Some "ORY"%string;
     destination := Some "LIS"%string;
     start := Some "20240601"%string;
     mail := Some "me@example.org"%string;
     price := Some "200"%string;
     adults := None;
     children := None;
     hourRange := Some (Given "9-17"%string) |}.

(** The plain command line with [-a] and [-c] as given. *)
Definition with_counts (a c : option OptionValue) : FlightArguments :=
  {| origin := Some "ORY"%string;
     destination := Some "LIS"%string;
     start := Some "20240601"%string;
     mail := Some "me@example.org"%string;
     price := None;
     adults := a;
     children := c;
     hourRange := None |}.

(** An offer of the upstream API. *)
Definition offer (number departure arrival : string) (one all : Z) : FlightOffer :=
  {| outboundFlight :=
       Some {| flightNumber := Some number;
               departureDateTime := Some departure;
               arrivalDateTime := Some arrival |};
     pricingInfoSum :=
       Some {| totalPriceAllPassengers := Some (JS.of_Z all);
               totalPriceOnePassenger := Some (JS.of_Z one);
               currencyCode := Some "EUR"%string |};
     deeplink := Some {| href := Some "https://www.transavia.com/nl-NL/book"%string |} |}.

(** The same offer, its [arrivalDateTime] missing from the body. *)
Definition offer_without_arrival (number departure : string) (one all : Z) : FlightOffer :=
  {| outboundFlight :=
       Some {| flightNumber := Some number;
               departureDateTime := Some departure;
               arrivalDateTime := None |};
     pricingInfoSum :=
       Some {| totalPriceAllPassengers := Some (JS.of_Z all);
               totalPriceOnePassenger := Some (JS.of_Z one);
               currencyCode := Some "EUR"%string |};
     deeplink := Some {| href := Some "https://www.transavia.com/nl-NL/book"%string |} |}.

(** An offer whose [deeplink] is missing from the body. *)
Definition broken : FlightOffer :=
  {| outboundFlight :=
       Some {| flightNumber := Some "TO3405"%string;
               departureDateTime := Some "2024-06-01T12:00:00"%string;
               arrivalDateTime := Some "2024-06-01T13:30:00"%string |};
     pricingInfoSum :=
       Some {| totalPriceAllPassengers := Some (JS.of_Z 300);
               totalPriceOnePassenger := Some (JS.of_Z 150);
               currencyCode := Some "EUR"%string |};
     deeplink := None |}.

Definition morning : FlightOffer :=
  offer "TO3400" "2024-06-01T10:00:00" "2024-06-01T11:30:00" 150 300.

Definition evening : FlightOffer :=
  offer "TO3410" "2024-06-01T20:00:00" "2024-06-01T21:30:00" 150 300.

Definition expensive : FlightOffer :=
  offer "TO3420" "2024-06-01T10:00:00" "2024-06-01T11:30:00" 250 500.

Definition utc (responses : list HttpResult) : Platform :=
  Node.platform Node.utc responses.

Definition paris : Platform := Node.platform Node.europe_paris_2024 [].

(** Day 0 answers with two offers, day 1 fails, day 2 answers with one
    offer, the other days with none. *)
Definition three_days : Platform :=
  utc [ HttpOk (FOArray [morning; evening]);
        HttpError (Some "Too Many Requests"%string);
        HttpOk (FOArray [expensive]) ].

(** The hour [h], formatted and read back as the loop body does. *)
Definition hour_read_back (h : Z) : JS.number :=
  Node.string_to_number
    (JS.trim (JS.strip_leading_zero (JS.remove_first "h" (JS.pad 2 h ++ " h")))).

Definition hour_reads_back (h : Z) : bool :=
  match hour_read_back h with
  | JS.Num q => Qeq_bool q (inject_Z h)
  | _ => false
  end.

End Sample.

(* ------------------------------------------------------------------ *)
(** ** The helpers on examples *)

Example split_9_17 : JS.split "-" "9-17" = ["9"; "17"].
Proof. reflexivity. Qed.

Example split_no_dash : JS.split "-" "9" = ["9"].
Proof. reflexivity. Qed.

Example trim_hour : JS.trim (JS.strip_leading_zero (JS.remove_first "h" "09 h")) = "9".
Proof. reflexivity. Qed.

Example replace_locale :
  JS.replace_all "nl-NL" "fr-FR" "https://x/nl-NL/book?l=nl-NL" = "https://x/fr-FR/book?l=fr-FR".
Proof. reflexivity. Qed.

Example pad_examples : JS.pad 2 7 = "07" /\ JS.pad 4 33 = "0033" /\ JS.pad 2 12 = "12".
Proof. repeat split; reflexivity. Qed.

Example parse_20240601 : JSDate.parse_iso_date "2024-06-01" = Some 1717200000000.
Proof. reflexivity. Qed.

Example parse_feb30 : JSDate.parse_iso_date "2023-02-30" = None.
Proof. reflexivity. Qed.

Example iso_20240601 : JSDate.iso_date 1717200000000 = "2024-06-01".
Proof. reflexivity. Qed.

Example iso_epoch : JSDate.iso_date (-1) = "1969-12-31".
Proof. reflexivity. Qed.

Example format_start_20240601 : format_start "20240601" = "2024-06-01"%string.
Proof. reflexivity. Qed.

(** Taking the [h] and the leading zero off the formatted hour and reading
    the rest as a number gives the hour back, for each of the 24 hours. *)
Example hours_read_back : holds_on Sample.hour_reads_back 0 24 = true.
Proof. vm_compute. reflexivity. Qed.

(** A run with [-p 200 -r 9-17]: fifteen requests, the error body of day 1
    logged between the requests of day 1 and day 2, and one mail with the
    only admitted offer, the one at 150 leaving at 10 h. *)
(** What commander hands over is sent as it is written: [-a 0 -c 0] sends
    adults=0 and children=0, a bare [-a] sends adults=true, and [-c] with an
    empty string sends no children, as the plain command line does. *)
Example query_of_given_counts :
  query (initial_params "ORY" "LIS" "20240601"
           (Sample.with_counts (Some (Given "0")) (Some (Given "0"))))
  = "origin=ORY&destination=LIS&originDepartureDate=20240601&directFlight=true&adults=0&children=0&hourRange=0-24"
  /\ query (initial_params "ORY" "LIS" "20240601" (Sample.with_counts (Some Bare) None))
     = "origin=ORY&destination=LIS&originDepartureDate=20240601&directFlight=true&adults=true&hourRange=0-24"
  /\ query (initial_params "ORY" "LIS" "20240601"
              (Sample.with_counts None (Some (Given ""))))
     = "origin=ORY&destination=LIS&originDepartureDate=20240601&directFlight=true&adults=2&hourRange=0-24".
Proof. repeat split. Qed.

Example sample_run :
  let run := main Sample.three_days Sample.env Sample.args_filtered in
  status run = Returned
  /\ length (requests (events run)) = 15%nat
  /\ nth_error (events run) 2 = Some (ConsoleLogData (Some "Too Many Requests"%string))
  /\ (exists m, mails_sent (events run) = [m]
                /\ map t_flightNumber (text m) = [Some "TO3400"%string]
                /\ map h_flightNumber (html_rows (html m)) = [Some "TO3400"%string]
                /\ map t_link (text m) = ["https://www.transavia.com/fr-FR/book"%string])
  /\ nth_error (events run) 17 = Some (ConsoleLog "Mail bien envoyé !").
Proof.
  intros run. subst run. vm_compute.
  repeat split; try reflexivity. eexists. repeat split; reflexivity.
Qed.

(* ------------------------------------------------------------------ *)
(** ** What the loop leaves alone *)

Section Frame.

Variable P : Platform.
Variable c : Consts.

Lemma set_date_twice p d d' :
  set_originDepartureDate (set_originDepartureDate p d) d' = set_originDepartureDate p d'.
Proof. reflexivity. Qed.

Lemma set_date_same_fixed p d : same_fixed (set_originDepartureDate p d) p.
Proof. repeat split. Qed.

Lemma process_flight_params st flight :
  params (fst (process_flight P c st flight)) = params st.
Proof.
  unfold process_flight.
  destruct (outboundFlight flight) as [ob|]; [|reflexivity].
  destruct (pricingInfoSum flight) as [pr|]; [|reflexivity].
  destruct (deeplink flight) as [dl|]; [|reflexivity].
  destruct (href dl) as [h|]; [|reflexivity].
  destruct (JS.lt _ _); [|reflexivity].
  destruct (departure_hour P _) as [hour|]; [|reflexivity].
  destruct (_ || _); [reflexivity|].
  destruct (formatDate P (departureDateTime ob)) as [dep|]; [|reflexivity].
  destruct (formatDate P (arrivalDateTime ob)); reflexivity.
Qed.

Lemma process_flights_params offers : forall st,
  params (fst (process_flights P c st offers)) = params st.
Proof.
  induction offers as [|flight rest IH]; intro st; simpl; [reflexivity|].
  pose proof (process_flight_params st flight) as Hp.
  destruct (process_flight P c st flight) as [st1 [e|]]; simpl in *; [assumption|].
  rewrite IH. assumption.
Qed.

Lemma try_block_params st resp :
  params (fst (try_block P c st resp)) = params st.
Proof.
  destruct resp as [[|offers|[|]]|d]; simpl; try reflexivity.
  rewrite process_flights_params. destruct offers; reflexivity.
Qed.

(** A turn of the loop issues exactly one request, built from [params] with
    the date of the turn, and leaves [params] with that date. *)
Lemma iteration_inv i st st1 evs :
  iteration P c i st = inl (st1, evs) ->
  exists d tail,
    departure_date P (c_formattedStart c) i = Some d
    /\ evs = HttpGet (request_url (set_originDepartureDate (params st) d)) (apikey c) :: tail
    /\ requests tail = []
    /\ mails_sent evs = []
    /\ params st1 = set_originDepartureDate (params st) d.
Proof.
  unfold iteration. destruct (departure_date P (c_formattedStart c) i) as [d|]; [|discriminate].
  set (st' := set_params st (set_originDepartureDate (params st) d)).
  pose proof (try_block_params st' (axios_get P i (request_url (params st')))) as Hp.
  destruct (try_block P c st' _) as [st2 err]. intros H; inversion H; subst; clear H.
  exists d, (catch_block err). repeat split; try assumption.
  - destruct err; reflexivity.
  - destruct err; reflexivity.
Qed.

Lemma iteration_date i st :
  (exists e, iteration P c i st = inr e) <->
  departure_date P (c_formattedStart c) i = None.
Proof.
  unfold iteration. destruct (departure_date P (c_formattedStart c) i) as [d|].
  - destruct (try_block P c _ _). split; [intros [e H]; discriminate | discriminate].
  - split; [reflexivity | intros _; eexists; reflexivity].
Qed.

Lemma requests_app a b : requests (a ++ b) = (requests a ++ requests b)%list.
Proof.
  induction a as [|e a IH]; simpl; [reflexivity|].
  destruct e; simpl; rewrite ?IH; reflexivity.
Qed.

Lemma mails_sent_app a b : mails_sent (a ++ b) = (mails_sent a ++ mails_sent b)%list.
Proof.
  induction a as [|e a IH]; simpl; [reflexivity|].
  destruct e; simpl; rewrite ?IH; reflexivity.
Qed.

(** The [k]-th request of a scan from offset [i] is the one of offset
    [i + k]: the query of [params] with only the date replaced. *)
Lemma scan_nth_request n : forall i st st' evs r k url,
  scan P c n i st = (st', evs, r) ->
  nth_error (requests evs) k = Some url ->
  exists d,
    departure_date P (c_formattedStart c) (i + k) = Some d
    /\ url = request_url (set_originDepartureDate (params st) d).
Proof.
  induction n as [|n IH]; intros i st st' evs r k url Hs Hk; simpl in Hs.
  - inversion Hs; subst. destruct k; discriminate.
  - destruct (iteration P c i st) as [[st1 evs1]|e] eqn:Hit.
    + destruct (scan P c n (S i) st1) as [[st2 evs2] r2] eqn:Hrec.
      inversion Hs; subst; clear Hs.
      destruct (iteration_inv _ _ _ _ Hit) as (d & tail & Hd & -> & Htail & _ & Hp).
      simpl in Hk. rewrite requests_app, Htail in Hk. simpl in Hk.
      destruct k as [|k]; simpl in Hk.
      * inversion Hk; subst. exists d. rewrite Nat.add_0_r. auto.
      * destruct (IH _ _ _ _ _ _ _ Hrec Hk) as (d' & Hd' & ->).
        exists d'. rewrite Hp, set_date_twice. rewrite <- plus_n_Sm. auto.
    + inversion Hs; subst. destruct k; discriminate.
Qed.

Lemma scan_mails n : forall i st st' evs r,
  scan P c n i st = (st', evs, r) -> mails_sent evs = [].
Proof.
  induction n as [|n IH]; intros i st st' evs r Hs; simpl in Hs.
  - now inversion Hs.
  - destruct (iteration P c i st) as [[st1 evs1]|e] eqn:Hit.
    + destruct (scan P c n (S i) st1) as [[st2 evs2] r2] eqn:Hrec.
      inversion Hs; subst; clear Hs.
      destruct (iteration_inv _ _ _ _ Hit) as (d & tail & _ & _ & _ & Hm & _).
      rewrite mails_sent_app, Hm. simpl. eauto.
    + now inversion Hs.
Qed.

Lemma scan_same_fixed n : forall i st st' evs r,
  scan P c n i st = (st', evs, r) -> same_fixed (params st') (params st).
Proof.
  induction n as [|n IH]; intros i st st' evs r Hs; simpl in Hs.
  - inversion Hs; subst. repeat split.
  - destruct (iteration P c i st) as [[st1 evs1]|e] eqn:Hit.
    + destruct (scan P c n (S i) st1) as [[st2 evs2] r2] eqn:Hrec.
      inversion Hs; subst; clear Hs.
      destruct (iteration_inv _ _ _ _ Hit) as (d & tail & _ & _ & _ & _ & Hp).
      specialize (IH _ _ _ _ _ Hrec). rewrite Hp in IH. exact IH.
    + inversion Hs; subst. repeat split.
Qed.

End Frame.

(* ------------------------------------------------------------------ *)
(** ** The requests of a run *)

Lemma split_throws_bare hr : split_throws hr = false <-> hr <> Some Bare.
Proof. destruct hr as [[r|]|]; simpl; split; congruence. Qed.

Lemma crawl_requests P key o d s m args :
  forall shown, formatDate P (Some (format_start s)) = Some shown ->
  split_throws (hourRange args) = false ->
  requests (events (crawl P key o d s m args))
  = requests (snd (fst (scan P (run_consts key o d s args) 15 0
                          (initial_state o d s shown args)))).
Proof.
  intros shown Hs Hr. unfold crawl. rewrite Hs, Hr.
  destruct (scan P _ 15 0 _) as [[st evs] [e|]]; simpl; [reflexivity|].
  rewrite requests_app. destruct (hasResults st); simpl; now rewrite app_nil_r.
Qed.

Lemma crawl_requests_none P key o d s m args :
  formatDate P (Some (format_start s)) = None \/ split_throws (hourRange args) = true ->
  events (crawl P key o d s m args) = [].
Proof.
  intros [Hs|Hr]; unfold crawl.
  - now rewrite Hs.
  - rewrite Hr. now destruct (formatDate P _).
Qed.

Lemma key_value_not_empty k x : ((k ++ "=" ++ x) =? "")%string = false.
Proof. destruct k; reflexivity. Qed.

(** Mapping each entry and then dropping the falsy results keeps the entries
    whose value is truthy. *)
Lemma query_rendered p :
  query p = JS.join "&" (rendered (entries p)).
Proof.
  unfold query, rendered. f_equal.
  induction (entries p) as [|[k v] l IH]; [reflexivity|].
  cbn [map filter fst snd].
  assert (He : query_entry (k, v)
               = if truthy v then PString (k ++ "=" ++ to_string v) else v)
    by reflexivity.
  rewrite He. destruct (truthy v) eqn:Hv.
  - cbn [truthy]. rewrite key_value_not_empty. cbn [negb map to_string].
    now rewrite IH.
  - rewrite Hv. exact IH.
Qed.

(** The requests of the fifteen turns, and [params] after them. *)
Lemma run_requests P key o d s shown args :
  let run := scan P (run_consts key o d s args) 15 0 (initial_state o d s shown args) in
  same_fixed (params (fst (fst run))) (initial_params o d s args)
  /\ forall i url,
       nth_error (requests (snd (fst run))) i = Some url ->
       exists date,
         departure_date P (format_start s) i = Some date
         /\ url = request_url (set_originDepartureDate (initial_params o d s args) date).
Proof.
  intros run. subst run.
  destruct (scan P _ 15 0 _) as [[st evs] r] eqn:Hs. simpl. split.
  - exact (scan_same_fixed _ _ _ _ _ _ _ _ Hs).
  - intros i url Hi.
    exact (scan_nth_request _ _ _ _ _ _ _ _ _ _ Hs Hi).
Qed.

(** C10: across the fifteen turns of the loop only the [originDepartureDate]
    of [params] changes: after the loop the origin, destination,
    directFlight, adults, children and hourRange of [params] are those fixed
    before it, and the request of every offset is built from the initial
    [params] with nothing but the date of that offset replaced. *)
Theorem C10_only_the_date_changes P key o d s shown args :
  let run := scan P (run_consts key o d s args) 15 0 (initial_state o d s shown args) in
  same_fixed (params (fst (fst run))) (initial_params o d s args)
  /\ forall i url,
       nth_error (requests (snd (fst run))) i = Some url ->
       exists date,
         departure_date P (format_start s) i = Some date
         /\ url = request_url (set_originDepartureDate (initial_params o d s args) date).
Proof. exact (run_requests P key o d s shown args). Qed.

Lemma C10_only_the_date_changes_witness :
  exists date,
    departure_date (Sample.utc []) "2024-06-01" 3 = Some date
    /\ "https://api.transavia.com/v1/flightoffers/?origin=ORY&destination=LIS&originDepartureDate=20240604&directFlight=true&adults=2&hourRange=0-24"%string
       = request_url (set_originDepartureDate
                        (initial_params "ORY" "LIS" "20240601" Sample.args) date).
Proof.
  apply (proj2 (C10_only_the_date_changes (Sample.utc []) "secret" "ORY" "LIS"
                  "20240601" "01/06/2024 00:00" Sample.args) 3%nat).
  reflexivity.
Defined.

(** C3, as amended: every request carries, in this order, those of the
    seven parameters origin, destination, originDepartureDate (the date of
    its offset), directFlight=true, adults, children and hourRange whose
    value is truthy, and nothing else.  The value of adults, children and
    hourRange is the string of the command line ([true] for a flag given
    bare) or, without the option, the default: the number 2, the number 0,
    the string 0-24.  So the default of children, the number 0, is left
    out, and a count given on the command line is sent as it is written,
    [-c 0] as children=0. *)
Theorem C3_query_parameters P key o d s m args i url :
  nth_error (requests (events (crawl P key o d s m args))) i = Some url ->
  exists date,
    departure_date P (format_start s) i = Some date
    /\ url = (API_URL ++ "?" ++
              JS.join "&"
                (rendered
                   [ ("origin", PString o);
                     ("destination", PString d);
                     ("originDepartureDate", PString date);
                     ("directFlight", PBool true);
                     ("adults", JS.nullish (option_map value_of (adults args)) (PNumber 2));
                     ("children",
                      JS.nullish (option_map value_of (children args)) (PNumber 0));
                     ("hourRange",
                      JS.nullish (option_map value_of (hourRange args)) (PString "0-24"))
                   ]))%string.
Proof.
  intros Hi.
  destruct (formatDate P (Some (format_start s))) as [shown|] eqn:Hshown;
    [destruct (split_throws (hourRange args)) eqn:Hr|].
  - rewrite (crawl_requests_none _ _ _ _ _ _ _ (or_intror Hr)) in Hi.
    destruct i; discriminate.
  - rewrite (crawl_requests _ _ _ _ _ _ _ shown Hshown Hr) in Hi.
    destruct (proj2 (run_requests P key o d s shown args) i url Hi)
      as (date & Hd & ->).
    exists date. split; [assumption|].
    unfold request_url. now rewrite query_rendered.
  - rewrite (crawl_requests_none _ _ _ _ _ _ _ (or_introl Hshown)) in Hi.
    destruct i; discriminate.
Qed.

Lemma C3_query_parameters_witness :
  exists date,
    departure_date (Sample.utc []) (format_start "20240601") 0 = Some date
    /\ "https://api.transavia.com/v1/flightoffers/?origin=ORY&destination=LIS&originDepartureDate=20240601&directFlight=true&adults=2&hourRange=0-24"%string
       = (API_URL ++ "?" ++
          JS.join "&"
            (rendered
               [ ("origin", PString "ORY");
                 ("destination", PString "LIS");
                 ("originDepartureDate", PString date);
                 ("directFlight", PBool true);
                 ("adults",
                  JS.nullish (option_map value_of (adults Sample.args)) (PNumber 2));
                 ("children",
                  JS.nullish (option_map value_of (children Sample.args)) (PNumber 0));
                 ("hourRange",
                  JS.nullish (option_map value_of (hourRange Sample.args)) (PString "0-24"))
               ]))%string.
Proof.
  apply (C3_query_parameters (Sample.utc []) "secret" "ORY" "LIS" "20240601"
           "me@example.org" Sample.args 0).
  reflexivity.
Defined.

(** C3 as stated fails on the plain command line (no adults, children or
    hour range given): the first request carries [hourRange] and does not
    carry [children]. *)
Lemma C3_counterexample :
  exists q,
    nth_error (requests (events (main (Sample.utc []) Sample.env Sample.args))) 0
    = Some (API_URL ++ "?" ++ q)%string
    /\ query_keys q = [ "origin"; "destination"; "originDepartureDate";
                        "directFlight"; "adults"; "hourRange" ]%string
    /\ In "hourRange"%string (query_keys q)
    /\ ~ In "children"%string (query_keys q).
Proof.
  exists "origin=ORY&destination=LIS&originDepartureDate=20240601&directFlight=true&adults=2&hourRange=0-24"%string.
  split; [reflexivity|]. split; [reflexivity|]. split.
  - vm_compute. tauto.
  - vm_compute. intros H. repeat (destruct H as [H|H]; [discriminate H|]). exact H.
Qed.

(* ------------------------------------------------------------------ *)
(** ** The scan, day by day *)

Section Scan.

Variable P : Platform.
Variable c : Consts.

Lemma same_fixed_set_date p q d :
  same_fixed p q -> set_originDepartureDate p d = set_originDepartureDate q d.
Proof.
  intros (H1 & H2 & H3 & H4 & H5 & H6). unfold set_originDepartureDate.
  now rewrite H1, H2, H3, H4, H5, H6.
Qed.

Lemma offset_url_same_fixed p q j :
  same_fixed p q -> offset_url P c p j = offset_url P c q j.
Proof.
  intros H. unfold offset_url.
  destruct (departure_date P (c_formattedStart c) j); [|reflexivity].
  now rewrite (same_fixed_set_date p q s H).
Qed.

(** The scan of [a + b] offsets is the scan of [a] followed, unless an
    error left [main], by the scan of the [b] next ones. *)
Lemma scan_split a : forall b i st,
  scan P c (a + b) i st =
  match scan P c a i st with
  | (st1, evs1, Some e) => (st1, evs1, Some e)
  | (st1, evs1, None) =>
      let '(st2, evs2, r) := scan P c b (i + a) st1 in (st2, (evs1 ++ evs2)%list, r)
  end.
Proof.
  induction a as [|a IH]; intros b i st.
  - simpl. rewrite Nat.add_0_r. now destruct (scan P c b i st) as [[? ?] ?].
  - simpl. destruct (iteration P c i st) as [[st1 evs1]|e]; [|reflexivity].
    rewrite IH. destruct (scan P c a (S i) st1) as [[st2 evs2] [e|]]; [reflexivity|].
    rewrite <- plus_n_Sm. simpl.
    destruct (scan P c b (S (i + a)) st2) as [[st3 evs3] r].
    now rewrite app_assoc.
Qed.

(** With valid dates the scan runs to its end, whatever the responses, and
    requests every offset once, in order. *)
Lemma scan_completes n : forall i st,
  (forall j, (i <= j < i + n)%nat -> departure_date P (c_formattedStart c) j <> None) ->
  exists st' evs,
    scan P c n i st = (st', evs, None)
    /\ requests evs = map (offset_url P c (params st)) (seq i n).
Proof.
  induction n as [|n IH]; intros i st Hd.
  - exists st, []. split; reflexivity.
  - simpl. destruct (iteration P c i st) as [[st1 evs1]|e] eqn:Hit.
    + destruct (iteration_inv _ _ _ _ _ _ Hit) as (d & tail & Hdi & -> & Htail & _ & Hp).
      destruct (IH (S i) st1) as (st2 & evs2 & Hs & Hr).
      { intros j Hj. apply Hd. lia. }
      rewrite Hs. exists st2, ((HttpGet (request_url (set_originDepartureDate (params st) d))
                                  (apikey c) :: tail) ++ evs2)%list.
      split; [reflexivity|].
      simpl. rewrite requests_app, Htail, Hr. simpl. f_equal.
      * unfold offset_url. now rewrite Hdi.
      * apply map_ext. intros j. apply offset_url_same_fixed.
        rewrite Hp. apply set_date_same_fixed.
    + exfalso. apply (Hd i); [lia|].
      apply (proj1 (iteration_date P c i st)). now exists e.
Qed.

(** A day whose request fails: the body of the error response is logged,
    and nothing else happens on that day. *)
Lemma iteration_http_error i st date body :
  departure_date P (c_formattedStart c) i = Some date ->
  axios_get P i (request_url (set_originDepartureDate (params st) date)) = HttpError body ->
  iteration P c i st =
  inl (set_params st (set_originDepartureDate (params st) date),
       [HttpGet (request_url (set_originDepartureDate (params st) date)) (apikey c);
        ConsoleLogData body]).
Proof.
  intros Hd Hget. unfold iteration. rewrite Hd. simpl. rewrite Hget. reflexivity.
Qed.

End Scan.

Lemma scan_failed_day P c i n st date body :
  (forall j, (j < i + S n)%nat -> departure_date P (c_formattedStart c) j <> None) ->
  departure_date P (c_formattedStart c) i = Some date ->
  axios_get P i (request_url (set_originDepartureDate (params st) date)) = HttpError body ->
  exists st' before after,
    scan P c (i + S n) 0 st
    = (st',
       (before ++
        HttpGet (request_url (set_originDepartureDate (params st) date)) (apikey c)
        :: ConsoleLogData body :: after)%list,
       None)
    /\ requests before = map (offset_url P c (params st)) (seq 0 i)
    /\ requests after = map (offset_url P c (params st)) (seq (S i) n).
Proof.
  intros Hdates Hdate Hget.
  destruct (scan_completes P c i 0 st) as (st1 & evs1 & Hs1 & Hr1).
  { intros j Hj. apply Hdates. lia. }
  pose proof (scan_same_fixed _ _ _ _ _ _ _ _ Hs1) as Hfix.
  assert (Hit : iteration P c i st1 =
                inl (set_params st1 (set_originDepartureDate (params st1) date),
                     [HttpGet (request_url (set_originDepartureDate (params st) date)) (apikey c);
                      ConsoleLogData body])).
  { rewrite <- (same_fixed_set_date _ _ date Hfix).
    apply iteration_http_error; [assumption|].
    now rewrite (same_fixed_set_date _ _ date Hfix). }
  destruct (scan_completes P c n (S i)
              (set_params st1 (set_originDepartureDate (params st1) date)))
    as (st2 & evs2 & Hs2 & Hr2).
  { intros j Hj. apply Hdates. lia. }
  exists st2, evs1, evs2. split; [|split].
  - rewrite scan_split, Hs1. simpl. rewrite Hit, Hs2. reflexivity.
  - exact Hr1.
  - rewrite Hr2. apply map_ext. intros j. apply offset_url_same_fixed.
    simpl. destruct Hfix as (H1 & H2 & H3 & H4 & H5 & H6). repeat split; assumption.
Qed.

(** C7: with a start date whose fifteen dates exist (and an hour range
    that is not the bare flag, which throws before the loop), whatever the
    responses are, the run returns normally having requested each of the
    fifteen offsets once, in ascending order; and a day whose request fails
    has the body of its error response logged right after the request,
    before the requests of the offsets that follow, each of which is still
    made. *)
Theorem C7_failed_day_is_logged_and_skipped P key o d s m args shown :
  formatDate P (Some (format_start s)) = Some shown ->
  hourRange args <> Some Bare ->
  (forall j, (j < 15)%nat -> departure_date P (format_start s) j <> None) ->
  let run := crawl P key o d s m args in
  let url := offset_url P (run_consts key o d s args) (initial_params o d s args) in
  status run = Returned
  /\ requests (events run) = map url (seq 0 15)
  /\ forall i body,
       (i < 15)%nat ->
       axios_get P i (url i) = HttpError body ->
       exists before after,
         events run = (before ++ HttpGet (url i) key :: ConsoleLogData body :: after)%list
         /\ requests before = map url (seq 0 i)
         /\ requests after = map url (seq (S i) (14 - i)).
Proof.
  intros Hshown Hrange Hdates run url. subst run.
  apply split_throws_bare in Hrange.
  set (c := run_consts key o d s args) in *.
  set (st0 := initial_state o d s shown args).
  assert (Hp0 : params st0 = initial_params o d s args) by reflexivity.
  split; [|split].
  - destruct (scan_completes P c 15 0 st0) as (st' & evs & Hs & _).
    { intros j Hj. apply Hdates. lia. }
    unfold crawl. rewrite Hshown, Hrange. fold c st0. now rewrite Hs.
  - destruct (scan_completes P c 15 0 st0) as (st' & evs & Hs & Hr).
    { intros j Hj. apply Hdates. lia. }
    rewrite (crawl_requests _ _ _ _ _ _ _ shown Hshown Hrange). fold c st0.
    now rewrite Hs.
  - intros i body Hi Hget.
    destruct (departure_date P (format_start s) i) as [date|] eqn:Hdate;
      [|exfalso; now apply (Hdates i)].
    assert (Hurl : url i = request_url (set_originDepartureDate (params st0) date)).
    { unfold url, offset_url. simpl. now rewrite Hdate. }
    destruct (scan_failed_day P c i (14 - i) st0 date body) as (st' & before & after & Hs & Hb & Ha).
    { intros j Hj. apply Hdates. lia. }
    { exact Hdate. }
    { now rewrite <- Hurl. }
    replace (i + S (14 - i))%nat with 15%nat in Hs by lia.
    unfold crawl. rewrite Hshown, Hrange. fold c st0. rewrite Hs. simpl.
    exists before.
    eexists. split.
    + rewrite <- app_assoc. simpl. rewrite Hurl. reflexivity.
    + split; [exact Hb|].
      rewrite requests_app, Ha. destruct (hasResults st'); simpl; now rewrite app_nil_r.
Qed.

Lemma C7_failed_day_is_logged_and_skipped_witness :
  let P := Sample.utc [HttpOk (FOArray []); HttpError (Some "Too Many Requests"%string)] in
  let run := crawl P "secret" "ORY" "LIS" "20240601" "me@example.org" Sample.args in
  let url := offset_url P (run_consts "secret" "ORY" "LIS" "20240601" Sample.args)
               (initial_params "ORY" "LIS" "20240601" Sample.args) in
  exists before after,
    events run
    = (before ++ HttpGet (url 1%nat) "secret"
         :: ConsoleLogData (Some "Too Many Requests"%string) :: after)%list
    /\ requests before = map url (seq 0 1)
    /\ requests after = map url (seq 2 (14 - 1)).
Proof.
  intros P run url.
  refine (proj2 (proj2 (C7_failed_day_is_logged_and_skipped P "secret" "ORY" "LIS"
                          "20240601" "me@example.org" Sample.args "01/06/2024 00:00" _ _ _))
            1%nat (Some "Too Many Requests"%string) _ _).
  - reflexivity.
  - discriminate.
  - intros j Hj.
    do 15 (destruct j as [|j]; [vm_compute; discriminate|]). lia.
  - lia.
  - reflexivity.
Defined.

(* ------------------------------------------------------------------ *)
(** ** The body of the offer loop *)

Section Offers.

Variable P : Platform.
Variable c : Consts.

(** An offer leaves the buffers as they are, or appends its sentence and
    its table row, or appends its sentence and fails on the table row. *)
Lemma process_flight_cases st flight :
  let r := process_flight P c st flight in
  (mailText (fst r) = mailText st /\ mailHTML (fst r) = mailHTML st)
  \/ (exists t h, mailText (fst r) = (mailText st ++ [t])%list
                  /\ mailHTML (fst r) = (mailHTML st ++ [Tr h])%list
                  /\ snd r = None)
  \/ (exists t, mailText (fst r) = (mailText st ++ [t])%list
                /\ mailHTML (fst r) = mailHTML st
                /\ snd r = Some RangeError
                /\ exists ob, outboundFlight flight = Some ob
                              /\ formatDate P (arrivalDateTime ob) = None).
Proof.
  unfold process_flight.
  destruct (outboundFlight flight) as [ob|]; [|left; split; reflexivity].
  destruct (pricingInfoSum flight) as [pr|]; [|left; split; reflexivity].
  destruct (deeplink flight) as [dl|]; [|left; split; reflexivity].
  destruct (href dl) as [h|]; [|left; split; reflexivity].
  destruct (JS.lt _ _); [|left; split; reflexivity].
  destruct (departure_hour P _) as [hour|]; [|left; split; reflexivity].
  destruct (_ || _); [left; split; reflexivity|].
  destruct (formatDate P (departureDateTime ob)) as [dep|]; [|left; split; reflexivity].
  destruct (formatDate P (arrivalDateTime ob)) as [arr|] eqn:Harr.
  - right; left. simpl. eauto.
  - right; right. simpl. eexists. repeat split. exists ob. auto.
Qed.


Lemma process_flight_hasResults st flight :
  hasResults (fst (process_flight P c st flight)) = hasResults st.
Proof.
  unfold process_flight.
  destruct (outboundFlight flight) as [ob|]; [|reflexivity].
  destruct (pricingInfoSum flight) as [pr|]; [|reflexivity].
  destruct (deeplink flight) as [dl|]; [|reflexivity].
  destruct (href dl) as [h|]; [|reflexivity].
  destruct (JS.lt _ _); [|reflexivity].
  destruct (departure_hour P _) as [hour|]; [|reflexivity].
  destruct (_ || _); [reflexivity|].
  destruct (formatDate P (departureDateTime ob)) as [dep|]; [|reflexivity].
  destruct (formatDate P (arrivalDateTime ob)); reflexivity.
Qed.

Lemma process_flights_hasResults offers : forall st,
  hasResults (fst (process_flights P c st offers)) = hasResults st.
Proof.
  induction offers as [|flight rest IH]; intros st; simpl; [reflexivity|].
  pose proof (process_flight_hasResults st flight) as H.
  destruct (process_flight P c st flight) as [st1 [e|]]; simpl in *; [assumption|].
  now rewrite IH.
Qed.






End Offers.




(* ------------------------------------------------------------------ *)
(** ** The admission filter *)

Lemma Qltb_lt a b : JS.Qltb a b = true <-> (a < b)%Q.
Proof. unfold JS.Qltb, Qlt. apply Z.ltb_lt. Qed.

Lemma Qltb_ge a b : JS.Qltb a b = false <-> (b <= a)%Q.
Proof. unfold JS.Qltb, Qle. apply Z.ltb_ge. Qed.

Lemma departure_hour_formatDate P time hour :
  departure_hour P time = Some hour -> exists dep, formatDate P time = Some dep.
Proof.
  unfold departure_hour, formatDate. destruct (new_Date P time); [eauto|discriminate].
Qed.

Section Admission.

Variable P : Platform.
Variables key o d s : string.
Variable args : FlightArguments.
Variable st0 : LoopState.
Variable done : list FlightOffer.
Variable flight : FlightOffer.
Variable ob : OutboundFlight.
Variable pricing : PricingInfoSum.
Variable dl : Deeplink.
Variable link : string.
Variables p m h lo hi : Q.

Let c := run_consts key o d s args.

Hypothesis Hob : outboundFlight flight = Some ob.
Hypothesis Hpricing : pricingInfoSum flight = Some pricing.
Hypothesis Hdl : deeplink flight = Some dl.
Hypothesis Hlink : href dl = Some link.
Hypothesis Hp : totalPriceOnePassenger pricing = Some (JS.Num p).
Hypothesis Hh : departure_hour P (departureDateTime ob) = Some (JS.Num h).
Hypothesis Hm : ToNumber P (maxPrice c) = JS.Num m.
Hypothesis Hlo : ToNumber P (hourRangeStart c) = JS.Num lo.
Hypothesis Hhi : ToNumber P (hourRangeEnd c) = JS.Num hi.





End Admission.



(** The example of the specification ([-p 200 -r 9-17]): the offer at 150
    leaving at 10 h is admitted, the one at 150 leaving at 20 h and the one
    at 250 leaving at 10 h are not. *)
Example admission_examples :
  let P := Sample.utc [] in
  let c := run_consts "secret" "ORY" "LIS" "20240601" Sample.args_filtered in
  let st := initial_state "ORY" "LIS" "20240601" "01/06/2024 00:00" Sample.args_filtered in
  length (mailText (fst (process_flight P c st Sample.morning))) = 1%nat
  /\ length (html_rows (mailHTML (fst (process_flight P c st Sample.morning)))) = 1%nat
  /\ process_flight P c st Sample.evening = (st, None)
  /\ process_flight P c st Sample.expensive = (st, None).
Proof. repeat split. Qed.

(* ------------------------------------------------------------------ *)
(** ** The rows of the two buffers *)

Lemma html_rows_app a b : html_rows (a ++ b) = (html_rows a ++ html_rows b)%list.
Proof.
  induction a as [|x a IH]; simpl; [reflexivity|].
  destruct x; simpl; rewrite ?IH; reflexivity.
Qed.

Section Rows.

Variable P : Platform.
Variable c : Consts.

(** The HTML buffer never has more rows than the text buffer has, and has
    as many when no arrival time is rejected by [formatDate]. *)
Lemma process_flights_rows offers : forall st,
  let st' := fst (process_flights P c st offers) in
  exists k e,
    length (mailText st') = (length (mailText st) + k + e)%nat
    /\ length (html_rows (mailHTML st')) = (length (html_rows (mailHTML st)) + k)%nat
    /\ (e <= 1)%nat
    /\ (arrivals_are_dates P offers -> e = 0%nat).
Proof.
  induction offers as [|flight rest IH]; intros st; simpl.
  - exists 0%nat, 0%nat. repeat split; lia.
  - destruct (process_flight_cases P c st flight)
      as [[Ht Hh]|[(t & h & Ht & Hh & Hn)|(t & Ht & Hh & He & ob & Hob & Harr)]].
    + destruct (process_flight P c st flight) as [st1 [e|]]; simpl in *.
      * exists 0%nat, 0%nat. rewrite Ht, Hh. repeat split; lia.
      * destruct (IH st1) as (k & e & H1 & H2 & H3 & H4).
        exists k, e. rewrite H1, H2, Ht, Hh. repeat split; try lia.
        intros Hall. apply H4. now inversion Hall.
    + destruct (process_flight P c st flight) as [st1 r]; simpl in *. subst r.
      simpl. destruct (IH st1) as (k & e & H1 & H2 & H3 & H4).
      exists (S k), e. rewrite H1, H2, Ht, Hh, html_rows_app, !length_app. simpl.
      repeat split; try lia.
      intros Hall. apply H4. now inversion Hall.
    + destruct (process_flight P c st flight) as [st1 r]; simpl in *. subst r.
      simpl. exists 0%nat, 1%nat. rewrite Ht, Hh, length_app. simpl.
      repeat split; try lia.
      intros Hall. inversion Hall as [|? ? Hf _]; subst. now elim (Hf ob Hob).
Qed.

End Rows.

(** C8, on the code: the two buffers do not always hold the same number of
    offer rows.  The sentence is appended to [mailText] before the table row
    is built, and building the table row calls [formatDate(arrivalTime)],
    which throws on an offer without a valid arrival time: for a response
    with one such offer, priced 150 and leaving at 10 h, the mail has one
    sentence in its text and no row in its table. *)
Theorem C8_text_row_without_table_row :
  let offers := [Sample.offer_without_arrival "TO3400" "2024-06-01T10:00:00" 150 300] in
  let run := main (Sample.utc [HttpOk (FOArray offers)]) Sample.env Sample.args in
  exists m,
    mails_sent (events run) = [m]
    /\ length (text m) = 1%nat
    /\ length (html_rows (html m)) = 0%nat.
Proof.
  intros offers run. subst run offers. vm_compute.
  eexists. repeat split; reflexivity.
Qed.

(** C5, on the code: the run below admits the first offer of day 0 and fails
    on the table row of the second, which has no arrival time (the defect of
    C8): one mail is sent, with two sentences in its text and one row in its
    table. *)
Theorem C5_mail_rows_differ :
  let offers := [Sample.morning;
                 Sample.offer_without_arrival "TO3402" "2024-06-01T11:00:00" 150 300] in
  let run := main (Sample.utc [HttpOk (FOArray offers)]) Sample.env Sample.args in
  exists m,
    mails_sent (events run) = [m]
    /\ length (text m) = 2%nat
    /\ length (html_rows (html m)) = 1%nat.
Proof.
  intros offers run. subst run offers. vm_compute.
  eexists. repeat split; reflexivity.
Qed.

(* ------------------------------------------------------------------ *)
(** ** The mail of a run *)

Section Mail.

Variable P : Platform.
Variable c : Consts.

Lemma try_block_rows_imply_results st resp :
  rows_imply_results st -> rows_imply_results (fst (try_block P c st resp)).
Proof.
  unfold rows_imply_results. intros H.
  destruct resp as [[|offers|[|]]|d]; simpl; auto.
  destruct offers as [|flight rest]; [exact H|].
  right. now rewrite process_flights_hasResults.
Qed.

Lemma iteration_rows_imply_results i st st1 evs :
  iteration P c i st = inl (st1, evs) ->
  rows_imply_results st -> rows_imply_results st1.
Proof.
  unfold iteration. destruct (departure_date P (c_formattedStart c) i) as [d|]; [|discriminate].
  set (st' := set_params st (set_originDepartureDate (params st) d)).
  pose proof (try_block_rows_imply_results st' (axios_get P i (request_url (params st')))) as H.
  destruct (try_block P c st' _) as [st2 err]. intros E Hst. inversion E; subst.
  apply H. exact Hst.
Qed.

Lemma scan_rows_imply_results n : forall i st st' evs r,
  scan P c n i st = (st', evs, r) ->
  rows_imply_results st -> rows_imply_results st'.
Proof.
  induction n as [|n IH]; intros i st st' evs r Hs Hst; simpl in Hs.
  - now inversion Hs; subst.
  - destruct (iteration P c i st) as [[st1 evs1]|e] eqn:Hit.
    + destruct (scan P c n (S i) st1) as [[st2 evs2] r2] eqn:Hrec.
      inversion Hs; subst; clear Hs.
      eapply IH; [exact Hrec|]. eapply iteration_rows_imply_results; eassumption.
    + now inversion Hs; subst.
Qed.

End Mail.

(** A run sends at most one mail; when it returns with a row in its text
    buffer it sends exactly one, which carries the two buffers. *)
Lemma crawl_mails P key o d s m args shown st evs :
  formatDate P (Some (format_start s)) = Some shown ->
  hourRange args <> Some Bare ->
  scan P (run_consts key o d s args) 15 0 (initial_state o d s shown args) = (st, evs, None) ->
  mails_sent (events (crawl P key o d s m args))
  = if hasResults st
    then [ {| from := "David Nogueira <noreply@david-nogueira.dev>";
              to := m;
              subject := "Nouvelle offre de vol";
              text := mailText st;
              html := mailHTML st ++ [Tail] |} ]
    else [].
Proof.
  intros Hshown Hrange Hs. apply split_throws_bare in Hrange.
  unfold crawl. rewrite Hshown, Hrange, Hs. simpl.
  rewrite mails_sent_app, (scan_mails _ _ _ _ _ _ _ _ Hs).
  destruct (hasResults st); reflexivity.
Qed.

Lemma one_mail_when_a_row P key o d s m args shown st evs :
  formatDate P (Some (format_start s)) = Some shown ->
  hourRange args <> Some Bare ->
  scan P (run_consts key o d s args) 15 0 (initial_state o d s shown args) = (st, evs, None) ->
  mailText st <> [] ->
  mails_sent (events (crawl P key o d s m args))
  = [ {| from := "David Nogueira <noreply@david-nogueira.dev>";
         to := m;
         subject := "Nouvelle offre de vol";
         text := mailText st;
         html := mailHTML st ++ [Tail] |} ].
Proof.
  intros Hshown Hrange Hs Hrow.
  rewrite (crawl_mails _ _ _ _ _ _ _ _ _ _ Hshown Hrange Hs).
  destruct (scan_rows_imply_results _ _ _ _ _ _ _ _ Hs) as [H|H].
  - left; reflexivity.
  - now elim Hrow.
  - now rewrite H.
Qed.

(* ------------------------------------------------------------------ *)
(** ** When a mail is sent *)

Section Results.

Variable P : Platform.
Variable c : Consts.

Lemma existsb_same {A} (f g : A -> bool) l :
  (forall x, f x = g x) -> existsb f l = existsb g l.
Proof.
  intros H. induction l as [|x l IH]; simpl; [reflexivity|]. now rewrite H, IH.
Qed.

Lemma try_block_hasResults st resp :
  hasResults (fst (try_block P c st resp)) = hasResults st || has_offers resp.
Proof.
  destruct resp as [[|offers|[|]]|d]; simpl; rewrite ?orb_false_r, ?orb_true_r; try reflexivity.
  rewrite process_flights_hasResults.
  destruct offers; simpl; now rewrite ?orb_false_r, ?orb_true_r.
Qed.

Lemma iteration_hasResults i st st1 evs d :
  iteration P c i st = inl (st1, evs) ->
  departure_date P (c_formattedStart c) i = Some d ->
  hasResults st1
  = hasResults st
    || has_offers (axios_get P i (request_url (set_originDepartureDate (params st) d))).
Proof.
  unfold iteration. intros H Hd. rewrite Hd in H.
  set (st' := set_params st (set_originDepartureDate (params st) d)) in *.
  pose proof (try_block_hasResults st' (axios_get P i (request_url (params st')))) as Hh.
  destruct (try_block P c st' _) as [st2 err]. inversion H; subst. exact Hh.
Qed.

(** [hasResults] after the scan: it was set, or the response of one of the
    offsets had offers. *)
Lemma scan_hasResults n : forall i st st' evs,
  scan P c n i st = (st', evs, None) ->
  hasResults st'
  = hasResults st
    || existsb (fun j => has_offers (axios_get P j (offset_url P c (params st) j))) (seq i n).
Proof.
  induction n as [|n IH]; intros i st st' evs Hs; simpl in Hs.
  - inversion Hs; subst. simpl. now rewrite orb_false_r.
  - destruct (iteration P c i st) as [[st1 evs1]|e] eqn:Hit; [|discriminate].
    destruct (scan P c n (S i) st1) as [[st2 evs2] r2] eqn:Hrec.
    inversion Hs; subst; clear Hs.
    destruct (iteration_inv _ _ _ _ _ _ Hit) as (d & tail & Hd & _ & _ & _ & Hp).
    rewrite (IH _ _ _ _ Hrec), (iteration_hasResults _ _ _ _ _ Hit Hd).
    simpl. rewrite <- orb_assoc. f_equal. f_equal.
    + unfold offset_url. now rewrite Hd.
    + apply existsb_same. intros j. f_equal. f_equal.
      apply offset_url_same_fixed. rewrite Hp. apply set_date_same_fixed.
Qed.

End Results.

(** What the code does for C1: a run that reaches its end sends its mail
    exactly when the response of one of the fifteen offsets carried offers,
    admitted or not. *)
Lemma mail_sent_iff_offers_returned P key o d s m args shown :
  formatDate P (Some (format_start s)) = Some shown ->
  hourRange args <> Some Bare ->
  (forall j, (j < 15)%nat -> departure_date P (format_start s) j <> None) ->
  let url := offset_url P (run_consts key o d s args) (initial_params o d s args) in
  length (mails_sent (events (crawl P key o d s m args)))
  = if existsb (fun j => has_offers (axios_get P j (url j))) (seq 0 15) then 1%nat else 0%nat.
Proof.
  intros Hshown Hrange Hdates url.
  destruct (scan_completes P (run_consts key o d s args) 15 0
              (initial_state o d s shown args)) as (st & evs & Hs & _).
  { intros j Hj. apply Hdates. lia. }
  rewrite (crawl_mails _ _ _ _ _ _ _ _ _ _ Hshown Hrange Hs).
  rewrite (scan_hasResults _ _ _ _ _ _ _ Hs). simpl hasResults. rewrite orb_false_l.
  fold url. destruct (existsb _ _); reflexivity.
Qed.

(** C1, on the code: [hasResults] is set as soon as a response carries a
    non-empty [flightOffer], before any offer is filtered.  With [-p 200] and
    a single offer at 250 on day 0, no offer is admitted and yet one mail is
    sent, with an empty text and a table without rows. *)
Theorem C1_mail_without_admitted_offer :
  let run := main (Sample.utc [HttpOk (FOArray [Sample.expensive])]) Sample.env
               Sample.args_filtered in
  exists m,
    mails_sent (events run) = [m]
    /\ text m = []
    /\ html_rows (html m) = []
    /\ subject m = "Nouvelle offre de vol"%string.
Proof.
  intros run. subst run. vm_compute.
  eexists. repeat split; reflexivity.
Qed.

(* ------------------------------------------------------------------ *)
(** ** Validation *)

Lemma first_missing_required args :
  origin args = None \/ destination args = None \/ start args = None \/ mail args = None ->
  exists arg,
    first_missing args requiredArgs = Some arg
    /\ In arg requiredArgs
    /\ has_key args arg = false.
Proof.
  intros H. unfold requiredArgs. simpl.
  destruct (origin args) eqn:Ho; unfold has_key at 1; rewrite Ho; simpl;
    [|exists "origin"%string; unfold has_key; rewrite Ho; simpl; tauto].
  destruct (destination args) eqn:Hd; unfold has_key at 1; rewrite Hd; simpl;
    [|exists "destination"%string; unfold has_key; rewrite Hd; simpl; tauto].
  destruct (start args) eqn:Hs; unfold has_key at 1; rewrite Hs; simpl;
    [|exists "start"%string; unfold has_key; rewrite Hs; simpl; tauto].
  destruct (mail args) eqn:Hm; unfold has_key at 1; rewrite Hm; simpl;
    [|exists "mail"%string; unfold has_key; rewrite Hm; simpl; tauto].
  destruct H as [H|[H|[H|H]]]; discriminate.
Qed.

(** When nothing is missing the four required values are there: the last
    case of [main] is never taken. *)
Lemma first_missing_none args :
  first_missing args requiredArgs = None ->
  exists o d s m, origin args = Some o /\ destination args = Some d
                  /\ start args = Some s /\ mail args = Some m.
Proof.
  unfold requiredArgs. simpl. unfold has_key. simpl.
  destruct (origin args) as [o|]; [|discriminate].
  destruct (destination args) as [d|]; [|discriminate].
  destruct (start args) as [s|]; [|discriminate].
  destruct (mail args) as [m|]; [|discriminate].
  intros _. exists o, d, s, m. auto.
Qed.

(** C6, as amended: without an API credential the process prints the
    message [Missing Transavia API key] (and no usage or help) and exits
    with status 1; with a credential and without an origin, a destination, a
    start date or a recipient, it prints an error that names a missing
    argument, then the help, and ends there, with status 1 when [help()]
    returns.  In both cases no request has been made. *)
Theorem C6_validation P env args :
  ((TRANSAVIA_API_KEY env = None \/ TRANSAVIA_API_KEY env = Some ""%string) ->
     main P env args
     = {| events := [ConsoleError "Missing Transavia API key"]; status := Exited 1 |})
  /\ (forall key,
        TRANSAVIA_API_KEY env = Some key -> key <> ""%string ->
        origin args = None \/ destination args = None
        \/ start args = None \/ mail args = None ->
        exists arg,
          In arg requiredArgs
          /\ has_key args arg = false
          /\ events (main P env args)
             = [ConsoleError ("Missing required argument: " ++ arg); HelpOutput]
          /\ requests (events (main P env args)) = []
          /\ status (main P env args)
             = Exited (match help_exit P with Some code => code | None => 1 end)).
Proof.
  split.
  - intros [H|H]; unfold main; rewrite H; reflexivity.
  - intros key Hkey Hne Hmiss.
    destruct (first_missing_required args Hmiss) as (arg & Hfirst & Hin & Hhas).
    exists arg. unfold main. rewrite Hkey. destruct key as [|k0 k]; [now elim Hne|].
    rewrite Hfirst. simpl. auto.
Qed.

Lemma C6_validation_witness :
  let args := {| origin := Some "ORY"%string; destination := None;
                 start := Some "20240601"%string; mail := Some "me@example.org"%string;
                 price := None; adults := None; children := None; hourRange := None |} in
  exists arg,
    In arg requiredArgs
    /\ has_key args arg = false
    /\ events (main (Sample.utc []) Sample.env args)
       = [ConsoleError ("Missing required argument: " ++ arg); HelpOutput]
    /\ requests (events (main (Sample.utc []) Sample.env args)) = []
    /\ status (main (Sample.utc []) Sample.env args)
       = Exited (match help_exit (Sample.utc []) with Some code => code | None => 1 end).
Proof.
  intros args.
  refine (proj2 (C6_validation (Sample.utc []) Sample.env args) "secret"%string _ _ _).
  - reflexivity.
  - discriminate.
  - right; left; reflexivity.
Defined.

(** C6 as stated fails without an API credential: the process exits with
    status 1 and has printed one error message, not the usage or help. *)
Lemma C6_counterexample :
  let run := main (Sample.utc []) {| TRANSAVIA_API_KEY := None |} Sample.args in
  status run = Exited 1
  /\ events run = [ConsoleError "Missing Transavia API key"]
  /\ ~ In HelpOutput (events run).
Proof.
  intros run. split; [reflexivity|]. split; [reflexivity|].
  intros [H|[]]. discriminate H.
Qed.

(* ------------------------------------------------------------------ *)
(** ** The calendar

    The day numbers and the civil dates of [Date] agree with the calendar
    counted one day at a time.  The Gregorian calendar repeats every 400
    years, that is every 146097 days: the facts are checked on one period
    and carried to the others. *)

Lemma holds_on_spec f n : forall lo z,
  holds_on f lo n = true -> lo <= z < lo + Z.of_nat n -> f z = true.
Proof.
  induction n as [|n IH]; intros lo z H Hz; simpl in H.
  - lia.
  - apply andb_true_iff in H. destruct H as [H0 H].
    destruct (Z.eq_dec z lo) as [->|Hne]; [assumption|].
    apply (IH (lo + 1)); [assumption|lia].
Qed.

Lemma date_eqb_eq a b : date_eqb a b = true -> a = b.
Proof.
  destruct a as [[y m] d], b as [[y' m'] d']. simpl.
  rewrite !andb_true_iff, !Z.eqb_eq. intros [[-> ->] ->]. reflexivity.
Qed.

Lemma days_from_civil_linear y m d :
  JSDate.days_from_civil y m 1 + d - 1 = JSDate.days_from_civil y m d.
Proof. unfold JSDate.days_from_civil. lia. Qed.

Lemma isLeap_period y e : JSDate.isLeap (y + 400 * e) = JSDate.isLeap y.
Proof.
  unfold JSDate.isLeap.
  replace ((y + 400 * e) mod 4) with (y mod 4)
    by (replace (y + 400 * e) with (y + (100 * e) * 4) by ring; now rewrite Z_mod_plus_full).
  replace ((y + 400 * e) mod 100) with (y mod 100)
    by (replace (y + 400 * e) with (y + (4 * e) * 100) by ring; now rewrite Z_mod_plus_full).
  replace ((y + 400 * e) mod 400) with (y mod 400)
    by (replace (y + 400 * e) with (y + e * 400) by ring; now rewrite Z_mod_plus_full).
  reflexivity.
Qed.

Lemma daysInMonth_period y e m :
  JSDate.daysInMonth (y + 400 * e) m = JSDate.daysInMonth y m.
Proof. unfold JSDate.daysInMonth. now rewrite isLeap_period. Qed.

Lemma validDate_period y e m d :
  JSDate.validDate (y + 400 * e) m d = JSDate.validDate y m d.
Proof. unfold JSDate.validDate. now rewrite daysInMonth_period. Qed.

Lemma next_day_period e date :
  next_day (shift_year (400 * e) date) = shift_year (400 * e) (next_day date).
Proof.
  destruct date as [[y m] d]. unfold next_day, shift_year.
  rewrite daysInMonth_period.
  destruct (d <? JSDate.daysInMonth y m); [reflexivity|].
  destruct (m <? 12); [reflexivity|]. f_equal. f_equal. ring.
Qed.

Lemma days_from_civil_period y e m d :
  JSDate.days_from_civil (y + 400 * e) m d = JSDate.days_from_civil y m d + 146097 * e.
Proof.
  unfold JSDate.days_from_civil.
  destruct (m <=? 2).
  - replace (y + 400 * e - 1) with (y - 1 + e * 400) by ring.
    rewrite Z.div_add, Z_mod_plus_full by lia. ring.
  - replace (y + 400 * e) with (y + e * 400) by ring.
    rewrite Z.div_add, Z_mod_plus_full by lia. ring.
Qed.

Lemma civil_from_days_period z e :
  JSDate.civil_from_days (z + 146097 * e) = shift_year (400 * e) (JSDate.civil_from_days z).
Proof.
  unfold JSDate.civil_from_days, shift_year.
  replace (z + 146097 * e + 719468) with (z + 719468 + e * 146097) by ring.
  rewrite Z.div_add, Z_mod_plus_full by lia.
  set (doe := (z + 719468) mod 146097).
  set (yoe := (doe - doe / 1460 + doe / 36524 - doe / 146096) / 365).
  set (doy := doe - (365 * yoe + yoe / 4 - yoe / 100)).
  set (mp := (5 * doy + 2) / 153).
  destruct ((if mp <? 10 then mp + 3 else mp - 9) <=? 2); f_equal; f_equal; ring.
Qed.

Lemma in_one_period z period :
  0 < period ->
  exists z0 e, z = z0 + period * e /\ 0 <= z0 < period.
Proof.
  intros Hp. exists (z mod period), (z / period). split.
  - pose proof (Z.div_mod z period). lia.
  - apply Z.mod_pos_bound. assumption.
Qed.

Lemma validDate_bounds y m d :
  JSDate.validDate y m d = true -> 1 <= m <= 12 /\ 1 <= d <= 31.
Proof.
  unfold JSDate.validDate, JSDate.daysInMonth.
  rewrite !andb_true_iff, !Z.leb_le. intros [[[H1 H2] H3] H4].
  destruct (m =? 2); [destruct (JSDate.isLeap y); lia|].
  destruct ((m =? 4) || (m =? 6) || (m =? 9) || (m =? 11)); lia.
Qed.

Lemma one_period_walked :
  calendar_walk (Z.to_nat 146098) (-719468) (0, 3, 1) = true.
Proof. vm_compute. reflexivity. Qed.

Lemma one_period_of_months :
  holds_on year_check 0 (Z.to_nat 400) = true.
Proof. vm_compute. reflexivity. Qed.

Lemma plus_days_next date k :
  plus_days (next_day date) k = next_day (plus_days date k).
Proof. induction k as [|k IH]; simpl; [reflexivity|now rewrite IH]. Qed.

Lemma calendar_walk_spec n : forall z date k,
  calendar_walk n z date = true -> (k < n)%nat ->
  JSDate.civil_from_days (z + Z.of_nat k) = plus_days date k.
Proof.
  induction n as [|n IH]; intros z date k H Hk; [lia|].
  simpl in H. apply andb_true_iff in H. destruct H as [H0 H].
  destruct k as [|k].
  - simpl. rewrite Z.add_0_r. now apply date_eqb_eq.
  - rewrite Nat2Z.inj_succ.
    replace (z + Z.succ (Z.of_nat k)) with (z + 1 + Z.of_nat k) by lia.
    rewrite (IH _ _ k H) by lia. apply plus_days_next.
Qed.

Lemma daysInMonth_bounds y m : 28 <= JSDate.daysInMonth y m <= 31.
Proof.
  unfold JSDate.daysInMonth.
  destruct (m =? 2); [destruct (JSDate.isLeap y); lia|].
  destruct ((m =? 4) || (m =? 6) || (m =? 9) || (m =? 11)); lia.
Qed.

Lemma validDate_spec y m d :
  JSDate.validDate y m d = true <->
  1 <= m <= 12 /\ 1 <= d <= JSDate.daysInMonth y m.
Proof.
  unfold JSDate.validDate. rewrite !andb_true_iff, !Z.leb_le. tauto.
Qed.

Lemma next_day_valid y m d :
  JSDate.validDate y m d = true ->
  let '(y', m', d') := next_day (y, m, d) in JSDate.validDate y' m' d' = true.
Proof.
  rewrite validDate_spec. intros [Hm Hd]. unfold next_day.
  destruct (d <? JSDate.daysInMonth y m) eqn:E1.
  - apply Z.ltb_lt in E1. apply validDate_spec. lia.
  - destruct (m <? 12) eqn:E2.
    + apply Z.ltb_lt in E2. apply validDate_spec.
      pose proof (daysInMonth_bounds y (m + 1)). lia.
    + apply validDate_spec. pose proof (daysInMonth_bounds (y + 1) 1). lia.
Qed.

Lemma plus_days_valid y m d k :
  JSDate.validDate y m d = true ->
  let '(y', m', d') := plus_days (y, m, d) k in JSDate.validDate y' m' d' = true.
Proof.
  intros Hv. induction k as [|k IH]; simpl; [assumption|].
  destruct (plus_days (y, m, d) k) as [[y' m'] d']. now apply next_day_valid.
Qed.

Lemma first_of_next_month_period y e m :
  first_of_next_month (y + 400 * e) m = shift_year (400 * e) (first_of_next_month y m).
Proof.
  unfold first_of_next_month, shift_year. destruct (m <? 12); [reflexivity|].
  f_equal. f_equal. ring.
Qed.

(** The first day of a month is the civil date of its day number, and the
    next month begins as many days later as the month has. *)
Lemma month_facts y m :
  1 <= m <= 12 ->
  JSDate.civil_from_days (JSDate.days_from_civil y m 1) = (y, m, 1)
  /\ (let '(y', m', d') := first_of_next_month y m in
      JSDate.days_from_civil y' m' d'
      = JSDate.days_from_civil y m 1 + JSDate.daysInMonth y m).
Proof.
  intros Hm. destruct (in_one_period y 400) as (y0 & e & Hy & Hy0); [lia|].
  subst y. rewrite first_of_next_month_period.
  rewrite days_from_civil_period, civil_from_days_period, daysInMonth_period.
  pose proof (holds_on_spec _ _ _ y0 one_period_of_months ltac:(simpl; lia)) as Hc.
  unfold year_check in Hc.
  pose proof (holds_on_spec _ _ _ m Hc ltac:(simpl; lia)) as Hc'.
  unfold month_check in Hc'.
  destruct (first_of_next_month y0 m) as [[y' m'] d'].
  apply andb_true_iff in Hc'. destruct Hc' as [H1 H2].
  apply date_eqb_eq in H1. apply Z.eqb_eq in H2.
  rewrite H1. unfold shift_year. rewrite days_from_civil_period.
  split; [reflexivity|lia].
Qed.

(** The day after a date of the calendar has the next day number. *)
Lemma days_from_civil_next y m d :
  JSDate.validDate y m d = true ->
  let '(y', m', d') := next_day (y, m, d) in
  JSDate.days_from_civil y' m' d' = JSDate.days_from_civil y m d + 1.
Proof.
  rewrite validDate_spec. intros [Hm Hd]. unfold next_day.
  destruct (d <? JSDate.daysInMonth y m) eqn:E1.
  - rewrite <- (days_from_civil_linear y m (d + 1)), <- (days_from_civil_linear y m d). ring.
  - apply Z.ltb_ge in E1.
    pose proof (proj2 (month_facts y m Hm)) as Hnext.
    unfold first_of_next_month in Hnext.
    rewrite <- (days_from_civil_linear y m d).
    destruct (m <? 12); lia.
Qed.

Lemma days_from_civil_plus y m d k :
  JSDate.validDate y m d = true ->
  let '(y', m', d') := plus_days (y, m, d) k in
  JSDate.days_from_civil y' m' d' = JSDate.days_from_civil y m d + Z.of_nat k.
Proof.
  intros Hv. induction k as [|k IH].
  - simpl. lia.
  - pose proof (plus_days_valid y m d k Hv) as Hvk.
    simpl plus_days. destruct (plus_days (y, m, d) k) as [[y' m'] d'].
    pose proof (days_from_civil_next y' m' d' Hvk) as Hn.
    destruct (next_day (y', m', d')) as [[y2 m2] d2]. lia.
Qed.

(** Day [z + 1] is the day after day [z], whose civil date is a date of the
    calendar and has day number [z]. *)
Lemma civil_from_days_facts z y m d :
  JSDate.civil_from_days z = (y, m, d) ->
  JSDate.civil_from_days (z + 1) = next_day (y, m, d)
  /\ JSDate.days_from_civil y m d = z
  /\ JSDate.validDate y m d = true.
Proof.
  destruct (in_one_period (z + 719468) 146097) as (w & e & Hz & Hw); [lia|].
  replace z with (-719468 + Z.of_nat (Z.to_nat w) + 146097 * e) by lia.
  replace (-719468 + Z.of_nat (Z.to_nat w) + 146097 * e + 1)
    with (-719468 + Z.of_nat (S (Z.to_nat w)) + 146097 * e) by lia.
  rewrite !civil_from_days_period.
  rewrite (calendar_walk_spec _ _ _ (Z.to_nat w) one_period_walked) by lia.
  rewrite (calendar_walk_spec _ _ _ (S (Z.to_nat w)) one_period_walked) by lia.
  pose proof (plus_days_valid 0 3 1 (Z.to_nat w) eq_refl) as Hv.
  pose proof (days_from_civil_plus 0 3 1 (Z.to_nat w) eq_refl) as Hd.
  simpl plus_days.
  destruct (plus_days (0, 3, 1) (Z.to_nat w)) as [[y0 m0] d0].
  set (k := 400 * e). unfold shift_year at 1. intros E. injection E as <- <- <-.
  subst k. change (y0 + 400 * e, m0, d0) with (shift_year (400 * e) (y0, m0, d0)).
  rewrite next_day_period. unfold shift_year at 2.
  rewrite days_from_civil_period, validDate_period.
  split; [reflexivity|]. split; [|assumption].
  rewrite Hd. change (JSDate.days_from_civil 0 3 1) with (-719468). lia.
Qed.

(** The civil date of day [z + i] is the date of day [z] plus [i] days. *)
Lemma civil_from_days_plus z i :
  JSDate.civil_from_days (z + Z.of_nat i) = plus_days (JSDate.civil_from_days z) i.
Proof.
  induction i as [|i IH].
  - simpl. now rewrite Z.add_0_r.
  - rewrite Nat2Z.inj_succ. simpl plus_days. rewrite <- IH.
    replace (z + Z.succ (Z.of_nat i)) with (z + Z.of_nat i + 1) by lia.
    destruct (JSDate.civil_from_days (z + Z.of_nat i)) as [[y m] d] eqn:E.
    apply (civil_from_days_facts _ _ _ _ E).
Qed.

Lemma plus_days_in_month y m k :
  1 + Z.of_nat k <= JSDate.daysInMonth y m ->
  plus_days (y, m, 1) k = (y, m, 1 + Z.of_nat k).
Proof.
  induction k as [|k IH]; intros Hk.
  - reflexivity.
  - simpl plus_days. rewrite IH by lia. unfold next_day.
    replace (1 + Z.of_nat k <? JSDate.daysInMonth y m) with true
      by (symmetry; apply Z.ltb_lt; lia).
    f_equal. lia.
Qed.

(** A date of the calendar is the civil date of its day number. *)
Lemma civil_from_days_from_civil y m d :
  JSDate.validDate y m d = true ->
  JSDate.civil_from_days (JSDate.days_from_civil y m d) = (y, m, d).
Proof.
  rewrite validDate_spec. intros [Hm Hd].
  rewrite <- (days_from_civil_linear y m d).
  replace (JSDate.days_from_civil y m 1 + d - 1)
    with (JSDate.days_from_civil y m 1 + Z.of_nat (Z.to_nat (d - 1))) by lia.
  rewrite civil_from_days_plus, (proj1 (month_facts y m Hm)).
  rewrite plus_days_in_month by lia. f_equal. lia.
Qed.

(** ** The dates of the scan where local time keeps one offset *)

Lemma four_digits_years : holds_on four_digits 0 (Z.to_nat 10000) = true.
Proof. vm_compute. reflexivity. Qed.

Lemma two_digits_days : holds_on two_digits 0 (Z.to_nat 32) = true.
Proof. vm_compute. reflexivity. Qed.

Lemma digit_not_dash c : JS.is_digit c = true -> Ascii.eqb c "-" = false.
Proof.
  destruct c as [b0 b1 b2 b3 b4 b5 b6 b7].
  destruct b0, b1, b2, b3, b4, b5, b6, b7; vm_compute; congruence.
Qed.

Lemma pad4_no_dash n :
  0 <= n <= 9999 -> JS.remove_all "-" (JS.pad 4 n) = JS.pad 4 n.
Proof.
  intros Hn.
  pose proof (holds_on_spec _ _ _ n four_digits_years ltac:(simpl; lia)) as H.
  unfold four_digits in H.
  destruct (JS.pad 4 n) as [|a [|b [|c [|d [|? ?]]]]]; try discriminate.
  repeat rewrite andb_true_iff in H. destruct H as [[[[Ha Hb] Hc] Hd] _].
  simpl. now rewrite !digit_not_dash by assumption.
Qed.

Lemma pad2_no_dash n :
  0 <= n <= 31 -> JS.remove_all "-" (JS.pad 2 n) = JS.pad 2 n.
Proof.
  intros Hn.
  pose proof (holds_on_spec _ _ _ n two_digits_days ltac:(simpl; lia)) as H.
  unfold two_digits in H.
  destruct (JS.pad 2 n) as [|a [|b [|? ?]]]; try discriminate.
  repeat rewrite andb_true_iff in H. destruct H as [[Ha Hb] _].
  simpl. now rewrite !digit_not_dash by assumption.
Qed.

Lemma remove_all_app c a b :
  JS.remove_all c (a ++ b) = (JS.remove_all c a ++ JS.remove_all c b)%string.
Proof.
  induction a as [|x a IH]; simpl; [reflexivity|].
  destruct (Ascii.eqb x c); simpl; now rewrite IH.
Qed.

Lemma MakeDay_local t i :
  JSDate.MakeDay (JSDate.YearFromTime t) (JSDate.MonthFromTime t) (JSDate.DateFromTime t + i)
  = JSDate.Day t + i.
Proof.
  unfold JSDate.MakeDay, JSDate.YearFromTime, JSDate.MonthFromTime, JSDate.DateFromTime.
  destruct (JSDate.civil_from_days (JSDate.Day t)) as [[y m] d] eqn:E. simpl fst. simpl snd.
  destruct (civil_from_days_facts _ _ _ _ E) as (_ & Hd & Hv).
  destruct (validDate_bounds _ _ _ Hv) as [Hm _].
  rewrite Z.div_small, Z.mod_small by lia.
  replace (y + 0) with y by ring. replace (m - 1 + 1) with m by ring.
  rewrite <- Hd, <- (days_from_civil_linear y m d). ring.
Qed.

Section FixedOffset.

Variable P : Platform.
Variable off : Z.
Hypothesis fixed : forall t isUTC, LocalTZA P t isUTC = off.

Lemma addDays_fixed_offset tv i :
  addDays P (Some tv) i = JSDate.TimeClip (tv + i * JSDate.msPerDay).
Proof.
  unfold addDays, setDate, getDate, LocalTime, UTC. rewrite !fixed.
  rewrite MakeDay_local. f_equal. unfold JSDate.MakeDate, JSDate.Day, JSDate.TimeWithinDay.
  pose proof (Z.div_mod (tv + off) JSDate.msPerDay ltac:(discriminate)). lia.
Qed.

Lemma days_from_civil_bound y m d :
  0 <= y <= 9999 -> 1 <= m <= 12 -> 1 <= d <= 31 ->
  -1000000 <= JSDate.days_from_civil y m d <= 4000000.
Proof.
  intros Hy Hm Hd. unfold JSDate.days_from_civil. cbv zeta.
  destruct (m <=? 2) eqn:E1; destruct (2 <? m) eqn:E2;
    try (apply Z.leb_le in E1); try (apply Z.leb_gt in E1);
    try (apply Z.ltb_lt in E2); try (apply Z.ltb_ge in E2); try lia;
    Z.to_euclidean_division_equations; lia.
Qed.

(** In a time zone whose offset never changes, the date sent for offset [i]
    is the start date plus [i] days. *)
Lemma departure_date_fixed_offset fs y m d i :
  JSDate.validDate y m d = true ->
  Date_parse P fs = Some (JSDate.MakeDate (JSDate.MakeDay y (m - 1) d) 0) ->
  0 <= fst (fst (plus_days (y, m, d) i)) <= 9999 ->
  departure_date P fs i = Some (yyyymmdd (plus_days (y, m, d) i)).
Proof.
  intros Hv Hparse Hyear. destruct (validDate_bounds _ _ _ Hv) as [Hm Hd].
  unfold departure_date. rewrite Hparse, addDays_fixed_offset.
  assert (Hday : JSDate.MakeDay y (m - 1) d = JSDate.days_from_civil y m d).
  { unfold JSDate.MakeDay. rewrite Z.div_small, Z.mod_small by lia.
    replace (y + 0) with y by ring. replace (m - 1 + 1) with m by ring.
    apply days_from_civil_linear. }
  rewrite Hday. unfold JSDate.MakeDate.
  replace (JSDate.days_from_civil y m d * JSDate.msPerDay + 0 + Z.of_nat i * JSDate.msPerDay)
    with ((JSDate.days_from_civil y m d + Z.of_nat i) * JSDate.msPerDay) by ring.
  pose proof (civil_from_days_plus (JSDate.days_from_civil y m d) i) as Hplus.
  rewrite (civil_from_days_from_civil _ _ _ Hv) in Hplus.
  destruct (plus_days (y, m, d) i) as [[y' m'] d'] eqn:Hd'. simpl in Hyear.
  destruct (civil_from_days_facts _ _ _ _ Hplus) as (_ & Hn' & Hv').
  destruct (validDate_bounds _ _ _ Hv') as [Hm' Hdd'].
  pose proof (days_from_civil_bound y' m' d' Hyear Hm' Hdd') as Hb. rewrite Hn' in Hb.
  unfold JSDate.TimeClip.
  replace (Z.abs _ <=? 8640000000000000) with true
    by (symmetry; apply Z.leb_le; unfold JSDate.msPerDay; lia).
  f_equal. unfold JSDate.iso_date, JSDate.YearFromTime, JSDate.MonthFromTime,
    JSDate.DateFromTime, JSDate.Day.
  rewrite Z.div_mul by discriminate. rewrite Hplus. simpl fst. simpl snd.
  replace ((0 <=? y') && (y' <=? 9999)) with true
    by (symmetry; apply andb_true_iff; split; apply Z.leb_le; lia).
  replace (m' - 1 + 1) with m' by ring.
  unfold yyyymmdd. rewrite !remove_all_app.
  rewrite pad4_no_dash, !pad2_no_dash by lia. reflexivity.
Qed.

End FixedOffset.

(** ** A start date of eight digits *)

(** The start date [YYYYMMDD] of a date of the calendar gets its dashes and
    is parsed as midnight UTC of that date. *)
Lemma start_date_parsed y m d :
  0 <= y <= 9999 -> JSDate.validDate y m d = true ->
  JSDate.parse_iso_date (format_start (yyyymmdd (y, m, d)))
  = Some (JSDate.MakeDate (JSDate.MakeDay y (m - 1) d) 0).
Proof.
  intros Hy Hv. destruct (validDate_bounds _ _ _ Hv) as [Hm Hd].
  pose proof (holds_on_spec _ _ _ y four_digits_years ltac:(simpl; lia)) as H4.
  pose proof (holds_on_spec _ _ _ m two_digits_days ltac:(simpl; lia)) as H2.
  pose proof (holds_on_spec _ _ _ d two_digits_days ltac:(simpl; lia)) as H2'.
  unfold four_digits in H4. unfold two_digits in H2, H2'. unfold yyyymmdd.
  destruct (JS.pad 4 y) as [|y1 [|y2 [|y3 [|y4 [|? ?]]]]]; try discriminate.
  destruct (JS.pad 2 m) as [|m1 [|m2 [|? ?]]]; try discriminate.
  destruct (JS.pad 2 d) as [|d1 [|d2 [|? ?]]]; try discriminate.
  repeat rewrite andb_true_iff in H4. repeat rewrite andb_true_iff in H2.
  repeat rewrite andb_true_iff in H2'. rewrite Z.eqb_eq in H4, H2, H2'.
  destruct H4 as [[[[Hy1 Hy2] Hy3] Hy4] Hyv].
  destruct H2 as [[Hm1 Hm2] Hmv]. destruct H2' as [[Hd1 Hd2] Hdv].
  cbn [String.append format_start eight_digits].
  rewrite Hy1, Hy2, Hy3, Hy4, Hm1, Hm2, Hd1, Hd2.
  cbn [andb String.append JSDate.parse_iso_date JS.all_digits].
  rewrite Hy1, Hy2, Hy3, Hy4, Hm1, Hm2, Hd1, Hd2.
  cbn [andb]. rewrite Hyv, Hmv, Hdv, Hv. reflexivity.
Qed.

(** On Node, in a time zone whose offset never changes, the date sent for
    offset [i] of a start date [YYYYMMDD] is that date plus [i] days. *)
Lemma node_fixed_offset_dates off responses y m d i :
  0 <= y -> JSDate.validDate y m d = true ->
  fst (fst (plus_days (y, m, d) i)) <= 9999 ->
  departure_date (Node.platform (fun _ _ => off) responses)
    (format_start (yyyymmdd (y, m, d))) i
  = Some (yyyymmdd (plus_days (y, m, d) i)).
Proof.
  intros Hy Hv Hlast.
  assert (Hmono : y <= fst (fst (plus_days (y, m, d) i))).
  { clear Hlast Hv. induction i as [|i IH]; simpl; [lia|].
    destruct (plus_days (y, m, d) i) as [[y' m'] d']. simpl in *.
    destruct (d' <? JSDate.daysInMonth y' m'); [simpl; lia|].
    destruct (m' <? 12); simpl; lia. }
  apply (departure_date_fixed_offset _ off); try assumption.
  - reflexivity.
  - unfold Node.platform. cbn [Date_parse]. unfold Node.parse.
    rewrite start_date_parsed by (try assumption; lia).
    reflexivity.
  - lia.
Qed.

(* ------------------------------------------------------------------ *)
(** ** The dates of the scan across a change of offset *)

(** C4, on the code: the start date is read as midnight UTC, moved with
    [getDate]/[setDate], which work in local time, and written back with
    [toISOString], which works in UTC.  Where the offset of local time
    changes inside the window the result is a day off: in the Europe/Paris
    time zone, for the start date 20240325 and offset 7, the date sent is
    20240331 (already sent for offset 6) and not 20240401, which is the date
    sent when the process runs in UTC. *)
Theorem C4_date_off_by_a_day :
  JSDate.validDate 2024 3 25 = true
  /\ yyyymmdd (plus_days (2024, 3, 25) 7) = "20240401"%string
  /\ departure_date Sample.paris (format_start "20240325") 6 = Some "20240331"%string
  /\ departure_date Sample.paris (format_start "20240325") 7 = Some "20240331"%string
  /\ departure_date (Sample.utc []) (format_start "20240325") 7 = Some "20240401"%string.
Proof. vm_compute. repeat split; reflexivity. Qed.


(* ------------------------------------------------------------------ *)
(** ** More on validation *)

Lemma api_key_cases env :
  no_api_key env \/ exists c k, TRANSAVIA_API_KEY env = Some (String c k).
Proof.
  unfold no_api_key. destruct (TRANSAVIA_API_KEY env) as [[|c k]|]; eauto.
Qed.

(** The scan is left by an error only at an offset whose date does not
    exist, and the error is the [RangeError] of [toISOString]. *)
Lemma scan_error P c n : forall i st st' evs e,
  scan P c n i st = (st', evs, Some e) ->
  e = RangeError
  /\ exists j, (i <= j < i + n)%nat /\ departure_date P (c_formattedStart c) j = None.
Proof.
  induction n as [|n IH]; intros i st st' evs e Hs; simpl in Hs; [discriminate|].
  destruct (iteration P c i st) as [[st1 evs1]|e'] eqn:Hit.
  - destruct (scan P c n (S i) st1) as [[st2 evs2] r2] eqn:Hrec.
    inversion Hs; subst.
    destruct (IH _ _ _ _ _ Hrec) as (He & j & Hj & Hd).
    split; [assumption|]. exists j. split; [lia|assumption].
  - inversion Hs; subst. split.
    + unfold iteration in Hit.
      destruct (departure_date P _ i); [|now inversion Hit].
      destruct (try_block P _ _ _). discriminate.
    + exists i. split; [lia|].
      eapply (proj1 (iteration_date _ _ _ _)). eexists. exact Hit.
Qed.

Lemma scan_no_error P c n : forall i st st' evs,
  scan P c n i st = (st', evs, None) ->
  forall j, (i <= j < i + n)%nat -> departure_date P (c_formattedStart c) j <> None.
Proof.
  induction n as [|n IH]; intros i st st' evs Hs j Hj; [lia|]. simpl in Hs.
  destruct (iteration P c i st) as [[st1 evs1]|e'] eqn:Hit; [|discriminate].
  destruct (scan P c n (S i) st1) as [[st2 evs2] r2] eqn:Hrec.
  inversion Hs; subst.
  destruct (Nat.eq_dec j i) as [->|Hne].
  - destruct (iteration_inv _ _ _ _ _ _ Hit) as (d & _ & Hd & _). congruence.
  - apply (IH _ _ _ _ Hrec). lia.
Qed.

Lemma crawl_status P key o d s m args :
  status (crawl P key o d s m args) = Returned
  \/ status (crawl P key o d s m args) = Uncaught RangeError
  \/ status (crawl P key o d s m args) = Uncaught TypeError.
Proof.
  unfold crawl. destruct (formatDate P _) as [shown|]; [|now right; left].
  destruct (split_throws (hourRange args)); [now right; right|].
  destruct (scan P _ 15 0 _) as [[st evs] [e|]] eqn:Hs; [|now left].
  right. left. simpl. destruct (scan_error _ _ _ _ _ _ _ _ Hs) as [-> _]. reflexivity.
Qed.

Lemma main_after_validation P env args c k o d s m :
  TRANSAVIA_API_KEY env = Some (String c k) ->
  origin args = Some o -> destination args = Some d ->
  start args = Some s -> mail args = Some m ->
  main P env args = crawl P (String c k) o d s m args.
Proof.
  intros Hk Ho Hd Hs Hm. unfold main. rewrite Hk.
  unfold requiredArgs. simpl. unfold has_key. simpl.
  now rewrite Ho, Hd, Hs, Hm.
Qed.

(** X1: with an API key, the argument named in the error message is the
    first of origin, destination, start and mail that was not given; the
    ones after it are not reported, and whether the optional arguments were
    given plays no part. *)
Theorem X1_first_missing_argument_is_reported P env args c k :
  TRANSAVIA_API_KEY env = Some (String c k) ->
  let report arg :=
    events (main P env args)
    = [ConsoleError ("Missing required argument: " ++ arg); HelpOutput] in
  (origin args = None -> report "origin"%string)
  /\ (origin args <> None -> destination args = None -> report "destination"%string)
  /\ (origin args <> None -> destination args <> None -> start args = None ->
      report "start"%string)
  /\ (origin args <> None -> destination args <> None -> start args <> None ->
      mail args = None -> report "mail"%string).
Proof.
  intros Hk report. subst report. unfold main. rewrite Hk.
  unfold requiredArgs. simpl. unfold has_key. simpl.
  destruct (origin args); destruct (destination args); destruct (start args);
    destruct (mail args); repeat split; intros; try congruence; reflexivity.
Qed.

Lemma X1_first_missing_argument_is_reported_witness :
  let args := {| origin := Some "ORY"%string; destination := None;
                 start := None; mail := Some "me@example.org"%string;
                 price := None; adults := Some (Given "1"%string); children := None;
                 hourRange := None |} in
  events (main (Sample.utc []) Sample.env args)
  = [ConsoleError "Missing required argument: destination"; HelpOutput].
Proof.
  intros args.
  refine (proj1 (proj2 (X1_first_missing_argument_is_reported (Sample.utc [])
                          Sample.env args "s" "ecret" _)) _ _).
  - reflexivity.
  - discriminate.
  - reflexivity.
Defined.

(** X2: the process ends through [process.exit] exactly when the API key is
    missing or empty or one of the four required arguments was not given.
    An argument given as the empty string counts as given: the test is
    [arg in args]. *)
Theorem X2_exits_only_in_validation P env args :
  (exists code, status (main P env args) = Exited code)
  <-> no_api_key env \/ argument_missing args.
Proof.
  split.
  - intros [code Hc].
    destruct (api_key_cases env) as [Hno|(c & k & Hk)]; [now left|]. right.
    unfold argument_missing.
    destruct (origin args) as [o|] eqn:Ho; [|tauto].
    destruct (destination args) as [d|] eqn:Hd; [|tauto].
    destruct (start args) as [s|] eqn:Hs; [|tauto].
    destruct (mail args) as [m|] eqn:Hm; [|tauto].
    rewrite (main_after_validation P env args c k o d s m Hk Ho Hd Hs Hm) in Hc.
    destruct (crawl_status P (String c k) o d s m args) as [H|[H|H]];
      rewrite H in Hc; discriminate.
  - intros [Hno|Hmiss].
    + exists 1. destruct Hno as [H|H]; unfold main; rewrite H; reflexivity.
    + destruct (api_key_cases env) as [[H|H]|(c & k & Hk)].
      * exists 1. unfold main. now rewrite H.
      * exists 1. unfold main. now rewrite H.
      * destruct (first_missing_required args Hmiss) as (arg & Hfirst & _).
        eexists. unfold main. rewrite Hk, Hfirst. reflexivity.
Qed.

Lemma X2_exits_only_in_validation_witness :
  exists code,
    status (main (Sample.utc []) {| TRANSAVIA_API_KEY := Some ""%string |} Sample.args)
    = Exited code.
Proof.
  apply (proj2 (X2_exits_only_in_validation (Sample.utc [])
                  {| TRANSAVIA_API_KEY := Some ""%string |} Sample.args)).
  left. right. reflexivity.
Defined.

(* ------------------------------------------------------------------ *)
(** ** What a run never does *)

Lemma prefix_app a b : String.prefix a (a ++ b) = true.
Proof.
  induction a as [|x a IH]; simpl; [now destruct b|].
  destruct (ascii_dec x x) as [_|H]; [assumption|now elim H].
Qed.

Lemma string_app_assoc (a b c : string) : (a ++ (b ++ c) = (a ++ b) ++ c)%string.
Proof. induction a as [|x a IH]; simpl; [reflexivity|now rewrite IH]. Qed.

Lemma scan_gets P c n : forall i st st' evs r u k,
  scan P c n i st = (st', evs, r) ->
  In (HttpGet u k) evs ->
  k = apikey c /\ String.prefix (API_URL ++ "?") u = true.
Proof.
  induction n as [|n IH]; intros i st st' evs r u k Hs Hin; simpl in Hs.
  - inversion Hs; subst. destruct Hin.
  - destruct (iteration P c i st) as [[st1 evs1]|e] eqn:Hit.
    + destruct (scan P c n (S i) st1) as [[st2 evs2] r2] eqn:Hrec.
      inversion Hs; subst; clear Hs.
      apply in_app_or in Hin. destruct Hin as [Hin|Hin]; [|eapply IH; eassumption].
      unfold iteration in Hit.
      destruct (departure_date P _ i) as [d|]; [|discriminate].
      destruct (try_block P c _ _) as [st2' err]. inversion Hit; subst; clear Hit.
      destruct Hin as [Hin|Hin].
      * inversion Hin; subst. split; [reflexivity|]. unfold request_url.
        rewrite string_app_assoc. apply prefix_app.
      * destruct err; simpl in Hin; [destruct Hin as [Hin|[]]; discriminate|destruct Hin].
    + inversion Hs; subst. destruct Hin.
Qed.

Lemma scan_requests_length P c n : forall i st st' evs r,
  scan P c n i st = (st', evs, r) -> (length (requests evs) <= n)%nat.
Proof.
  induction n as [|n IH]; intros i st st' evs r Hs; simpl in Hs.
  - inversion Hs; subst. simpl. lia.
  - destruct (iteration P c i st) as [[st1 evs1]|e] eqn:Hit.
    + destruct (scan P c n (S i) st1) as [[st2 evs2] r2] eqn:Hrec.
      inversion Hs; subst; clear Hs.
      destruct (iteration_inv _ _ _ _ _ _ Hit) as (d & tail & _ & -> & Htail & _).
      simpl. rewrite requests_app, Htail. simpl.
      specialize (IH _ _ _ _ _ Hrec). lia.
    + inversion Hs; subst. simpl. lia.
Qed.

(** What [crawl] leaves behind, case by case. *)
Lemma crawl_cases P key o d s m args :
  (formatDate P (Some (format_start s)) = None
   /\ crawl P key o d s m args = {| events := []; status := Uncaught RangeError |})
  \/ (formatDate P (Some (format_start s)) <> None
      /\ hourRange args = Some Bare
      /\ crawl P key o d s m args = {| events := []; status := Uncaught TypeError |})
  \/ exists shown st evs r,
       formatDate P (Some (format_start s)) = Some shown
       /\ hourRange args <> Some Bare
       /\ scan P (run_consts key o d s args) 15 0 (initial_state o d s shown args)
          = (st, evs, r)
       /\ ((exists e, r = Some e
                      /\ crawl P key o d s m args = {| events := evs; status := Uncaught e |})
           \/ (r = None
               /\ status (crawl P key o d s m args) = Returned
               /\ exists tail,
                    events (crawl P key o d s m args) = (evs ++ tail)%list
                    /\ requests tail = []
                    /\ (forall u k, ~ In (HttpGet u k) tail)
                    /\ mails_sent tail
                       = if hasResults st
                         then [ {| from := "David Nogueira <noreply@david-nogueira.dev>";
                                   to := m;
                                   subject := "Nouvelle offre de vol";
                                   text := mailText st;
                                   html := mailHTML st ++ [Tail] |} ]
                         else [])).
Proof.
  unfold crawl. destruct (formatDate P _) as [shown|]; [|left; auto].
  right. destruct (split_throws (hourRange args)) eqn:Hrange.
  { left. split; [discriminate|]. split; [|reflexivity].
    destruct (hourRange args) as [[r|]|]; try discriminate. reflexivity. }
  right. apply split_throws_bare in Hrange.
  exists shown. destruct (scan P _ 15 0 _) as [[st evs] r].
  exists st, evs, r. split; [reflexivity|]. split; [exact Hrange|]. split; [reflexivity|].
  destruct r as [e|].
  - left. eauto.
  - right. split; [reflexivity|]. split; [reflexivity|].
    eexists. split; [reflexivity|].
    destruct (hasResults st); simpl; repeat split; try reflexivity;
      intros u k H; repeat (destruct H as [H|H]; [discriminate|]); exact H.
Qed.

(** X3: whatever the platform, the environment and the arguments, a run
    makes at most fifteen requests and sends at most one mail, and it sends
    one only when it returns normally; every request goes to the flight-offer
    endpoint and carries the API key of the environment. *)
Theorem X3_bounds_of_a_run P env args :
  (length (requests (events (main P env args))) <= 15)%nat
  /\ (length (mails_sent (events (main P env args))) <= 1)%nat
  /\ (mails_sent (events (main P env args)) <> [] -> status (main P env args) = Returned)
  /\ (forall u k,
        In (HttpGet u k) (events (main P env args)) ->
        TRANSAVIA_API_KEY env = Some k
        /\ String.prefix "https://api.transavia.com/v1/flightoffers/?" u = true).
Proof.
  assert (Hsimple : forall msgs code,
             (forall u k, ~ In (HttpGet u k) msgs) ->
             requests msgs = [] -> mails_sent msgs = [] ->
             main P env args = {| events := msgs; status := code |} ->
             (length (requests (events (main P env args))) <= 15)%nat
             /\ (length (mails_sent (events (main P env args))) <= 1)%nat
             /\ (mails_sent (events (main P env args)) <> []
                 -> status (main P env args) = Returned)
             /\ (forall u k,
                   In (HttpGet u k) (events (main P env args)) ->
                   TRANSAVIA_API_KEY env = Some k
                   /\ String.prefix "https://api.transavia.com/v1/flightoffers/?" u = true)).
  { intros msgs code Hno Hr Hm ->. simpl. rewrite Hr, Hm. simpl.
    split; [lia|]. split; [lia|]. split; [congruence|].
    intros u k Hin. now elim (Hno u k). }
  destruct (api_key_cases env) as [[Hk|Hk]|(c & k0 & Hk)].
  1, 2: apply (Hsimple [ConsoleError "Missing Transavia API key"] (Exited 1));
        [intros u k [H|[]]; discriminate | reflexivity | reflexivity
        | unfold main; now rewrite Hk].
  destruct (first_missing args requiredArgs) as [arg|] eqn:Hfirst.
  { eapply (Hsimple [ConsoleError _; HelpOutput]);
      [intros u k [H|[H|[]]]; discriminate | reflexivity | reflexivity
      | unfold main; rewrite Hk, Hfirst; reflexivity]. }
  destruct (first_missing_none args Hfirst) as (o & d & s & m & Ho & Hd & Hs & Hm).
  destruct (crawl_cases P (String c k0) o d s m args)
    as [[_ Hc]|[(_ & _ & Hc)|(shown & st & evs & r & _ & _ & Hscan
                              & [(e & -> & Hc)|(-> & Hst & tail & Hev & Hreq & Hget & Hmail)])]].
  - apply (Hsimple [] (Uncaught RangeError)); try reflexivity; [intros u k []|].
    now rewrite (main_after_validation P env args c k0 o d s m Hk Ho Hd Hs Hm).
  - apply (Hsimple [] (Uncaught TypeError)); try reflexivity; [intros u k []|].
    now rewrite (main_after_validation P env args c k0 o d s m Hk Ho Hd Hs Hm).
  - rewrite (main_after_validation P env args c k0 o d s m Hk Ho Hd Hs Hm), Hc.
    simpl. pose proof (scan_requests_length _ _ _ _ _ _ _ _ Hscan).
    rewrite (scan_mails _ _ _ _ _ _ _ _ Hscan). simpl.
    split; [lia|]. split; [lia|]. split; [congruence|].
    intros u k Hin. destruct (scan_gets _ _ _ _ _ _ _ _ _ _ Hscan Hin) as [-> Hp].
    split; [exact Hk|exact Hp].
  - rewrite (main_after_validation P env args c k0 o d s m Hk Ho Hd Hs Hm), Hev.
    pose proof (scan_requests_length _ _ _ _ _ _ _ _ Hscan).
    rewrite requests_app, mails_sent_app, Hreq, Hmail,
      (scan_mails _ _ _ _ _ _ _ _ Hscan), length_app. simpl.
    split; [lia|]. split; [destruct (hasResults st); simpl; lia|].
    split; [intros _; exact Hst|].
    intros u k Hin. apply in_app_or in Hin. destruct Hin as [Hin|Hin];
      [|now elim (Hget u k)].
    destruct (scan_gets _ _ _ _ _ _ _ _ _ _ Hscan Hin) as [-> Hp].
    split; [exact Hk|exact Hp].
Qed.

Lemma X3_bounds_of_a_run_witness :
  TRANSAVIA_API_KEY Sample.env = Some "secret"%string
  /\ String.prefix "https://api.transavia.com/v1/flightoffers/?"
       "https://api.transavia.com/v1/flightoffers/?origin=ORY&destination=LIS&originDepartureDate=20240601&directFlight=true&adults=2&hourRange=0-24"
     = true.
Proof.
  apply (proj2 (proj2 (proj2 (X3_bounds_of_a_run (Sample.utc []) Sample.env Sample.args)))).
  vm_compute. left. reflexivity.
Defined.

(** X4: once its arguments are validated, [main] throws exactly when a date
    does not exist (the start date in the header of the report, or the date
    of one of the fifteen offsets) or the option [-r] was given bare.  A
    date that does not exist throws a [RangeError]; a bare [-r] makes
    [hourRange] the value [true], whose [split] is not a function, and
    throws a [TypeError] after the header and before the first request.  No
    failure of a request and no malformed response makes [main] throw.  A
    run that throws sends no mail; with a start date that [Date] cannot
    read, or with a bare [-r], it has made no request either. *)
Theorem X4_what_makes_main_throw P env args c k o d s m :
  TRANSAVIA_API_KEY env = Some (String c k) ->
  origin args = Some o -> destination args = Some d ->
  start args = Some s -> mail args = Some m ->
  let bad_date :=
    formatDate P (Some (format_start s)) = None
    \/ exists j, (j < 15)%nat /\ departure_date P (format_start s) j = None in
  let bare_range := hourRange args = Some Bare in
  ((exists e, status (main P env args) = Uncaught e) <-> bad_date \/ bare_range)
  /\ (status (main P env args) = Returned <-> ~ bad_date /\ ~ bare_range)
  /\ (forall e, status (main P env args) = Uncaught e ->
                (e = RangeError \/ e = TypeError)
                /\ mails_sent (events (main P env args)) = [])
  /\ (status (main P env args) = Uncaught TypeError
      <-> formatDate P (Some (format_start s)) <> None /\ bare_range)
  /\ (Date_parse P (format_start s) = None ->
      main P env args = {| events := []; status := Uncaught RangeError |})
  /\ (bare_range -> events (main P env args) = []).
Proof.
  intros Hk Ho Hd Hs Hm bad_date bare_range.
  rewrite (main_after_validation P env args c k o d s m Hk Ho Hd Hs Hm).
  set (run := crawl P (String c k) o d s m args).
  assert (Hcases :
    (formatDate P (Some (format_start s)) = None
     /\ run = {| events := []; status := Uncaught RangeError |})
    \/ (formatDate P (Some (format_start s)) <> None /\ bare_range
        /\ run = {| events := []; status := Uncaught TypeError |})
    \/ (formatDate P (Some (format_start s)) <> None /\ ~ bare_range
        /\ (exists j, (j < 15)%nat /\ departure_date P (format_start s) j = None)
        /\ status run = Uncaught RangeError /\ mails_sent (events run) = [])
    \/ (~ bad_date /\ ~ bare_range /\ status run = Returned)).
  { subst run. destruct (crawl_cases P (String c k) o d s m args)
      as [[Hf Hc]|[(Hf & Hb & Hc)|(shown & st & evs & r & Hf & Hb & Hscan
                                   & [(e & -> & Hc)|(-> & Hst & _)])]].
    - left. auto.
    - right. left. auto.
    - right. right. left.
      destruct (scan_error _ _ _ _ _ _ _ _ Hscan) as (-> & j & Hj & Hdate).
      split; [congruence|]. split; [exact Hb|].
      split; [exists j; split; [lia|exact Hdate]|].
      rewrite Hc. split; [reflexivity|]. simpl. exact (scan_mails _ _ _ _ _ _ _ _ Hscan).
    - right. right. right. split; [|split; [exact Hb|exact Hst]].
      intros [Hbad|(j & Hj & Hdate)].
      + congruence.
      + apply (scan_no_error _ _ _ _ _ _ _ Hscan j); [lia|exact Hdate]. }
  split; [|split; [|split; [|split; [|split]]]].
  - destruct Hcases as [[Hf Hc]|[(Hf & Hb & Hc)|[(Hf & Hb & Hj & Hst & _)|(Hnd & Hb & Hst)]]];
      rewrite ?Hc, ?Hst; simpl; split.
    + intros _. left. now left.
    + intros _. eauto.
    + intros _. now right.
    + intros _. eauto.
    + intros _. left. now right.
    + intros _. eauto.
    + intros [e He]. discriminate.
    + intros [H|H]; contradiction.
  - destruct Hcases as [[Hf Hc]|[(Hf & Hb & Hc)|[(Hf & Hb & Hj & Hst & _)|(Hnd & Hb & Hst)]]];
      rewrite ?Hc, ?Hst; simpl; split; try discriminate; try tauto.
    + intros [H _]. elim H. now left.
    + intros [H _]. elim H. now right.
  - intros e He.
    destruct Hcases as [[Hf Hc]|[(Hf & Hb & Hc)|[(Hf & Hb & Hj & Hst & Hmail)|(Hnd & Hb & Hst)]]];
      rewrite ?Hc, ?Hst in *; simpl in *; inversion He; subst; auto.
  - destruct Hcases as [[Hf Hc]|[(Hf & Hb & Hc)|[(Hf & Hb & Hj & Hst & _)|(Hnd & Hb & Hst)]]];
      rewrite ?Hc, ?Hst; simpl; split; try discriminate; try tauto.
  - intros Hparse. subst run. unfold crawl, formatDate, new_Date. now rewrite Hparse.
  - intros Hb.
    destruct Hcases as [[Hf Hc]|[(Hf & _ & Hc)|[(Hf & Hnb & _)|(Hnd & Hnb & Hst)]]];
      rewrite ?Hc; try reflexivity; contradiction.
Qed.

Lemma X4_what_makes_main_throw_witness :
  let args := {| origin := Some "ORY"%string; destination := Some "LIS"%string;
                 start := Some "20240601"%string; mail := Some "me@example.org"%string;
                 price := None; adults := None; children := None;
                 hourRange := Some Bare |} in
  status (main (Sample.utc []) Sample.env args) = Uncaught TypeError
  /\ events (main (Sample.utc []) Sample.env args) = []
  /\ main (Sample.utc []) Sample.env
       {| origin := Some "ORY"%string; destination := Some "LIS"%string;
          start := Some "next week"%string; mail := Some "me@example.org"%string;
          price := None; adults := None; children := None; hourRange := None |}
     = {| events := []; status := Uncaught RangeError |}.
Proof.
  intros args.
  pose proof (X4_what_makes_main_throw (Sample.utc []) Sample.env args "s" "ecret"
                "ORY" "LIS" "20240601" "me@example.org" eq_refl eq_refl eq_refl eq_refl
                eq_refl) as (_ & _ & _ & Htype & _ & Hbare).
  split; [apply Htype; split; [vm_compute; discriminate|reflexivity]|].
  split; [apply Hbare; reflexivity|].
  refine (proj1 (proj2 (proj2 (proj2 (proj2
            (X4_what_makes_main_throw (Sample.utc []) Sample.env _ "s" "ecret" "ORY" "LIS"
               "next week" "me@example.org" _ _ _ _ _))))) _);
    reflexivity.
Defined.

(** X5: a run whose dates exist (and whose hour range is not the bare
    flag) sends its mail exactly when, for one of the fifteen offsets, the
    response carried a [flightOffer] with a truthy [length]; whether any
    offer was admitted plays no part.  In particular it sends none when
    every request fails or every response is empty. *)
Theorem X5_mail_iff_a_response_has_offers P key o d s m args shown :
  formatDate P (Some (format_start s)) = Some shown ->
  hourRange args <> Some Bare ->
  (forall j, (j < 15)%nat -> departure_date P (format_start s) j <> None) ->
  let response j :=
    axios_get P j (offset_url P (run_consts key o d s args) (initial_params o d s args) j) in
  (mails_sent (events (crawl P key o d s m args)) <> []
   <-> exists j, (j < 15)%nat /\ has_offers (response j) = true)
  /\ ((forall j, (j < 15)%nat ->
         (exists body, response j = HttpError body) \/ response j = HttpOk (FOArray []))
      -> mails_sent (events (crawl P key o d s m args)) = []).
Proof.
  intros Hshown Hrange Hdates response.
  pose proof (mail_sent_iff_offers_returned P key o d s m args shown Hshown Hrange Hdates)
    as Hlen.
  cbv zeta in Hlen. fold response in Hlen.
  assert (Hex : existsb (fun j => has_offers (response j)) (seq 0 15) = true
                <-> exists j, (j < 15)%nat /\ has_offers (response j) = true).
  { rewrite existsb_exists. split.
    - intros (j & Hin & Hj). apply in_seq in Hin. exists j. split; [lia|exact Hj].
    - intros (j & Hlt & Hj). exists j. split; [apply in_seq; lia|exact Hj]. }
  assert (Hiff : mails_sent (events (crawl P key o d s m args)) <> []
                 <-> exists j, (j < 15)%nat /\ has_offers (response j) = true).
  { rewrite <- Hex. destruct (existsb _ _); split; intros H; try reflexivity.
    - destruct (mails_sent _); [discriminate Hlen|discriminate].
    - destruct (mails_sent _); [now elim H|discriminate Hlen].
    - discriminate. }
  split; [exact Hiff|].
  intros Hall. destruct (mails_sent (events (crawl P key o d s m args))) eqn:E; [reflexivity|].
  assert (Hne : m0 :: l <> []) by discriminate.
  apply Hiff in Hne. destruct Hne as (j & Hj & Hoff).
  destruct (Hall j Hj) as [[body Hr]|Hr]; rewrite Hr in Hoff; discriminate.
Qed.

Lemma X5_mail_iff_a_response_has_offers_witness :
  mails_sent (events (crawl (Sample.utc [HttpError None]) "secret" "ORY" "LIS" "20240601"
                        "me@example.org" Sample.args)) = [].
Proof.
  refine (proj2 (X5_mail_iff_a_response_has_offers (Sample.utc [HttpError None]) "secret"
                   "ORY" "LIS" "20240601" "me@example.org" Sample.args
                   "01/06/2024 00:00" _ _ _) _).
  - reflexivity.
  - discriminate.
  - intros j Hj. do 15 (destruct j as [|j]; [vm_compute; discriminate|]). lia.
  - intros j Hj. destruct j as [|j]; [left; eexists; reflexivity|].
    right. do 14 (destruct j as [|j]; [reflexivity|]). lia.
Defined.

(* ------------------------------------------------------------------ *)
(** ** The link of an offer *)

Lemma prefix_nil_r p : String.prefix p "" = match p with EmptyString => true | _ => false end.
Proof. destruct p; reflexivity. Qed.

Lemma prefix_cons a p b s :
  String.prefix (String a p) (String b s)
  = if Ascii.eqb a b then String.prefix p s else false.
Proof.
  simpl. destruct (ascii_dec a b) as [->|Hne].
  - now rewrite Ascii.eqb_refl.
  - apply Ascii.eqb_neq in Hne. now rewrite Hne.
Qed.

(** Where the link begins with [nl-NL] the rewriting puts [fr-FR] and goes
    on after the five characters; elsewhere it keeps the character. *)
Lemma replace_step c r :
  JS.replace_all "nl-NL" "fr-FR" (String c r)
  = if String.prefix "nl-NL" (String c r)
    then ("fr-FR" ++ JS.replace_all_skip "nl-NL" "fr-FR" 4 r)%string
    else String c (JS.replace_all "nl-NL" "fr-FR" r).
Proof. reflexivity. Qed.

Ltac peel_prefix H s :=
  destruct s as [|?c s]; [simpl in H; discriminate H|];
  rewrite prefix_cons in H;
  match type of H with
  | (if Ascii.eqb ?a ?b then _ else _) = true =>
      let E := fresh "E" in
      destruct (Ascii.eqb a b) eqn:E; [apply Ascii.eqb_eq in E; subst|discriminate H]
  end.

Lemma prefix_nl_NL s :
  String.prefix "nl-NL" s = true -> exists rest, s = ("nl-NL" ++ rest)%string.
Proof.
  intros H. do 5 peel_prefix H s. exists s. reflexivity.
Qed.

(** A pattern without [n] and [f] begins the rewritten link only where it
    begins the link. *)
Lemma prefix_replace p : forall s,
  without_n_f p = true ->
  String.prefix p (JS.replace_all "nl-NL" "fr-FR" s) = String.prefix p s.
Proof.
  induction p as [|a p IH]; intros s Hp.
  - destruct s; destruct (JS.replace_all _ _ _); reflexivity.
  - simpl in Hp. rewrite !andb_true_iff, !negb_true_iff in Hp.
    destruct Hp as [[Hn Hf] Hp].
    destruct s as [|c r]; [reflexivity|].
    rewrite replace_step. destruct (String.prefix "nl-NL" (String c r)) eqn:E.
    + destruct (prefix_nl_NL _ E) as [rest Hrest]. rewrite Hrest.
      cbn [String.append]. rewrite !prefix_cons. now rewrite Hf, Hn.
    + rewrite !prefix_cons. destruct (Ascii.eqb a c); [|reflexivity].
      now apply IH.
Qed.

Lemma occurs_after_fr_FR x :
  occurs "nl-NL" ("fr-FR" ++ x) = occurs "nl-NL" x.
Proof. cbn [String.append occurs]. rewrite !prefix_cons. reflexivity. Qed.

Lemma occurs_replace_bounded n : forall s,
  (String.length s <= n)%nat ->
  occurs "nl-NL" (JS.replace_all "nl-NL" "fr-FR" s) = false.
Proof.
  induction n as [|n IH]; intros s Hlen.
  - destruct s; [reflexivity|simpl in Hlen; lia].
  - destruct s as [|c r]; [reflexivity|].
    rewrite replace_step. destruct (String.prefix "nl-NL" (String c r)) eqn:E.
    + destruct (prefix_nl_NL _ E) as [rest Hrest]. injection Hrest as -> ->.
      change (JS.replace_all_skip "nl-NL" "fr-FR" 4
                (String "l" (String "-" (String "N" (String "L" rest)))))
        with (JS.replace_all "nl-NL" "fr-FR" rest).
      rewrite occurs_after_fr_FR. apply IH. simpl in Hlen. lia.
    + cbn [occurs]. rewrite (IH r) by (simpl in Hlen; lia). rewrite orb_false_r.
      rewrite prefix_cons in *. destruct (Ascii.eqb "n" c); [|reflexivity].
      rewrite (prefix_replace "l-NL"); [exact E|reflexivity].
Qed.


Lemma occurs_replace s :
  occurs "nl-NL" (JS.replace_all "nl-NL" "fr-FR" s) = false.
Proof. apply (occurs_replace_bounded (String.length s)). lia. Qed.

Lemma replace_nothing s :
  occurs "nl-NL" s = false -> JS.replace_all "nl-NL" "fr-FR" s = s.
Proof.
  induction s as [|c r IH]; [reflexivity|].
  cbn [occurs]. rewrite orb_false_iff. intros [Hp Hr].
  rewrite replace_step, Hp. now rewrite IH.
Qed.

Lemma replace_length_bounded n : forall s,
  (String.length s <= n)%nat ->
  String.length (JS.replace_all "nl-NL" "fr-FR" s) = String.length s.
Proof.
  induction n as [|n IH]; intros s Hlen.
  - destruct s; [reflexivity|simpl in Hlen; lia].
  - destruct s as [|c r]; [reflexivity|].
    rewrite replace_step. destruct (String.prefix "nl-NL" (String c r)) eqn:E.
    + destruct (prefix_nl_NL _ E) as [rest Hrest]. injection Hrest as -> ->.
      change (JS.replace_all_skip "nl-NL" "fr-FR" 4
                (String "l" (String "-" (String "N" (String "L" rest)))))
        with (JS.replace_all "nl-NL" "fr-FR" rest).
      cbn [String.append String.length]. rewrite IH by (simpl in Hlen; lia). reflexivity.
    + cbn [String.length]. rewrite IH by (simpl in Hlen; lia). reflexivity.
Qed.

Lemma skip_nl_NL rest :
  JS.replace_all_skip "nl-NL" "fr-FR" 4 ("l-NL" ++ rest)
  = JS.replace_all "nl-NL" "fr-FR" rest.
Proof. reflexivity. Qed.

Ltac split_eqb :=
  repeat (rewrite prefix_cons in *;
          match goal with
          | H : context [Ascii.eqb ?a ?b] |- _ =>
              let E := fresh "E" in
              destruct (Ascii.eqb a b) eqn:E;
              [apply Ascii.eqb_eq in E; subst|]; try discriminate
          | |- context [Ascii.eqb ?a ?b] =>
              let E := fresh "E" in
              destruct (Ascii.eqb a b) eqn:E;
              [apply Ascii.eqb_eq in E; subst|]; try discriminate
          end).

(** An occurrence of [nl-NL] that begins inside [a], in [a] followed by
    [nl-NL], lies inside [a]. *)
Lemma prefix_before_occurrence a b :
  String.prefix "nl-NL" (a ++ "nl-NL" ++ b) = true ->
  a <> "" ->
  String.prefix "nl-NL" a = true.
Proof.
  intros H Ha.
  destruct a as [|c0 [|c1 [|c2 [|c3 [|c4 a]]]]]; [now elim Ha| | | | |];
    cbn [String.append] in H |- *; split_eqb; try reflexivity; try discriminate.
  now destruct a.
Qed.

Lemma replace_at_occurrence rest :
  JS.replace_all "nl-NL" "fr-FR" ("nl-NL" ++ rest)
  = ("fr-FR" ++ JS.replace_all "nl-NL" "fr-FR" rest)%string.
Proof.
  cbn [String.append]. rewrite replace_step, !prefix_cons.
  destruct rest; reflexivity.
Qed.

Lemma replace_around_bounded n : forall a b,
  (String.length a <= n)%nat ->
  JS.replace_all "nl-NL" "fr-FR" (a ++ "nl-NL" ++ b)
  = (JS.replace_all "nl-NL" "fr-FR" a ++ "fr-FR" ++ JS.replace_all "nl-NL" "fr-FR" b)%string.
Proof.
  induction n as [|n IH]; intros a b Hlen.
  - destruct a; [apply replace_at_occurrence|simpl in Hlen; lia].
  - destruct a as [|c r]; [apply replace_at_occurrence|].
    destruct (String.prefix "nl-NL" (String c r)) eqn:E.
    + destruct (prefix_nl_NL _ E) as [rest Hrest]. rewrite Hrest.
      rewrite <- string_app_assoc, !replace_at_occurrence.
      rewrite IH, <- !string_app_assoc; [reflexivity|].
      rewrite Hrest in Hlen. simpl in Hlen. lia.
    + change ((String c r ++ "nl-NL" ++ b)%string)
        with (String c (r ++ "nl-NL" ++ b)%string).
      rewrite !replace_step, E.
      destruct (String.prefix "nl-NL" (String c (r ++ "nl-NL" ++ b))) eqn:E'.
      * rewrite (prefix_before_occurrence (String c r) b E') in E; discriminate.
      * rewrite IH by (simpl in Hlen; lia). reflexivity.
Qed.

Lemma replace_length s :
  String.length (JS.replace_all "nl-NL" "fr-FR" s) = String.length s.
Proof. apply (replace_length_bounded (String.length s)). lia. Qed.

(** X6: the link put in the report is the [href] of the offer with every
    [nl-NL] turned into [fr-FR]: an [href] is rewritten piece by piece
    around each [nl-NL], no [nl-NL] is left in the link, an [href] without
    [nl-NL] is kept as it is, and the link has the length of the [href]. *)
Theorem X6_link_of_an_offer (a b s : string) :
  let link := JS.replace_all "nl-NL" "fr-FR" in
  link (a ++ "nl-NL" ++ b) = (link a ++ "fr-FR" ++ link b)%string
  /\ occurs "nl-NL" (link s) = false
  /\ (occurs "nl-NL" s = false -> link s = s)
  /\ String.length (link s) = String.length s.
Proof.
  cbv zeta. split; [|split; [|split]].
  - apply (replace_around_bounded (String.length a)). lia.
  - apply occurs_replace.
  - apply replace_nothing.
  - apply replace_length.
Qed.

Lemma X6_link_of_an_offer_witness :
  JS.replace_all "nl-NL" "fr-FR" "https://www.transavia.com/fr-FR/book"
  = "https://www.transavia.com/fr-FR/book".
Proof.
  apply (proj1 (proj2 (proj2 (X6_link_of_an_offer "" "" _)))).
  reflexivity.
Defined.

(* ------------------------------------------------------------------ *)
(** ** What every turn of the loop keeps *)

Section Invariant.

Variable P : Platform.
Variable c : Consts.
Variable Inv : LoopState -> Prop.

Hypothesis Inv_flight :
  forall st flight, Inv st -> Inv (fst (process_flight P c st flight)).
Hypothesis Inv_params :
  forall st d, Inv st -> Inv (set_params st (set_originDepartureDate (params st) d)).
Hypothesis Inv_results : forall st, Inv st -> Inv (set_hasResults st).

Lemma process_flights_invariant offers : forall st,
  Inv st -> Inv (fst (process_flights P c st offers)).
Proof.
  induction offers as [|flight rest IH]; intros st H; simpl; [assumption|].
  pose proof (Inv_flight st flight H) as H1.
  destruct (process_flight P c st flight) as [st1 [e|]]; simpl in *; auto.
Qed.

Lemma try_block_invariant st resp :
  Inv st -> Inv (fst (try_block P c st resp)).
Proof.
  intros H. destruct resp as [[|offers|[|]]|d]; simpl; auto.
  apply process_flights_invariant. destruct offers; auto.
Qed.

Lemma scan_invariant n : forall i st st' evs r,
  scan P c n i st = (st', evs, r) -> Inv st -> Inv st'.
Proof.
  induction n as [|n IH]; intros i st st' evs r Hs H; simpl in Hs.
  - now inversion Hs; subst.
  - destruct (iteration P c i st) as [[st1 evs1]|e] eqn:Hit.
    + destruct (scan P c n (S i) st1) as [[st2 evs2] r2] eqn:Hrec.
      inversion Hs; subst; clear Hs. eapply IH; [exact Hrec|].
      unfold iteration in Hit.
      destruct (departure_date P _ i) as [d|]; [|discriminate].
      pose proof (try_block_invariant _ (axios_get P i
                    (request_url (params (set_params st
                       (set_originDepartureDate (params st) d)))))
                    (Inv_params st d H)) as Ht.
      destruct (try_block P c _ _) as [st2' err]. inversion Hit; subst. exact Ht.
    + now inversion Hs; subst.
Qed.

End Invariant.

(** What the loop body does to the state, with the rows it builds. *)
Lemma process_flight_rows P c st flight :
  process_flight P c st flight = (st, snd (process_flight P c st flight))
  \/ exists ob pricing dl link dep,
       outboundFlight flight = Some ob
       /\ pricingInfoSum flight = Some pricing
       /\ deeplink flight = Some dl
       /\ href dl = Some link
       /\ formatDate P (departureDateTime ob) = Some dep
       /\ ((formatDate P (arrivalDateTime ob) = None
            /\ process_flight P c st flight
               = (append_mailText st (text_row_of c ob pricing link dep), Some RangeError))
           \/ exists arr,
                formatDate P (arrivalDateTime ob) = Some arr
                /\ process_flight P c st flight
                   = (append_mailHTML
                        (append_mailText st (text_row_of c ob pricing link dep))
                        (Tr (html_row_of P (params st) ob pricing link dep arr)),
                      None)).
Proof.
  unfold process_flight.
  destruct (outboundFlight flight) as [ob|] eqn:Hob; [|now left].
  destruct (pricingInfoSum flight) as [pr|] eqn:Hpr; [|now left].
  destruct (deeplink flight) as [dl|] eqn:Hdl; [|now left].
  destruct (href dl) as [h|] eqn:Hh; [|now left].
  destruct (JS.lt _ _); [|now left].
  destruct (departure_hour P _) as [hour|]; [|now left].
  destruct (_ || _); [now left|].
  destruct (formatDate P (departureDateTime ob)) as [dep|] eqn:Hdep; [|now left].
  right. exists ob, pr, dl, h, dep.
  split; [reflexivity|]. split; [reflexivity|]. split; [reflexivity|].
  split; [exact Hh|]. split; [exact Hdep|].
  destruct (formatDate P (arrivalDateTime ob)) as [arr|].
  - right. exists arr. split; reflexivity.
  - left. split; reflexivity.
Qed.

Lemma html_rows_map_Tr rows : html_rows (map Tr rows) = rows.
Proof. induction rows as [|r rows IH]; simpl; [reflexivity|now rewrite IH]. Qed.

Lemma report_ok_flight P c a ch h0 st flight :
  report_ok P c a ch h0 st -> report_ok P c a ch h0 (fst (process_flight P c st flight)).
Proof.
  intros (Ha & Hc & Hh & Hrows & Htext).
  destruct (process_flight_rows P c st flight)
    as [->|(ob & pr & dl & link & dep & _ & _ & _ & _ & _ & [[_ ->]|(arr & _ & ->)])].
  - simpl. repeat split; assumption.
  - unfold report_ok, append_mailText. simpl.
    repeat split; try assumption.
    apply Forall_app. split; [assumption|]. constructor; [|constructor].
    simpl. repeat split. apply occurs_replace.
  - unfold report_ok, append_mailHTML, append_mailText. simpl.
    split; [assumption|]. split; [assumption|]. split; [|split].
    + rewrite html_rows_app, map_app. simpl. rewrite Hh at 1. reflexivity.
    + rewrite html_rows_app. apply Forall_app. split; [assumption|].
      constructor; [|constructor]. simpl. rewrite Ha, Hc. split; [reflexivity|].
      apply occurs_replace.
    + apply Forall_app. split; [assumption|]. constructor; [|constructor].
      simpl. repeat split. apply occurs_replace.
Qed.

Lemma report_ok_scan P key o d s shown args st evs r :
  scan P (run_consts key o d s args) 15 0 (initial_state o d s shown args) = (st, evs, r) ->
  report_ok P (run_consts key o d s args)
    (JS.nullish (option_map value_of (adults args)) (PNumber 2))
    (JS.nullish (option_map value_of (children args)) (PNumber 0))
    (report_head o d shown args) st.
Proof.
  intros Hs. eapply (scan_invariant P _ _ _ _ _ 15 0 _ _ _ _ Hs).
  Unshelve.
  - repeat split; try reflexivity; constructor.
  - intros st0 flight. apply report_ok_flight.
  - intros st0 d0 H. exact H.
  - intros st0 H. exact H.
Qed.

(* ------------------------------------------------------------------ *)
(** ** The shape of the mail *)

(** Where a mail comes from: a run that passed the validation, whose dates
    exist, and whose scan ended with [hasResults] set. *)
Lemma main_mail P env args m :
  In m (mails_sent (events (main P env args))) ->
  exists key o d s rcpt shown st evs,
    TRANSAVIA_API_KEY env = Some key
    /\ origin args = Some o /\ destination args = Some d
    /\ start args = Some s /\ mail args = Some rcpt
    /\ formatDate P (Some (format_start s)) = Some shown
    /\ hourRange args <> Some Bare
    /\ scan P (run_consts key o d s args) 15 0 (initial_state o d s shown args)
       = (st, evs, None)
    /\ hasResults st = true
    /\ m = {| from := "David Nogueira <noreply@david-nogueira.dev>";
              to := rcpt;
              subject := "Nouvelle offre de vol";
              text := mailText st;
              html := mailHTML st ++ [Tail] |}.
Proof.
  intros Hin.
  destruct (api_key_cases env) as [[Hk|Hk]|(c & k0 & Hk)].
  1, 2: unfold main in Hin; rewrite Hk in Hin; simpl in Hin; contradiction.
  destruct (first_missing args requiredArgs) as [arg|] eqn:Hfirst.
  { unfold main in Hin. rewrite Hk, Hfirst in Hin. simpl in Hin. contradiction. }
  destruct (first_missing_none args Hfirst) as (o & d & s & rcpt & Ho & Hd & Hs & Hm).
  rewrite (main_after_validation P env args c k0 o d s rcpt Hk Ho Hd Hs Hm) in Hin.
  destruct (crawl_cases P (String c k0) o d s rcpt args)
    as [[_ Hc]|[(_ & _ & Hc)|(shown & st & evs & r & Hshown & Hrange & Hscan
                              & [(e & -> & Hc)|(-> & Hst & tail & Hev & Hreq & Hget & Hmail)])]].
  - rewrite Hc in Hin. simpl in Hin. contradiction.
  - rewrite Hc in Hin. simpl in Hin. contradiction.
  - rewrite Hc in Hin. simpl in Hin.
    rewrite (scan_mails _ _ _ _ _ _ _ _ Hscan) in Hin. contradiction.
  - rewrite Hev, mails_sent_app, (scan_mails _ _ _ _ _ _ _ _ Hscan), Hmail in Hin.
    simpl in Hin. destruct (hasResults st) eqn:Hres; [|contradiction].
    destruct Hin as [<-|[]].
    exists (String c k0), o, d, s, rcpt, shown, st, evs.
    repeat (split; [assumption || reflexivity|]). reflexivity.
Qed.

(** X7: the mail that a run sends is from the fixed sender, to the address
    given with [-m], with the fixed subject; its HTML body is the header
    built from the arguments, then table rows only, then the closing of the
    table. *)
Theorem X7_shape_of_the_mail P env args m :
  In m (mails_sent (events (main P env args))) ->
  from m = "David Nogueira <noreply@david-nogueira.dev>"
  /\ mail args = Some (to m)
  /\ subject m = "Nouvelle offre de vol"
  /\ exists o d s shown,
       origin args = Some o /\ destination args = Some d /\ start args = Some s
       /\ formatDate P (Some (format_start s)) = Some shown
       /\ html m = (Head (report_head o d shown args)
                      :: map Tr (html_rows (html m)) ++ [Tail])%list.
Proof.
  intros Hin.
  destruct (main_mail P env args m Hin)
    as (key & o & d & s & rcpt & shown & st & evs
        & Hk & Ho & Hd & Hs & Hm & Hshown & Hrange & Hscan & Hres & ->).
  simpl. split; [reflexivity|]. split; [exact Hm|]. split; [reflexivity|].
  exists o, d, s, shown. repeat (split; [assumption|]).
  destruct (report_ok_scan P key o d s shown args st evs None Hscan)
    as (_ & _ & Hh & _ & _).
  rewrite html_rows_app. simpl. rewrite app_nil_r. rewrite Hh at 1. reflexivity.
Qed.

Lemma X7_shape_of_the_mail_witness :
  exists m,
    mails_sent (events (main Sample.three_days Sample.env Sample.args_filtered)) = [m]
    /\ from m = "David Nogueira <noreply@david-nogueira.dev>"
    /\ mail Sample.args_filtered = Some (to m)
    /\ subject m = "Nouvelle offre de vol"
    /\ exists o d s shown,
         origin Sample.args_filtered = Some o /\ destination Sample.args_filtered = Some d
         /\ start Sample.args_filtered = Some s
         /\ formatDate Sample.three_days (Some (format_start s)) = Some shown
         /\ html m = (Head (report_head o d shown Sample.args_filtered)
                        :: map Tr (html_rows (html m)) ++ [Tail])%list.
Proof.
  eexists. split; [vm_compute; reflexivity|].
  apply (X7_shape_of_the_mail Sample.three_days Sample.env Sample.args_filtered).
  vm_compute. left. reflexivity.
Defined.

Lemma Qred_inject_Z z : Qred (inject_Z z) = inject_Z z.
Proof.
  unfold Qred, inject_Z.
  pose proof (Z.ggcd_gcd z 1) as Hg.
  pose proof (Z.ggcd_correct_divisors z 1) as Hd.
  destruct (Z.ggcd z 1) as [g [a b]]. simpl in Hg, Hd.
  rewrite Z.gcd_1_r in Hg. subst g. destruct Hd as [Ha Hb].
  replace a with z by lia. replace b with 1 by lia. reflexivity.
Qed.

Lemma Qred_integer z (p : positive) : Qred (Qmake (z * Zpos p) p) = inject_Z z.
Proof.
  rewrite <- (Qred_inject_Z z). apply Qred_complete. unfold Qeq, inject_Z. simpl. lia.
Qed.

Lemma round_half_even_whole n : JS.round_half_even n 1 = n.
Proof.
  unfold JS.round_half_even. rewrite Z.mod_1_r, Z.div_1_r. reflexivity.
Qed.

(** An integer up to 2^53 is a double. *)
Lemma round_double_integer k :
  Z.abs k <= 2 ^ 53 -> JS.round_double (inject_Z k) = JS.Num (inject_Z k).
Proof.
  intros Hk. unfold JS.round_double. cbn [Qnum Qden inject_Z].
  destruct (Z.abs k =? 0) eqn:E0.
  { apply Z.eqb_eq in E0. replace k with 0 by lia. reflexivity. }
  apply Z.eqb_neq in E0.
  assert (Hsign : (if k <? 0 then -1 else 1) * Z.abs k = k)
    by (destruct (k <? 0) eqn:Ek; [apply Z.ltb_lt in Ek|apply Z.ltb_ge in Ek]; lia).
  set (sg := if k <? 0 then -1 else 1) in *.
  set (n := Z.abs k) in *.
  assert (Hn : 0 < n) by lia.
  change (Z.log2 1) with 0. rewrite Z.sub_0_r.
  pose proof (Z.log2_spec n Hn) as [Hlo Hhi].
  pose proof (Z.log2_nonneg n) as Hl0.
  assert (Hl53 : Z.log2 n <= 53).
  { pose proof (Z.log2_le_mono n (2 ^ 53) Hk) as H. now rewrite Z.log2_pow2 in H by lia. }
  set (l := Z.log2 n) in *.
  destruct (Z.eq_dec l 53) as [E53|N53].
  - assert (En : n = 2 ^ 53) by (rewrite E53 in Hlo; lia).
    rewrite E53. unfold JS.scaled.
    change (0 <=? 53 - 52) with true. cbv iota.
    rewrite En.
    change (2 ^ 53 / (1 * 2 ^ (53 - 52)) <? 2 ^ 52) with false. cbv iota.
    change (Z.max (53 - 52) (-1074)) with 1.
    change (0 <=? 1) with true. cbv iota.
    change (JS.round_half_even (2 ^ 53) (1 * 2 ^ 1)) with (2 ^ 52).
    change (1024 <=? Z.log2 (2 ^ 52) + 1) with false. cbv iota.
    rewrite Qred_inject_Z. f_equal. f_equal. rewrite <- Hsign, En. ring.
  - assert (Hl52 : l <= 52) by lia.
    set (e := l - 52) in *.
    assert (He : e <= 0) by lia.
    assert (Hp : 0 < 2 ^ (- e)) by (apply Z.pow_pos_nonneg; lia).
    assert (Hscale : n * 2 ^ (- e) >= 2 ^ 52).
    { replace (2 ^ 52) with (2 ^ l * 2 ^ (- e)).
      - nia.
      - rewrite <- Z.pow_add_r by lia. f_equal. lia. }
    assert (Hscale2 : n * 2 ^ (- e) < 2 ^ 53).
    { replace (2 ^ 53) with (2 ^ Z.succ l * 2 ^ (- e)).
      - nia.
      - rewrite <- Z.pow_add_r by lia. f_equal. lia. }
    assert (Hsc : JS.scaled n 1 e = (n * 2 ^ (- e), 1)).
    { unfold JS.scaled. destruct (0 <=? e) eqn:E; [|reflexivity].
      apply Z.leb_le in E. replace e with 0 by lia. simpl. f_equal; lia. }
    rewrite Hsc. rewrite Z.div_1_r.
    replace (n * 2 ^ (- e) <? 2 ^ 52) with false by (symmetry; apply Z.ltb_ge; lia).
    replace (Z.max e (-1074)) with e by lia.
    rewrite Hsc, round_half_even_whole.
    assert (Hlog : Z.log2 (n * 2 ^ (- e)) = 52).
    { apply Z.log2_unique; [lia|]. split; [lia|]. change (Z.succ 52) with 53. lia. }
    rewrite Hlog.
    replace (1024 <=? 52 + e) with false by (symmetry; apply Z.leb_gt; lia).
    destruct (0 <=? e) eqn:E.
    + apply Z.leb_le in E. replace e with 0 by lia. simpl (2 ^ 0). simpl (2 ^ (-0)).
      rewrite Qred_inject_Z. f_equal. f_equal. lia.
    + f_equal. rewrite <- Hsign.
      replace (sg * (n * 2 ^ (- e))) with (sg * n * Z.pos (Z.to_pos (2 ^ (- e))))
        by (rewrite Z2Pos.id by lia; ring).
      apply Qred_integer.
Qed.

(** Two integers whose sum is at most 2^53 add exactly. *)
Lemma add_integers a b :
  Z.abs (a + b) <= 2 ^ 53 -> JS.add (JS.of_Z a) (JS.of_Z b) = JS.of_Z (a + b).
Proof.
  intros H. unfold JS.add, JS.of_Z.
  replace (inject_Z a + inject_Z b)%Q with (inject_Z (a + b)).
  - now apply round_double_integer.
  - unfold Qplus, inject_Z. simpl. f_equal. lia.
Qed.

(** Beyond 2^53 the sum is rounded: 2^53 + 1 is 2^53. *)
Example add_rounds :
  JS.add (JS.of_Z (2 ^ 53)) (JS.of_Z 1) = JS.of_Z (2 ^ 53)
  /\ JS.add (JS.of_Z (2 ^ 53)) (JS.of_Z 3) = JS.of_Z (2 ^ 53 + 4)
  /\ JS.add (JS.Num (1 # 2)) (JS.Num (1 # 4)) = JS.Num (3 # 4)
  /\ JS.add (JS.of_Z 1) JS.NaN = JS.NaN.
Proof. vm_compute. repeat split; reflexivity. Qed.

(** The passengers cell for counts as the command line gives them, on a
    run whose first response holds one offer that is admitted: the strings
    are converted and added as doubles, so [-a 9007199254740992 -c 1] shows
    2^53 and [-a 1 -c 2] shows 3; a bare [-a] counts as 1; a count that is
    no number shows [NaN]. *)
Example passengers_of_given_counts :
  let cells a c :=
    map h_passengers
      (flat_map (fun m => html_rows (html m))
         (mails_sent (events (main (Sample.utc [HttpOk (FOArray [Sample.morning])])
                                Sample.env (Sample.with_counts a c))))) in
  cells (Some (Given "9007199254740992")) (Some (Given "1")) = [JS.of_Z (2 ^ 53)]
  /\ cells (Some (Given "1")) (Some (Given "2")) = [JS.of_Z 3]
  /\ cells (Some Bare) None = [JS.of_Z 1]
  /\ cells (Some (Given "two")) None = [JS.NaN]
  /\ cells None None = [JS.of_Z 2].
Proof. vm_compute. repeat split; reflexivity. Qed.

(** X8: in the mail of a run every table row shows as passengers the sum
    [+params.adults + +params.children]: the two values are those of the
    arguments as [params] holds them (the string of the command line,
    [true] for a flag given bare, the numbers 2 and 0 without the option),
    each is converted to a number and the two are added as doubles are; so
    when the two convert to integers whose sum is at most 2^53 in absolute
    value the cell shows their sum, 2 on the plain command line.  Every
    sentence names the origin and the destination of the arguments, and no
    link, in a sentence or in a row, holds [nl-NL]. *)
Theorem X8_rows_of_the_mail P env args m :
  In m (mails_sent (events (main P env args))) ->
  let a := ToNumber_value P (JS.nullish (option_map value_of (adults args)) (PNumber 2)) in
  let c := ToNumber_value P (JS.nullish (option_map value_of (children args)) (PNumber 0)) in
  Forall (fun r => h_passengers r = JS.add a c
                   /\ (forall x y, a = JS.of_Z x -> c = JS.of_Z y ->
                                   Z.abs (x + y) <= 2 ^ 53 ->
                                   h_passengers r = JS.of_Z (x + y))
                   /\ occurs "nl-NL" (h_link r) = false)
    (html_rows (html m))
  /\ Forall (fun t => origin args = Some (t_origin t)
                      /\ destination args = Some (t_destination t)
                      /\ occurs "nl-NL" (t_link t) = false)
       (text m).
Proof.
  intros Hin a c.
  destruct (main_mail P env args m Hin)
    as (key & o & d & s & rcpt & shown & st & evs
        & Hk & Ho & Hd & Hs & Hm & Hshown & Hrange & Hscan & Hres & ->).
  destruct (report_ok_scan P key o d s shown args st evs None Hscan)
    as (_ & _ & _ & Hrows & Htext).
  simpl. split.
  - rewrite html_rows_app. simpl. rewrite app_nil_r.
    eapply Forall_impl; [|exact Hrows]. simpl. fold a c.
    intros r [Hp Hl]. split; [exact Hp|]. split; [|exact Hl].
    intros x y Hx Hy Hsum. rewrite Hp, Hx, Hy. now apply add_integers.
  - eapply Forall_impl; [|exact Htext]. simpl.
    intros t (-> & -> & Hl). auto.
Qed.

Lemma X8_rows_of_the_mail_witness :
  exists m,
    mails_sent (events (main Sample.three_days Sample.env Sample.args_filtered)) = [m]
    /\ Forall (fun r => h_passengers r = JS.of_Z (2 + 0)
                        /\ occurs "nl-NL" (h_link r) = false)
         (html_rows (html m))
    /\ Forall (fun t => Some "ORY" = Some (t_origin t)
                        /\ Some "LIS" = Some (t_destination t)
                        /\ occurs "nl-NL" (t_link t) = false)
         (text m).
Proof.
  eexists. split; [vm_compute; reflexivity|].
  refine ((fun facts =>
             conj (Forall_impl _ (fun r H => conj (proj1 (proj2 H) 2 0 eq_refl eq_refl _)
                                                  (proj2 (proj2 H)))
                     (proj1 facts))
                  (proj2 facts))
            (X8_rows_of_the_mail Sample.three_days Sample.env Sample.args_filtered _ _)).
  - vm_compute. discriminate.
  - vm_compute. left. reflexivity.
Defined.

(* ------------------------------------------------------------------ *)
(** ** How many rows *)

Lemma try_block_rows P c st resp :
  let st' := fst (try_block P c st resp) in
  exists k e,
    length (mailText st') = (length (mailText st) + k + e)%nat
    /\ length (html_rows (mailHTML st')) = (length (html_rows (mailHTML st)) + k)%nat
    /\ (e <= 1)%nat
    /\ ((forall offers, resp = HttpOk (FOArray offers) -> arrivals_are_dates P offers)
        -> e = 0%nat).
Proof.
  destruct resp as [[|offers|[|]]|body]; simpl;
    try (exists 0%nat, 0%nat; repeat split; lia).
  destruct (process_flights_rows P c offers
              (match offers with [] => st | _ :: _ => set_hasResults st end))
    as (k & e & H1 & H2 & H3 & H4).
  exists k, e. split; [|split; [|split]].
  - rewrite H1. now destruct offers.
  - rewrite H2. now destruct offers.
  - exact H3.
  - intros H. apply H4. now apply H.
Qed.

Lemma scan_rows P c n : forall i st st' evs r,
  scan P c n i st = (st', evs, r) ->
  exists k e,
    length (mailText st') = (length (mailText st) + k + e)%nat
    /\ length (html_rows (mailHTML st')) = (length (html_rows (mailHTML st)) + k)%nat
    /\ (e <= n)%nat
    /\ (responses_have_dates P -> e = 0%nat).
Proof.
  induction n as [|n IH]; intros i st st' evs r Hs; simpl in Hs.
  - inversion Hs; subst. exists 0%nat, 0%nat. repeat split; lia.
  - destruct (iteration P c i st) as [[st1 evs1]|e] eqn:Hit.
    + destruct (scan P c n (S i) st1) as [[st2 evs2] r2] eqn:Hrec.
      inversion Hs; subst; clear Hs.
      destruct (IH _ _ _ _ _ Hrec) as (k2 & e2 & A2 & B2 & C2 & D2).
      unfold iteration in Hit.
      destruct (departure_date P _ i) as [d|]; [|discriminate].
      pose proof (try_block_rows P c (set_params st (set_originDepartureDate (params st) d))
                    (axios_get P i (request_url (params (set_params st
                       (set_originDepartureDate (params st) d)))))) as Ht.
      destruct (try_block P c _ _) as [st1' err]. inversion Hit; subst; clear Hit.
      destruct Ht as (k1 & e1 & A1 & B1 & C1 & D1). simpl in A1, B1.
      exists (k1 + k2)%nat, (e1 + e2)%nat. split; [lia|]. split; [lia|]. split; [lia|].
      intros H. rewrite (D2 H), D1; [reflexivity|].
      intros offers Hr. exact (H _ _ _ Hr).
    + inversion Hs; subst. exists 0%nat, 0%nat. repeat split; lia.
Qed.

(** X9: the table of the mail never has more rows than the text has
    sentences, and the text has at most fifteen sentences more, one for each
    day that an arrival time stopped; when every arrival time of every
    response is a date, the two have as many. *)
Theorem X9_rows_and_sentences P env args m :
  In m (mails_sent (events (main P env args))) ->
  (length (html_rows (html m)) <= length (text m) <= length (html_rows (html m)) + 15)%nat
  /\ (responses_have_dates P -> length (text m) = length (html_rows (html m))).
Proof.
  intros Hin.
  destruct (main_mail P env args m Hin)
    as (key & o & d & s & rcpt & shown & st & evs
        & Hk & Ho & Hd & Hs & Hm & Hshown & Hrange & Hscan & Hres & ->).
  destruct (scan_rows _ _ _ _ _ _ _ _ Hscan) as (k & e & A & B & C & D).
  simpl in *. rewrite html_rows_app, length_app. simpl.
  split; [lia|]. intros H. rewrite (D H) in A. lia.
Qed.

Lemma X9_rows_and_sentences_witness :
  exists m,
    mails_sent (events (main Sample.three_days Sample.env Sample.args_filtered)) = [m]
    /\ (length (html_rows (html m)) <= length (text m) <= length (html_rows (html m)) + 15)%nat
    /\ length (text m) = length (html_rows (html m)).
Proof.
  eexists. split; [vm_compute; reflexivity|].
  refine ((fun facts => conj (proj1 facts) (proj2 facts _))
            (X9_rows_and_sentences Sample.three_days Sample.env Sample.args_filtered _ _)).
  - intros j u offers H.
    do 3 (destruct j as [|j];
          [vm_compute in H; inversion H; subst;
           repeat constructor; intros ob Hob; inversion Hob; vm_compute; discriminate|]).
    assert (E : offers = []).
    { destruct j as [|[|[|j]]]; simpl in H; inversion H; reflexivity. }
    rewrite E. constructor.
  - vm_compute. left. reflexivity.
Defined.

(* ------------------------------------------------------------------ *)
(** ** The rows, day by day *)

Section Alike.

Variable P : Platform.
Variable c : Consts.

(** What an offer appends, and whether it throws, does not depend on the
    buffers nor on the date in [params]. *)
Lemma process_flight_alike st st0 flight :
  same_fixed (params st) (params st0) ->
  let r := process_flight P c st flight in
  let r0 := process_flight P c st0 flight in
  exists t h,
    mailText (fst r) = (mailText st ++ t)%list
    /\ mailHTML (fst r) = (mailHTML st ++ h)%list
    /\ mailText (fst r0) = (mailText st0 ++ t)%list
    /\ mailHTML (fst r0) = (mailHTML st0 ++ h)%list
    /\ snd r = snd r0.
Proof.
  intros (_ & _ & _ & Ha & Hc & _). cbv zeta.
  assert (Hnone : forall e : option Error,
    exists t h,
      mailText (fst (st, e)) = (mailText st ++ t)%list
      /\ mailHTML (fst (st, e)) = (mailHTML st ++ h)%list
      /\ mailText (fst (st0, e)) = (mailText st0 ++ t)%list
      /\ mailHTML (fst (st0, e)) = (mailHTML st0 ++ h)%list
      /\ snd (st, e) = snd (st0, e)).
  { intros e. exists [], []. simpl. now rewrite !app_nil_r. }
  unfold process_flight.
  destruct (outboundFlight flight) as [ob|]; [|apply Hnone].
  destruct (pricingInfoSum flight) as [pr|]; [|apply Hnone].
  destruct (deeplink flight) as [dl|]; [|apply Hnone].
  destruct (href dl) as [l|]; [|apply Hnone].
  destruct (JS.lt _ _); [|apply Hnone].
  destruct (departure_hour P _) as [hour|]; [|apply Hnone].
  destruct (_ || _); [apply Hnone|].
  destruct (formatDate P (departureDateTime ob)) as [dep|]; [|apply Hnone].
  destruct (formatDate P (arrivalDateTime ob)) as [arr|].
  - eexists [_], [_]. simpl. rewrite Ha, Hc. repeat split; reflexivity.
  - eexists [_], []. simpl. rewrite !app_nil_r. repeat split; reflexivity.
Qed.

Lemma process_flights_alike offers : forall st st0,
  same_fixed (params st) (params st0) ->
  let r := process_flights P c st offers in
  let r0 := process_flights P c st0 offers in
  exists t h,
    mailText (fst r) = (mailText st ++ t)%list
    /\ mailHTML (fst r) = (mailHTML st ++ h)%list
    /\ mailText (fst r0) = (mailText st0 ++ t)%list
    /\ mailHTML (fst r0) = (mailHTML st0 ++ h)%list
    /\ snd r = snd r0.
Proof.
  induction offers as [|flight rest IH]; intros st st0 Hp; cbv zeta.
  - exists [], []. simpl. now rewrite !app_nil_r.
  - simpl.
    destruct (process_flight_alike st st0 flight Hp) as (t & h & A & B & A0 & B0 & E).
    pose proof (process_flight_params P c st flight) as Hp1.
    pose proof (process_flight_params P c st0 flight) as Hp2.
    cbv zeta in *.
    destruct (process_flight P c st flight) as [st1 e1].
    destruct (process_flight P c st0 flight) as [st2 e2].
    simpl in *. subst e2. destruct e1 as [e|].
    + exists t, h. simpl. auto.
    + assert (Hp' : same_fixed (params st1) (params st2)) by now rewrite Hp1, Hp2.
      destruct (IH st1 st2 Hp') as (t' & h' & A' & B' & A0' & B0' & E').
      cbv zeta in *. exists (t ++ t')%list, (h ++ h')%list.
      rewrite A', B', A0', B0', A, B, A0, B0, !app_assoc. auto.
Qed.

Lemma try_block_alike st st0 resp :
  same_fixed (params st) (params st0) ->
  let r := try_block P c st resp in
  let r0 := try_block P c st0 resp in
  exists t h,
    mailText (fst r) = (mailText st ++ t)%list
    /\ mailHTML (fst r) = (mailHTML st ++ h)%list
    /\ mailText (fst r0) = (mailText st0 ++ t)%list
    /\ mailHTML (fst r0) = (mailHTML st0 ++ h)%list
    /\ snd r = snd r0.
Proof.
  intros Hp. cbv zeta.
  destruct resp as [[|offers|[|]]|body]; simpl;
    try (exists [], []; simpl; now rewrite !app_nil_r).
  destruct offers as [|flight rest].
  - exists [], []. simpl. now rewrite !app_nil_r.
  - apply (process_flights_alike (flight :: rest) (set_hasResults st) (set_hasResults st0)).
    exact Hp.
Qed.

(** A day adds to the buffers what its response gives on its own. *)
Lemma try_block_day st p resp :
  same_fixed (params st) p ->
  mailText (fst (try_block P c st resp)) = (mailText st ++ day_text P c p resp)%list
  /\ mailHTML (fst (try_block P c st resp)) = (mailHTML st ++ day_html P c p resp)%list
  /\ snd (try_block P c st resp) = day_error P c p resp.
Proof.
  intros Hp. unfold day_text, day_html, day_error.
  destruct (try_block_alike st (blank p) resp Hp) as (t & h & A & B & A0 & B0 & E).
  cbv zeta in *. simpl in A0, B0. rewrite A, B, A0, B0, <- E.
  repeat split.
Qed.

Lemma day_same_fixed p q resp :
  same_fixed p q ->
  day_text P c p resp = day_text P c q resp
  /\ day_html P c p resp = day_html P c q resp
  /\ day_error P c p resp = day_error P c q resp.
Proof.
  intros Hp. exact (try_block_day (blank p) q resp Hp).
Qed.

Lemma scan_days n : forall i st st' evs,
  scan P c n i st = (st', evs, None) ->
  let response j := axios_get P j (offset_url P c (params st) j) in
  mailText st'
  = (mailText st ++ flat_map (fun j => day_text P c (params st) (response j)) (seq i n))%list
  /\ mailHTML st'
     = (mailHTML st ++ flat_map (fun j => day_html P c (params st) (response j)) (seq i n))%list.
Proof.
  induction n as [|n IH]; intros i st st' evs Hs; simpl in Hs; cbv zeta.
  - inversion Hs; subst. simpl. now rewrite !app_nil_r.
  - destruct (iteration P c i st) as [[st1 evs1]|e] eqn:Hit; [|discriminate].
    destruct (scan P c n (S i) st1) as [[st2 evs2] r2] eqn:Hrec.
    inversion Hs; subst; clear Hs.
    destruct (IH _ _ _ _ Hrec) as [A B]. cbv zeta in A, B.
    destruct (iteration_inv _ _ _ _ _ _ Hit) as (d & tail & Hd & _ & _ & _ & Hp).
    assert (Hsame : same_fixed (params st1) (params st))
      by (rewrite Hp; apply set_date_same_fixed).
    unfold iteration in Hit. rewrite Hd in Hit.
    destruct (try_block_day (set_params st (set_originDepartureDate (params st) d))
                (params st)
                (axios_get P i (request_url (params (set_params st
                   (set_originDepartureDate (params st) d)))))
                (set_date_same_fixed _ _)) as (A1 & B1 & _).
    destruct (try_block P c _ _) as [st1' err]. inversion Hit; subst; clear Hit.
    simpl in A1, B1.
    assert (Hurl : offset_url P c (params st) i
                   = request_url (set_originDepartureDate (params st) d))
      by (unfold offset_url; now rewrite Hd).
    rewrite A, B, A1, B1. simpl. rewrite Hurl, <- !app_assoc.
    split; f_equal; f_equal; apply flat_map_ext; intros j;
      rewrite (offset_url_same_fixed P c _ _ j Hsame);
      apply (day_same_fixed _ _ (axios_get P j (offset_url P c (params st) j)) Hsame).
Qed.

End Alike.

Lemma crawl_mail P key o d s rcpt args m :
  In m (mails_sent (events (crawl P key o d s rcpt args))) ->
  exists shown st evs,
    formatDate P (Some (format_start s)) = Some shown
    /\ scan P (run_consts key o d s args) 15 0 (initial_state o d s shown args)
       = (st, evs, None)
    /\ hasResults st = true
    /\ m = {| from := "David Nogueira <noreply@david-nogueira.dev>";
              to := rcpt;
              subject := "Nouvelle offre de vol";
              text := mailText st;
              html := mailHTML st ++ [Tail] |}.
Proof.
  intros Hin.
  destruct (crawl_cases P key o d s rcpt args)
    as [[_ Hc]|[(_ & _ & Hc)|(shown & st & evs & r & Hshown & _ & Hscan
                              & [(e & -> & Hc)|(-> & Hst & tail & Hev & Hreq & Hget & Hmail)])]].
  - rewrite Hc in Hin. simpl in Hin. contradiction.
  - rewrite Hc in Hin. simpl in Hin. contradiction.
  - rewrite Hc in Hin. simpl in Hin.
    rewrite (scan_mails _ _ _ _ _ _ _ _ Hscan) in Hin. contradiction.
  - rewrite Hev, mails_sent_app, (scan_mails _ _ _ _ _ _ _ _ Hscan), Hmail in Hin.
    simpl in Hin. destruct (hasResults st) eqn:Hres; [|contradiction].
    destruct Hin as [<-|[]].
    exists shown, st, evs. repeat (split; [assumption || reflexivity|]). reflexivity.
Qed.

(** X10: the mail of a run holds the rows day by day, in the order of the
    offsets: its text is what the response of offset 0 gives on its own,
    then what the response of offset 1 gives, and so on to offset 14, and
    its HTML body is the header, the table rows of the fifteen responses in
    the same order, and the closing of the table.  What a day adds depends
    on its response only, not on the days before it. *)
Theorem X10_rows_day_by_day P key o d s rcpt args m :
  In m (mails_sent (events (crawl P key o d s rcpt args))) ->
  let c := run_consts key o d s args in
  let p := initial_params o d s args in
  let response j := axios_get P j (offset_url P c p j) in
  text m = flat_map (fun j => day_text P c p (response j)) (seq 0 15)
  /\ exists shown,
       formatDate P (Some (format_start s)) = Some shown
       /\ html m = (Head (report_head o d shown args)
                      :: flat_map (fun j => day_html P c p (response j)) (seq 0 15)
                      ++ [Tail])%list.
Proof.
  intros Hin c p response.
  destruct (crawl_mail P key o d s rcpt args m Hin)
    as (shown & st & evs & Hshown & Hscan & Hres & ->).
  destruct (scan_days P _ _ _ _ _ _ Hscan) as [A B]. cbv zeta in A, B.
  simpl in *. split; [exact A|].
  exists shown. split; [exact Hshown|]. rewrite B. reflexivity.
Qed.

Lemma X10_rows_day_by_day_witness :
  exists m,
    mails_sent (events (crawl Sample.three_days "secret" "ORY" "LIS" "20240601"
                          "me@example.org" Sample.args_filtered)) = [m]
    /\ let c := run_consts "secret" "ORY" "LIS" "20240601" Sample.args_filtered in
       let p := initial_params "ORY" "LIS" "20240601" Sample.args_filtered in
       let response j := axios_get Sample.three_days j (offset_url Sample.three_days c p j) in
       text m = flat_map (fun j => day_text Sample.three_days c p (response j)) (seq 0 15)
       /\ exists shown,
            formatDate Sample.three_days (Some (format_start "20240601")) = Some shown
            /\ html m = (Head (report_head "ORY" "LIS" shown Sample.args_filtered)
                           :: flat_map (fun j => day_html Sample.three_days c p (response j))
                                (seq 0 15)
                           ++ [Tail])%list.
Proof.
  eexists. split; [vm_compute; reflexivity|].
  apply (X10_rows_day_by_day Sample.three_days "secret" "ORY" "LIS" "20240601"
           "me@example.org" Sample.args_filtered).
  vm_compute. left. reflexivity.
Defined.

Lemma process_flights_app P c first : forall st rest,
  process_flights P c st (first ++ rest) =
  match process_flights P c st first with
  | (st1, None) => process_flights P c st1 rest
  | (st1, Some e) => (st1, Some e)
  end.
Proof.
  induction first as [|flight first IH]; intros st rest; simpl; [reflexivity|].
  destruct (process_flight P c st flight) as [st1 [e|]]; [reflexivity|apply IH].
Qed.

(** The rows of a day, from the offer loop on empty buffers. *)
Lemma day_of_offers P c p offers :
  day_text P c p (HttpOk (FOArray offers))
  = mailText (fst (process_flights P c (blank p) offers))
  /\ day_html P c p (HttpOk (FOArray offers))
     = mailHTML (fst (process_flights P c (blank p) offers))
  /\ day_error P c p (HttpOk (FOArray offers))
     = snd (process_flights P c (blank p) offers).
Proof.
  unfold day_text, day_html, day_error.
  destruct offers as [|flight offers]; [repeat split|].
  change (try_block P c (blank p) (HttpOk (FOArray (flight :: offers))))
    with (process_flights P c (set_hasResults (blank p)) (flight :: offers)).
  assert (Hp : same_fixed (params (set_hasResults (blank p))) (params (blank p)))
    by repeat split.
  destruct (process_flights_alike P c (flight :: offers) _ _ Hp)
    as (t & h & A & B & A0 & B0 & E).
  cbv zeta in *. rewrite A, B, A0, B0, E. repeat split.
Qed.

(** X11: within a day the rows follow the order of the offers in the
    response: the rows of a list of offers are the rows of its first part
    followed, unless an offer of the first part threw, by the rows of the
    rest; once an offer throws, the offers after it add nothing, and the
    error of the day is the first one thrown. *)
Theorem X11_offers_in_api_order P c p (first rest : list FlightOffer) :
  let day offers := HttpOk (FOArray offers) in
  day_text P c p (day (first ++ rest)%list)
  = (day_text P c p (day first)
     ++ match day_error P c p (day first) with
        | Some _ => []
        | None => day_text P c p (day rest)
        end)%list
  /\ day_html P c p (day (first ++ rest)%list)
     = (day_html P c p (day first)
        ++ match day_error P c p (day first) with
           | Some _ => []
           | None => day_html P c p (day rest)
           end)%list
  /\ day_error P c p (day (first ++ rest)%list)
     = match day_error P c p (day first) with
       | Some e => Some e
       | None => day_error P c p (day rest)
       end.
Proof.
  cbv zeta.
  destruct (day_of_offers P c p (first ++ rest)%list) as (-> & -> & ->).
  destruct (day_of_offers P c p first) as (-> & -> & ->).
  destruct (day_of_offers P c p rest) as (-> & -> & ->).
  rewrite process_flights_app.
  pose proof (process_flights_params P c first (blank p)) as Hp.
  destruct (process_flights P c (blank p) first) as [st1 [e|]]; simpl in *.
  - now rewrite !app_nil_r.
  - assert (Hsame : same_fixed (params st1) (params (blank p)))
      by (rewrite Hp; repeat split).
    destruct (process_flights_alike P c rest st1 (blank p) Hsame)
      as (t & h & A & B & A0 & B0 & E).
    cbv zeta in *. simpl in A0, B0. rewrite A, B, A0, B0, E. repeat split.
Qed.

(* ------------------------------------------------------------------ *)
(** ** The whole trace *)

Lemma scan_trace P c n : forall i st st' evs,
  scan P c n i st = (st', evs, None) ->
  evs = flat_map (day_events P c (params st)) (seq i n).
Proof.
  induction n as [|n IH]; intros i st st' evs Hs; simpl in Hs.
  - now inversion Hs; subst.
  - destruct (iteration P c i st) as [[st1 evs1]|e] eqn:Hit; [|discriminate].
    destruct (scan P c n (S i) st1) as [[st2 evs2] r2] eqn:Hrec.
    inversion Hs; subst; clear Hs.
    rewrite (IH _ _ _ _ Hrec).
    destruct (iteration_inv _ _ _ _ _ _ Hit) as (d & tail & Hd & _ & _ & _ & Hp).
    assert (Hsame : same_fixed (params st1) (params st))
      by (rewrite Hp; apply set_date_same_fixed).
    unfold iteration in Hit. rewrite Hd in Hit.
    destruct (try_block_day P c (set_params st (set_originDepartureDate (params st) d))
                (params st)
                (axios_get P i (request_url (params (set_params st
                   (set_originDepartureDate (params st) d)))))
                (set_date_same_fixed _ _)) as (_ & _ & E).
    destruct (try_block P c _ _) as [st1' err]. inversion Hit; subst; clear Hit.
    simpl in E.
    assert (Hurl : offset_url P c (params st) i
                   = request_url (set_originDepartureDate (params st) d))
      by (unfold offset_url; now rewrite Hd).
    cbn [seq flat_map]. unfold day_events at 2. rewrite Hurl, <- E.
    cbn [app]. f_equal. f_equal.
    apply flat_map_ext. intros j. unfold day_events.
    rewrite (offset_url_same_fixed P c _ _ j Hsame).
    destruct (day_same_fixed P c _ _ (axios_get P j (offset_url P c (params st) j)) Hsame)
      as (_ & _ & ->).
    reflexivity.
Qed.

(** X12: the whole trace of a run that returns: for each of the fifteen
    offsets in turn its request and, when the [try] block of the day threw,
    one [console.log] of the error's response data; then either nothing, or
    the mail followed by the confirmation message.  Nothing else is shown. *)
Theorem X12_trace_of_a_run P key o d s rcpt args :
  status (crawl P key o d s rcpt args) = Returned ->
  let c := run_consts key o d s args in
  let p := initial_params o d s args in
  exists tail,
    events (crawl P key o d s rcpt args)
    = (flat_map (day_events P c p) (seq 0 15) ++ tail)%list
    /\ (tail = [] \/ exists m, tail = [TransportSendMail m; ConsoleLog "Mail bien envoyé !"]).
Proof.
  intros Hst c p. unfold crawl in *.
  destruct (formatDate P _) as [shown|]; [|discriminate].
  destruct (split_throws (hourRange args)); [discriminate|].
  destruct (scan P _ 15 0 _) as [[st evs] r] eqn:Hs.
  destruct r as [e|]; [discriminate|].
  simpl. rewrite (scan_trace _ _ _ _ _ _ _ Hs).
  eexists. split; [reflexivity|].
  destruct (hasResults st); [right; eexists; reflexivity|now left].
Qed.

Lemma X12_trace_of_a_run_witness :
  let c := run_consts "secret" "ORY" "LIS" "20240601" Sample.args_filtered in
  let p := initial_params "ORY" "LIS" "20240601" Sample.args_filtered in
  exists tail,
    events (crawl Sample.three_days "secret" "ORY" "LIS" "20240601" "me@example.org"
              Sample.args_filtered)
    = (flat_map (day_events Sample.three_days c p) (seq 0 15) ++ tail)%list
    /\ (tail = [] \/ exists m, tail = [TransportSendMail m; ConsoleLog "Mail bien envoyé !"]).
Proof.
  apply (X12_trace_of_a_run Sample.three_days "secret" "ORY" "LIS" "20240601"
           "me@example.org" Sample.args_filtered).
  vm_compute. reflexivity.
Defined.

(* ------------------------------------------------------------------ *)
(** ** The start date *)

(** The first turn of the loop overwrites the date in [params]: the scan
    does not see the one it began with. *)
Lemma scan_forgets_date P c n i st st' :
  same_fixed (params st) (params st') ->
  mailText st = mailText st' -> mailHTML st = mailHTML st' ->
  hasResults st = hasResults st' ->
  snd (fst (scan P c (S n) i st)) = snd (fst (scan P c (S n) i st'))
  /\ snd (scan P c (S n) i st) = snd (scan P c (S n) i st')
  /\ (snd (scan P c (S n) i st) = None ->
      fst (fst (scan P c (S n) i st)) = fst (fst (scan P c (S n) i st'))).
Proof.
  intros Hp Ht Hh Hr. cbn [scan].
  assert (E : iteration P c i st = iteration P c i st').
  { unfold iteration. destruct (departure_date P (c_formattedStart c) i) as [d|]; [|reflexivity].
    assert (E : set_params st (set_originDepartureDate (params st) d)
                = set_params st' (set_originDepartureDate (params st') d)).
    { unfold set_params. now rewrite (same_fixed_set_date _ _ d Hp), Ht, Hh, Hr. }
    now rewrite E. }
  rewrite E. destruct (iteration P c i st') as [[st1 evs1]|e].
  - destruct (scan P c n (S i) st1) as [[st2 evs2] r2]. repeat split.
  - simpl. repeat split. discriminate.
Qed.

Lemma eight_digits_inv s dashed rest :
  eight_digits s = Some (dashed, rest) ->
  exists a b c d e f g h,
    s = String a (String b (String c (String d (String e (String f (String g (String h rest)))))))
    /\ dashed = String a (String b (String c (String d (String "-"
                  (String e (String f (String "-" (String g (String h "")))))))))
    /\ JS.is_digit a = true /\ JS.is_digit b = true /\ JS.is_digit c = true
    /\ JS.is_digit d = true /\ JS.is_digit e = true /\ JS.is_digit f = true
    /\ JS.is_digit g = true /\ JS.is_digit h = true.
Proof.
  destruct s as [|a [|b [|c [|d [|e [|f [|g [|h r]]]]]]]]; try discriminate.
  unfold eight_digits.
  destruct (JS.is_digit a) eqn:Ea; [|discriminate].
  destruct (JS.is_digit b) eqn:Eb; [|discriminate].
  destruct (JS.is_digit c) eqn:Ec; [|discriminate].
  destruct (JS.is_digit d) eqn:Ed; [|discriminate].
  destruct (JS.is_digit e) eqn:Ee; [|discriminate].
  destruct (JS.is_digit f) eqn:Ef; [|discriminate].
  destruct (JS.is_digit g) eqn:Eg; [|discriminate].
  destruct (JS.is_digit h) eqn:Eh; [|discriminate].
  simpl. intros H. inversion H; subst.
  exists a, b, c, d, e, f, g, h. repeat split; assumption.
Qed.

Lemma format_start_step s :
  format_start s
  = match eight_digits s with
    | Some (dashed, rest) => (dashed ++ rest)%string
    | None => match s with
              | EmptyString => ""%string
              | String c r => String c (format_start r)
              end
    end.
Proof. destruct s; reflexivity. Qed.

Lemma remove_dash_digit c r :
  JS.is_digit c = true -> JS.remove_all "-" (String c r) = String c (JS.remove_all "-" r).
Proof. intros H. simpl. now rewrite (digit_not_dash c H). Qed.

Lemma format_start_dashes s :
  JS.remove_all "-" (format_start s) = JS.remove_all "-" s.
Proof.
  induction s as [|c r IH]; [reflexivity|].
  rewrite format_start_step.
  destruct (eight_digits (String c r)) as [[dashed rest]|] eqn:E.
  - destruct (eight_digits_inv _ _ _ E)
      as (a & b & c' & d & e & f & g & h & Hs & -> & Ha & Hb & Hc & Hd & He & Hf & Hg & Hh).
    rewrite Hs. cbn [String.append].
    repeat first [ rewrite remove_dash_digit by assumption
                 | change (JS.remove_all "-" (String "-" ?x)) with (JS.remove_all "-" x) ].
    reflexivity.
  - cbn [JS.remove_all]. destruct (Ascii.eqb c "-"); now rewrite IH.
Qed.

Lemma eight_digits_short s : (String.length s < 8)%nat -> eight_digits s = None.
Proof.
  destruct s as [|a [|b [|c [|d [|e [|f [|g [|h r]]]]]]]]; try reflexivity.
  simpl. lia.
Qed.

Lemma format_start_short s : (String.length s < 8)%nat -> format_start s = s.
Proof.
  induction s as [|c r IH]; [reflexivity|]. intros H.
  rewrite format_start_step, (eight_digits_short _ H).
  rewrite IH; [reflexivity|]. simpl in H. lia.
Qed.

Lemma eight_digits_dash_within s :
  match s with
  | String a (String b (String c (String d (String e (String f (String g (String h _))))))) =>
      a = "-"%char \/ b = "-"%char \/ c = "-"%char \/ d = "-"%char
      \/ e = "-"%char \/ f = "-"%char \/ g = "-"%char \/ h = "-"%char
  | _ => True
  end ->
  eight_digits s = None.
Proof.
  destruct s as [|a [|b [|c [|d [|e [|f [|g [|h r]]]]]]]]; try reflexivity.
  unfold eight_digits.
  intros [->|[->|[->|[->|[->|[->|[->| ->]]]]]]];
    cbn [JS.is_digit nat_of_ascii]; rewrite ?andb_false_r; reflexivity.
Qed.

Lemma eight_digit_start s :
  String.length s = 8%nat -> JS.all_digits s = true ->
  exists a b c d e f g h,
    s = String a (String b (String c (String d (String e (String f (String g (String h ""))))))) 
    /\ format_start s
       = String a (String b (String c (String d (String "-"
           (String e (String f (String "-" (String g (String h "")))))))))
    /\ format_start (format_start s) = format_start s.
Proof.
  intros Hlen Hd.
  destruct s as [|a [|b [|c [|d [|e [|f [|g [|h [|x r]]]]]]]]]; try discriminate.
  simpl in Hd. rewrite !andb_true_iff in Hd.
  destruct Hd as (Ha & Hb & Hc & Hd & He & Hf & Hg & Hh & _).
  exists a, b, c, d, e, f, g, h. split; [reflexivity|].
  assert (E : format_start (String a (String b (String c (String d (String e
                (String f (String g (String h ""))))))))
              = String a (String b (String c (String d (String "-"
                  (String e (String f (String "-" (String g (String h ""))))))))))
    by (rewrite format_start_step; unfold eight_digits;
        rewrite Ha, Hb, Hc, Hd, He, Hf, Hg, Hh; reflexivity).
  split; [exact E|]. rewrite E.
  rewrite format_start_step, eight_digits_dash_within by tauto.
  rewrite format_start_step, eight_digits_dash_within by tauto.
  rewrite format_start_step, eight_digits_dash_within by tauto.
  rewrite format_start_short by (simpl; lia). reflexivity.
Qed.

(** X13: the start date is read through its dashed form only: two start
    arguments with the same [formattedStart] give the same run, event for
    event.  A start date of eight digits and the same date already written
    with its dashes, [20240601] and [2024-06-01], are such a pair. *)
Theorem X13_start_read_through_its_dashed_form P key o d s s' rcpt args :
  format_start s = format_start s' ->
  crawl P key o d s rcpt args = crawl P key o d s' rcpt args.
Proof.
  intros H. unfold crawl, run_consts. rewrite <- H.
  destruct (formatDate P _) as [shown|]; [|reflexivity].
  destruct (split_throws (hourRange args)); [reflexivity|].
  set (c := {| c_origin := o; c_destination := d; c_formattedStart := format_start s;
               maxPrice := _; hourRangeStart := _; hourRangeEnd := _; apikey := key |}).
  destruct (scan_forgets_date P c 14 0 (initial_state o d s shown args)
              (initial_state o d s' shown args))
    as (E1 & E2 & E3); try reflexivity; [repeat split|].
  destruct (scan P c 15 0 (initial_state o d s shown args)) as [[st evs] r].
  destruct (scan P c 15 0 (initial_state o d s' shown args)) as [[st' evs'] r'].
  simpl in E1, E2, E3. subst evs' r'. destruct r as [e|]; [reflexivity|].
  now rewrite (E3 eq_refl).
Qed.

Lemma X13_start_read_through_its_dashed_form_witness :
  crawl Sample.three_days "secret" "ORY" "LIS" "20240601" "me@example.org" Sample.args
  = crawl Sample.three_days "secret" "ORY" "LIS" "2024-06-01" "me@example.org" Sample.args.
Proof.
  apply (X13_start_read_through_its_dashed_form Sample.three_days "secret" "ORY" "LIS"
           "20240601" "2024-06-01" "me@example.org" Sample.args).
  reflexivity.
Defined.

(** X14: [formattedStart] is [start] with dashes put in and nothing else
    changed: taking the dashes out of it gives what taking the dashes out of
    [start] gives.  A start date of eight digits becomes yyyy-mm-dd, which
    formatting again leaves alone, and a start shorter than eight
    characters is kept as it is. *)
Theorem X14_formatted_start s :
  JS.remove_all "-" (format_start s) = JS.remove_all "-" s
  /\ (String.length s = 8%nat -> JS.all_digits s = true ->
      format_start s
      = (substring 0 4 s ++ "-" ++ substring 4 2 s ++ "-" ++ substring 6 2 s)%string
      /\ format_start (format_start s) = format_start s)
  /\ ((String.length s < 8)%nat -> format_start s = s).
Proof.
  split; [apply format_start_dashes|]. split; [|apply format_start_short].
  intros Hlen Hd.
  destruct (eight_digit_start s Hlen Hd) as (a & b & c & d & e & f & g & h & -> & E & E').
  split; [|exact E']. rewrite E. reflexivity.
Qed.

Lemma X14_formatted_start_witness :
  (format_start "20240601"
   = (substring 0 4 "20240601" ++ "-" ++ substring 4 2 "20240601" ++ "-"
      ++ substring 6 2 "20240601")%string
   /\ format_start (format_start "20240601") = format_start "20240601")
  /\ format_start "June 1" = "June 1".
Proof.
  split.
  - apply (proj1 (proj2 (X14_formatted_start "20240601"))); reflexivity.
  - apply (proj2 (proj2 (X14_formatted_start "June 1"))). simpl. lia.
Defined.

(* ------------------------------------------------------------------ *)
(** ** The dates of a run where the offset of local time is fixed *)

Lemma plus_days_year_step date i :
  fst (fst (plus_days date i)) <= fst (fst (plus_days date (S i))).
Proof.
  simpl. destruct (plus_days date i) as [[y' m'] d']. simpl.
  destruct (d' <? JSDate.daysInMonth y' m'); [simpl; lia|].
  destruct (m' <? 12); simpl; lia.
Qed.

Lemma plus_days_year_mono date i j :
  (i <= j)%nat -> fst (fst (plus_days date i)) <= fst (fst (plus_days date j)).
Proof.
  induction 1 as [|j Hle IH]; [lia|].
  pose proof (plus_days_year_step date j). lia.
Qed.

(** X15: on Node, in a time zone whose offset never changes, a run with a
    start date of the calendar (and an hour range that is not the bare
    flag) returns normally and its fifteen requests carry, in order, the
    start date plus 0, 1, ... 14 days. *)
Theorem X15_dates_of_a_run_fixed_offset off responses key o dest rcpt args y m d :
  0 <= y -> JSDate.validDate y m d = true ->
  fst (fst (plus_days (y, m, d) 14)) <= 9999 ->
  hourRange args <> Some Bare ->
  let P := Node.platform (fun _ _ => off) responses in
  let s := yyyymmdd (y, m, d) in
  let run := crawl P key o dest s rcpt args in
  status run = Returned
  /\ requests (events run)
     = map (fun i => request_url
                       (set_originDepartureDate (initial_params o dest s args)
                          (yyyymmdd (plus_days (y, m, d) i))))
         (seq 0 15).
Proof.
  intros Hy Hv Hlast Hrange P s run. apply split_throws_bare in Hrange.
  assert (Hdates : forall j, (j < 15)%nat ->
            departure_date P (format_start s) j = Some (yyyymmdd (plus_days (y, m, d) j))).
  { intros j Hj. apply node_fixed_offset_dates; try assumption.
    pose proof (plus_days_year_mono (y, m, d) j 14 ltac:(lia)). lia. }
  assert (Hy' : y <= 9999).
  { pose proof (plus_days_year_mono (y, m, d) 0 14 ltac:(lia)) as H.
    change (fst (fst (plus_days (y, m, d) 0))) with y in H. lia. }
  subst run. unfold crawl.
  assert (Hshown : exists shown, formatDate P (Some (format_start s)) = Some shown).
  { unfold formatDate, new_Date, P, Node.platform. cbn [Date_parse]. unfold Node.parse.
    subst s. rewrite start_date_parsed by (try assumption; lia). eexists. reflexivity. }
  destruct Hshown as [shown ->]. rewrite Hrange.
  destruct (scan_completes P (run_consts key o dest s args) 15 0
              (initial_state o dest s shown args)) as (st' & evs & Hs & Hreq).
  { intros j Hj. change (c_formattedStart (run_consts key o dest s args))
      with (format_start s). rewrite Hdates by lia. discriminate. }
  rewrite Hs. cbn [status events]. split; [reflexivity|].
  rewrite requests_app, Hreq.
  replace (requests (if hasResults st' then _ else _)) with (@nil string)
    by (destruct (hasResults st'); reflexivity).
  rewrite app_nil_r. apply map_ext_in. intros j Hj. apply in_seq in Hj.
  unfold offset_url. change (c_formattedStart (run_consts key o dest s args))
    with (format_start s). rewrite Hdates by lia. reflexivity.
Qed.

Lemma X15_dates_of_a_run_fixed_offset_witness :
  let P := Node.platform (fun _ _ => 3600000) [] in
  let s := yyyymmdd (2024, 3, 25) in
  let run := crawl P "secret" "ORY" "LIS" s "me@example.org" Sample.args in
  status run = Returned
  /\ requests (events run)
     = map (fun i => request_url
                       (set_originDepartureDate (initial_params "ORY" "LIS" s Sample.args)
                          (yyyymmdd (plus_days (2024, 3, 25) i))))
         (seq 0 15).
Proof.
  apply (X15_dates_of_a_run_fixed_offset 3600000 [] "secret" "ORY" "LIS" "me@example.org"
           Sample.args 2024 3 25).
  - lia.
  - reflexivity.
  - vm_compute. discriminate.
  - discriminate.
Defined.

(** X16: where the offset of local time never changes, [addDays] moves a
    date by whole days of 24 hours, so that adding days twice is adding
    their sum and adding no day gives the date back; the result is an
    invalid date only when it leaves the range of [Date], and the days
    added to an invalid date give an invalid date. *)
Theorem X16_addDays_fixed_offset P off t a b :
  (forall t isUTC, LocalTZA P t isUTC = off) ->
  addDays P (Some t) a = JSDate.TimeClip (t + a * JSDate.msPerDay)
  /\ (addDays P (Some t) a <> None ->
      addDays P (addDays P (Some t) a) b = addDays P (Some t) (a + b))
  /\ (Z.abs t <= 8640000000000000 -> addDays P (Some t) 0 = Some t)
  /\ addDays P None a = None.
Proof.
  intros fixed. split; [apply (addDays_fixed_offset P off fixed)|].
  split; [|split; [|reflexivity]].
  - rewrite !(addDays_fixed_offset P off fixed). unfold JSDate.TimeClip.
    destruct (Z.abs (t + a * JSDate.msPerDay) <=? 8640000000000000); [|congruence].
    intros _. rewrite (addDays_fixed_offset P off fixed). unfold JSDate.TimeClip.
    replace (t + a * JSDate.msPerDay + b * JSDate.msPerDay)
      with (t + (a + b) * JSDate.msPerDay) by ring.
    reflexivity.
  - intros Ht. rewrite (addDays_fixed_offset P off fixed). unfold JSDate.TimeClip.
    replace (t + 0 * JSDate.msPerDay) with t by ring.
    apply Z.leb_le in Ht. now rewrite Ht.
Qed.

Lemma X16_addDays_fixed_offset_witness :
  let P := Node.platform (fun _ _ => 3600000) [] in
  addDays P (addDays P (Some 1711324800000) 6) 1 = addDays P (Some 1711324800000) (6 + 1)
  /\ addDays P (Some 1711324800000) 0 = Some 1711324800000.
Proof.
  intros P.
  pose proof (X16_addDays_fixed_offset P 3600000 1711324800000 6 1 (fun _ _ => eq_refl))
    as (_ & H1 & H2 & _).
  split; [apply H1; vm_compute; discriminate | apply H2; vm_compute; discriminate].
Defined.

(* ------------------------------------------------------------------ *)
(** ** The hour range *)

Lemma string_app_nil_r (a : string) : (a ++ "")%string = a.
Proof. induction a as [|x a IH]; simpl; [reflexivity|now rewrite IH]. Qed.

Lemma split_acc_no_sep sep s : forall cur,
  has_char sep s = false -> JS.split_acc sep cur s = [(cur ++ s)%string].
Proof.
  induction s as [|a r IH]; intros cur H; simpl.
  - now rewrite string_app_nil_r.
  - simpl in H. apply orb_false_iff in H. destruct H as [Ha Hr].
    rewrite Ha, (IH _ Hr), <- string_app_assoc. reflexivity.
Qed.

Lemma split_acc_at_sep sep a rest : forall cur,
  has_char sep a = false ->
  JS.split_acc sep cur (a ++ String sep rest) = (cur ++ a)%string :: JS.split_acc sep "" rest.
Proof.
  induction a as [|x a IH]; intros cur H; simpl.
  - now rewrite Ascii.eqb_refl, string_app_nil_r.
  - simpl in H. apply orb_false_iff in H. destruct H as [Hx Ha].
    rewrite Hx, (IH _ Ha), <- string_app_assoc. reflexivity.
Qed.

(** X17: how the option [-r] is cut into the two bounds.  A value without
    a dash is the lower bound and leaves the upper bound at 24; in a value
    with dashes the bounds are the first two pieces, and what follows a
    second dash is not read. *)
Theorem X17_bounds_of_the_hour_range key o d s args r :
  hourRange args = Some (Given r) ->
  let c := run_consts key o d s args in
  (has_char "-" r = false ->
   hourRangeStart c = Str r /\ hourRangeEnd c = Number (JS.of_Z 24))
  /\ (forall lo hi,
        has_char "-" lo = false -> has_char "-" hi = false ->
        (r = (lo ++ "-" ++ hi)%string \/ exists more, r = (lo ++ "-" ++ hi ++ "-" ++ more)%string) ->
        hourRangeStart c = Str lo /\ hourRangeEnd c = Str hi).
Proof.
  intros Hr c. subst c. unfold run_consts. cbn [hourRangeStart hourRangeEnd].
  rewrite Hr. unfold given_string, hour_bound, JS.split. split.
  - intros H. rewrite (split_acc_no_sep _ _ _ H). split; reflexivity.
  - intros lo hi Hlo Hhi [->|[more ->]].
    + change ((lo ++ "-" ++ hi)%string) with ((lo ++ String "-" hi)%string).
      rewrite (split_acc_at_sep _ _ _ _ Hlo), (split_acc_no_sep _ _ _ Hhi).
      split; reflexivity.
    + change ((lo ++ "-" ++ hi ++ "-" ++ more)%string)
        with ((lo ++ String "-" (hi ++ String "-" more))%string).
      rewrite (split_acc_at_sep _ _ _ _ Hlo), (split_acc_at_sep _ _ _ _ Hhi).
      split; reflexivity.
Qed.

Lemma X17_bounds_of_the_hour_range_witness :
  let args r :=
    {| origin := Some "ORY"; destination := Some "LIS"; start := Some "20240601";
       mail := Some "me@example.org"; price := None; adults := None; children := None;
       hourRange := Some (Given r) |} in
  (hourRangeStart (run_consts "secret" "ORY" "LIS" "20240601" (args "9")) = Str "9"
   /\ hourRangeEnd (run_consts "secret" "ORY" "LIS" "20240601" (args "9"))
      = Number (JS.of_Z 24))
  /\ (hourRangeStart (run_consts "secret" "ORY" "LIS" "20240601" (args "9-17-20")) = Str "9"
      /\ hourRangeEnd (run_consts "secret" "ORY" "LIS" "20240601" (args "9-17-20"))
         = Str "17").
Proof.
  intros args. split.
  - apply (proj1 (X17_bounds_of_the_hour_range "secret" "ORY" "LIS" "20240601"
                    (args "9") "9" eq_refl)).
    reflexivity.
  - apply (proj2 (X17_bounds_of_the_hour_range "secret" "ORY" "LIS" "20240601"
                    (args "9-17-20") "9-17-20" eq_refl) "9" "17");
      [reflexivity | reflexivity | right; exists "20"; reflexivity].
Defined.

(* ------------------------------------------------------------------ *)
(** ** A bound of the hour range that is not a number *)

Section Bounds.

Variable P : Platform.
Variable c : Consts.
Variable st : LoopState.
Variable flight : FlightOffer.
Variable ob : OutboundFlight.
Variable pricing : PricingInfoSum.
Variable dl : Deeplink.
Variable link : string.
Variables p m h : Q.

Hypothesis Hob : outboundFlight flight = Some ob.
Hypothesis Hpricing : pricingInfoSum flight = Some pricing.
Hypothesis Hdl : deeplink flight = Some dl.
Hypothesis Hlink : href dl = Some link.
Hypothesis Hp : totalPriceOnePassenger pricing = Some (JS.Num p).
Hypothesis Hh : departure_hour P (departureDateTime ob) = Some (JS.Num h).
Hypothesis Hm : ToNumber P (maxPrice c) = JS.Num m.

(** The sentence of the offer is appended exactly when the two tests of the
    loop body let it through. *)
Lemma appended_iff_tests :
  (exists row, mailText (fst (process_flight P c st flight)) = (mailText st ++ [row])%list)
  <-> JS.Qltb p m = true
      /\ JS.lt (JS.Num h) (ToNumber P (hourRangeStart c))
         || JS.gt (JS.Num h) (ToNumber P (hourRangeEnd c)) = false.
Proof.
  assert (Hsame : forall e, ~ exists row : TextRow,
             mailText (fst (st, e : option Error)) = (mailText st ++ [row])%list).
  { intros e [row H]. simpl in H. apply (f_equal (@length _)) in H.
    rewrite length_app in H. simpl in H. lia. }
  unfold process_flight.
  rewrite Hob, Hpricing, Hdl, Hlink, Hp, Hm, Hh. cbn [JS.ToNumber_opt JS.lt].
  destruct (JS.Qltb p m).
  - destruct (_ || _).
    + split; [intros H; now elim (Hsame _ H)|intros [_ H]; discriminate].
    + split; [auto|]. intros _.
      destruct (departure_hour_formatDate _ _ _ Hh) as [dep ->].
      destruct (formatDate P (arrivalDateTime ob)); eexists; reflexivity.
  - split; [intros H; now elim (Hsame _ H)|intros [H _]; discriminate].
Qed.

End Bounds.

(** X18: a bound of the hour range that is not a number filters nothing on
    its side, since every comparison with [NaN] is false: with a lower bound
    that is [NaN] an offer is kept when price < maximum and hour <= upper
    bound, with an upper bound that is [NaN] when price < maximum and lower
    bound <= hour, and with both when price < maximum, whatever its hour. *)
Theorem X18_bound_that_is_not_a_number P c st flight ob pricing dl link p m h :
  outboundFlight flight = Some ob ->
  pricingInfoSum flight = Some pricing ->
  deeplink flight = Some dl ->
  href dl = Some link ->
  totalPriceOnePassenger pricing = Some (JS.Num p) ->
  departure_hour P (departureDateTime ob) = Some (JS.Num h) ->
  ToNumber P (maxPrice c) = JS.Num m ->
  let kept :=
    exists row, mailText (fst (process_flight P c st flight)) = (mailText st ++ [row])%list in
  let lo := ToNumber P (hourRangeStart c) in
  let hi := ToNumber P (hourRangeEnd c) in
  (forall b, lo = JS.NaN -> hi = JS.Num b -> (kept <-> (p < m /\ h <= b)%Q))
  /\ (forall a, lo = JS.Num a -> hi = JS.NaN -> (kept <-> (p < m /\ a <= h)%Q))
  /\ (lo = JS.NaN -> hi = JS.NaN -> (kept <-> (p < m)%Q)).
Proof.
  intros Hob Hpricing Hdl Hlink Hp Hh Hm kept lo hi. subst kept lo hi.
  pose proof (appended_iff_tests P c st flight ob pricing dl link p m h
                Hob Hpricing Hdl Hlink Hp Hh Hm) as Hk.
  split; [|split].
  - intros b Hlo Hhi. rewrite Hk, Hlo, Hhi. unfold JS.gt. cbn [JS.lt orb].
    rewrite Qltb_lt, Qltb_ge. tauto.
  - intros a Hlo Hhi. rewrite Hk, Hlo, Hhi. unfold JS.gt. cbn [JS.lt].
    rewrite orb_false_r, Qltb_lt, Qltb_ge. tauto.
  - intros Hlo Hhi. rewrite Hk, Hlo, Hhi. unfold JS.gt. cbn [JS.lt orb].
    rewrite Qltb_lt. tauto.
Qed.

Lemma X18_bound_that_is_not_a_number_witness :
  let args :=
    {| origin := Some "ORY"; destination := Some "LIS"; start := Some "20240601";
       mail := Some "me@example.org"; price := None; adults := None; children := None;
       hourRange := Some (Given "evening") |} in
  let P := Sample.utc [] in
  let c := run_consts "secret" "ORY" "LIS" "20240601" args in
  let st := initial_state "ORY" "LIS" "20240601" "01/06/2024 00:00" args in
  (exists row, mailText (fst (process_flight P c st Sample.morning)) = (mailText st ++ [row])%list)
  <-> (inject_Z 150 < inject_Z 1000 /\ inject_Z 10 <= inject_Z 24)%Q.
Proof.
  intros args P c st.
  refine (proj1 (X18_bound_that_is_not_a_number P c st Sample.morning _ _ _ _
                   (inject_Z 150) (inject_Z 1000) (inject_Z 10) _ _ _ _ _ _ _)
            (inject_Z 24) _ _);
    reflexivity.
Defined.

(* ------------------------------------------------------------------ *)
(** ** The errors of an offer *)

Lemma new_Date_formatDate P time : formatDate P time = None <-> new_Date P time = None.
Proof. unfold formatDate. destruct (new_Date P time); split; congruence. Qed.

Lemma new_Date_departure_hour P time : departure_hour P time = None <-> new_Date P time = None.
Proof. unfold departure_hour. destruct (new_Date P time); split; congruence. Qed.

(** X19: what makes an offer throw.  A [TypeError] exactly when its
    [outboundFlight], its [pricingInfoSum], its [deeplink] or the [href] of
    the deeplink is missing, whatever its price, and then nothing has been
    appended; a [RangeError] exactly when those are there, the price is
    under the maximum, and either the departure time is no date or the hour
    is in the range and the arrival time is no date.  No other field and no
    other value makes it throw. *)
Theorem X19_errors_of_an_offer P c st flight :
  let e := snd (process_flight P c st flight) in
  (e = Some TypeError
   <-> outboundFlight flight = None \/ pricingInfoSum flight = None
       \/ deeplink flight = None
       \/ exists dl, deeplink flight = Some dl /\ href dl = None)
  /\ (e = Some TypeError -> fst (process_flight P c st flight) = st)
  /\ (e = Some RangeError
      <-> exists ob pricing dl link,
            outboundFlight flight = Some ob /\ pricingInfoSum flight = Some pricing
            /\ deeplink flight = Some dl /\ href dl = Some link
            /\ JS.lt (JS.ToNumber_opt (totalPriceOnePassenger pricing))
                     (ToNumber P (maxPrice c)) = true
            /\ (new_Date P (departureDateTime ob) = None
                \/ exists hour,
                     departure_hour P (departureDateTime ob) = Some hour
                     /\ JS.lt hour (ToNumber P (hourRangeStart c))
                        || JS.gt hour (ToNumber P (hourRangeEnd c)) = false
                     /\ new_Date P (arrivalDateTime ob) = None))
  /\ (e = None \/ e = Some TypeError \/ e = Some RangeError).
Proof.
  cbv zeta. unfold process_flight.
  destruct (outboundFlight flight) as [ob|].
  2: { simpl. split; [split; auto|]. split; [auto|]. split; [|auto].
       split; [discriminate|]. intros (? & ? & ? & ? & H & _). discriminate. }
  destruct (pricingInfoSum flight) as [pr|].
  2: { simpl. split; [split; auto|]. split; [auto|]. split; [|auto].
       split; [discriminate|]. intros (? & ? & ? & ? & _ & H & _). discriminate. }
  destruct (deeplink flight) as [dl|].
  2: { simpl. split; [split; auto|]. split; [auto|]. split; [|auto].
       split; [discriminate|]. intros (? & ? & ? & ? & _ & _ & H & _). discriminate. }
  destruct (href dl) as [l|] eqn:Hl.
  2: { simpl. split; [split; [intros _; right; right; right; eauto|auto]|].
       split; [auto|]. split; [|auto].
       split; [discriminate|]. intros (? & ? & dl' & ? & _ & _ & H & H' & _).
       inversion H; subst. congruence. }
  assert (Hno : ~ (Some ob = None \/ Some pr = None \/ Some dl = None
                   \/ exists dl', Some dl = Some dl' /\ href dl' = None)).
  { intros [H|[H|[H|(dl' & H & H')]]]; try discriminate. inversion H; subst. congruence. }
  destruct (JS.lt _ _) eqn:Hprice.
  2: { simpl. split; [split; [discriminate|intros H; now elim Hno]|].
       split; [discriminate|]. split; [|auto].
       split; [discriminate|].
       intros (ob' & pr' & ? & ? & H1 & H2 & _ & _ & H & _).
       inversion H1; inversion H2; subst. congruence. }
  destruct (departure_hour P (departureDateTime ob)) as [hour|] eqn:Hhour.
  2: { simpl. split; [split; [discriminate|intros H; now elim Hno]|].
       split; [discriminate|]. split; [|auto].
       split; [intros _|reflexivity].
       exists ob, pr, dl, l. repeat split; try assumption.
       left. now apply new_Date_departure_hour. }
  assert (Hdep : new_Date P (departureDateTime ob) <> None).
  { intros H. apply new_Date_departure_hour in H. congruence. }
  destruct (_ || _) eqn:Hrange.
  { simpl. split; [split; [discriminate|intros H; now elim Hno]|].
    split; [discriminate|]. split; [|auto].
    split; [discriminate|].
    intros (ob' & pr' & ? & ? & H1 & H2 & _ & _ & _ & [H|(hour' & H3 & H4 & _)]);
      inversion H1; subst; [now elim Hdep|].
    rewrite Hhour in H3. inversion H3; subst. congruence. }
  destruct (departure_hour_formatDate _ _ _ Hhour) as [dep ->].
  destruct (formatDate P (arrivalDateTime ob)) as [arr|] eqn:Harr.
  - simpl. split; [split; [discriminate|intros H; now elim Hno]|].
    split; [discriminate|]. split; [|auto].
    split; [discriminate|].
    intros (ob' & pr' & ? & ? & H1 & H2 & _ & _ & _ & [H|(hour' & _ & _ & H3)]);
      inversion H1; subst; [now elim Hdep|].
    apply new_Date_formatDate in H3. congruence.
  - simpl. split; [split; [discriminate|intros H; now elim Hno]|].
    split; [discriminate|]. split; [|auto].
    split; [intros _|reflexivity].
    exists ob, pr, dl, l. repeat split; try assumption.
    right. exists hour. repeat split; try assumption.
    now apply new_Date_formatDate.
Qed.

Lemma X19_errors_of_an_offer_witness :
  fst (process_flight (Sample.utc [])
         (run_consts "secret" "ORY" "LIS" "20240601" Sample.args)
         (initial_state "ORY" "LIS" "20240601" "01/06/2024 00:00" Sample.args)
         Sample.broken)
  = initial_state "ORY" "LIS" "20240601" "01/06/2024 00:00" Sample.args.
Proof.
  apply (proj1 (proj2 (X19_errors_of_an_offer (Sample.utc [])
                         (run_consts "secret" "ORY" "LIS" "20240601" Sample.args)
                         (initial_state "ORY" "LIS" "20240601" "01/06/2024 00:00" Sample.args)
                         Sample.broken))).
  reflexivity.
Defined.

(* ------------------------------------------------------------------ *)
(** ** The hour of a departure *)

Lemma hour_texts : holds_on hour_text_ok 0 24 = true.
Proof. vm_compute. reflexivity. Qed.

(** X20: where the hour of the departure is shown as two digits followed by
    [ h], as the [fr-FR] locale does, the hour that the loop body compares
    with the bounds is the number read from the decimal writing of that
    hour, without its leading zero: on Node, the hour itself. *)
Theorem X20_hour_of_a_departure P time tv h :
  0 <= h < 24 ->
  Date_parse P time = Some tv ->
  Intl_hour P tv = (JS.pad 2 h ++ " h")%string ->
  departure_hour P (Some time) = Some (StringToNumber P (JS.Z_to_string h))
  /\ (StringToNumber P = Node.string_to_number ->
      exists q, departure_hour P (Some time) = Some (JS.Num q) /\ (q == inject_Z h)%Q).
Proof.
  intros Hh Hparse Hintl.
  pose proof (holds_on_spec _ _ _ h hour_texts ltac:(simpl; lia)) as Ht.
  unfold hour_text_ok in Ht. apply String.eqb_eq in Ht. unfold hour_text in Ht.
  assert (E : departure_hour P (Some time) = Some (StringToNumber P (JS.Z_to_string h))).
  { unfold departure_hour, new_Date. now rewrite Hparse, Hintl, Ht. }
  split; [exact E|]. intros Hnode. rewrite E, Hnode, <- Ht.
  pose proof (holds_on_spec _ _ _ h hours_read_back ltac:(simpl; lia)) as Hr.
  unfold Sample.hour_reads_back, Sample.hour_read_back in Hr.
  destruct (Node.string_to_number _) as [q| | |]; try discriminate.
  exists q. split; [reflexivity|]. now apply Qeq_bool_iff.
Qed.

Lemma X20_hour_of_a_departure_witness :
  departure_hour (Sample.utc []) (Some "2024-06-01T09:30:00")
  = Some (Node.string_to_number (JS.Z_to_string 9)).
Proof.
  apply (proj1 (X20_hour_of_a_departure (Sample.utc []) "2024-06-01T09:30:00"
                  1717234200000 9 ltac:(lia) eq_refl eq_refl)).
Defined.

(* ------------------------------------------------------------------ *)
(** ** No row is lost *)

(** X21: in a run that returns, every sentence that the response of one of
    the fifteen offsets contributes reaches the recipient: exactly one mail
    is sent and its text holds that sentence. *)
Theorem X21_rows_are_mailed P key o d s rcpt args j row :
  status (crawl P key o d s rcpt args) = Returned ->
  (j < 15)%nat ->
  let c := run_consts key o d s args in
  let p := initial_params o d s args in
  In row (day_text P c p (axios_get P j (offset_url P c p j))) ->
  exists m, mails_sent (events (crawl P key o d s rcpt args)) = [m] /\ In row (text m).
Proof.
  intros Hst Hj c p Hrow.
  destruct (crawl_cases P key o d s rcpt args)
    as [[_ Hc]|[(_ & _ & Hc)|(shown & st & evs & r & Hshown & Hrange & Hscan
                              & [(e & -> & Hc)|(-> & _)])]];
    try (rewrite Hc in Hst; discriminate).
  destruct (scan_days P _ _ _ _ _ _ Hscan) as [A _]. cbv zeta in A.
  assert (Hin : In row (mailText st)).
  { rewrite A. apply in_or_app. right.
    apply in_flat_map. exists j. split; [apply in_seq; lia|exact Hrow]. }
  assert (Hne : mailText st <> []) by (intros E; rewrite E in Hin; contradiction).
  rewrite (one_mail_when_a_row P key o d s rcpt args shown st evs Hshown Hrange Hscan Hne).
  eexists. split; [reflexivity|exact Hin].
Qed.

Lemma X21_rows_are_mailed_witness :
  exists m,
    mails_sent (events (crawl Sample.three_days "secret" "ORY" "LIS" "20240601"
                          "me@example.org" Sample.args_filtered)) = [m]
    /\ In {| t_flightNumber := Some "TO3400";
             t_departure := "01/06/2024 10:00";
             t_origin := "ORY";
             t_arrival := Some "2024-06-01T11:30:00";
             t_destination := "LIS";
             t_priceAllPassengers := Some (JS.of_Z 300);
             t_currency := Some "EUR";
             t_priceOnePassenger := Some (JS.of_Z 150);
             t_link := "https://www.transavia.com/fr-FR/book" |} (text m).
Proof.
  apply (X21_rows_are_mailed Sample.three_days "secret" "ORY" "LIS" "20240601"
           "me@example.org" Sample.args_filtered 0).
  - vm_compute. reflexivity.
  - lia.
  - vm_compute. left. reflexivity.
Defined.
